(** * FDC-101: the attestation workflow engine

    A shallow embedding of [src/services/FDCService.ts] (ProofCache,
    RetryStrategy, FDCService), [src/builders/AttestationRequestBuilder.ts]
    and the part of [src/base/WeatherInsuranceBase.ts] that drives them,
    followed by the properties of the engine.

    Conventions of the embedding.
    - A JavaScript [number] holding a count or a timestamp is a [Z]; one that
      is multiplied by a fractional factor (delays, poll intervals) is a [Q],
      which is exact for the values the code produces from whole
      milliseconds.  NaN and infinities are not represented.
    - An optional field ([x?: T]) is an [option]; [a || d] on a number or a
      string is [orDefault]: the default replaces an absent, zero or empty
      value.
    - Asynchronous code runs as one sequence of steps over a [World]: the
      clock read by [Date.now()], the contents of the proof cache, the number
      of calls each collaborator has received, and the log of observable
      events.  The collaborators (verifier server, ledger, relay, DA layer,
      timer) are an [Env] of scripted answers, indexed by call number.
      The clock moves during [sleep] only, by what the timer of the [Env]
      says; the other calls take no time.
    - A callback ([onRetry], [onProgress]) is a logging side effect: it adds
      an event to the log and returns.
    - [while (true)] loops take a fuel argument; running out of fuel is the
      outcome [Diverge], which is not a result of the program. *)

From Stdlib Require Import ZArith QArith Qminmax Qround Sorted Lia Lqa Ascii.
From stdpp Require Import base strings gmap list pretty.

Open Scope Z_scope.
Set Warnings "-register-all".

(** ** JavaScript helpers *)

Module JS.

(** Truthiness of a number and of a string. *)
Definition truthyZ (x : Z) : bool := negb (x =? 0).
Definition truthyQ (x : Q) : bool := negb (Qnum x =? 0).
Definition truthyStr (s : string) : bool := negb (String.eqb s "").

(** [o || d] for an optional number or string. *)
Definition orDefaultZ (o : option Z) (d : Z) : Z :=
  match o with
  | Some x => if truthyZ x then x else d
  | None => d
  end.

Definition orDefaultQ (o : option Q) (d : Q) : Q :=
  match o with
  | Some x => if truthyQ x then x else d
  | None => d
  end.

Definition orDefaultStr (o : option string) (d : string) : string :=
  match o with
  | Some s => if truthyStr s then s else d
  | None => d
  end.

(** [!o] for an optional string: true on [undefined] and on [""]. *)
Definition falsyStr (o : option string) : bool :=
  match o with
  | Some s => negb (truthyStr s)
  | None => true
  end.

(** [a < b] on numbers. *)
Definition Qltb (a b : Q) : bool := negb (Qle_bool b a).

(** [Math.round(x / 1000)] for an integer [x]: the nearest integer, ties
    towards plus infinity. *)
Definition roundDiv1000 (x : Z) : Z := (x + 500) / 1000.

(** [{ ...a, ...b }] on one optional field: the field of [b] when present. *)
Definition spread {A} (a b : option A) : option A :=
  match b with
  | Some _ => b
  | None => a
  end.

End JS.

(** ** src/types/FDCTypes.ts *)

Record AttestationRequest := {
  req_url : string;
  req_httpMethod : string;
  req_headers : string;
  req_queryParams : string;
  req_body : string;
  req_postProcessJq : string;
  req_abiSignature : string;
}.

Record PreparedAttestationRequest := {
  status : string;
  abiEncodedRequest : string;
}.

Record ProofData := {
  response_hex : string;
  attestation_type : string;
  proof : list string;
}.

Record RoundInfo := {
  roundId : Z;
  blockNumber : Z;
  blockTimestamp : Z;
  explorerUrl : string;
}.

Module FDC.
Record AttestationRequestParams := {
  apiUrl : string;
  postProcessJq : string;
  abiSignature : string;
  httpMethod : option string;
  headers : option string;
  queryParams : option string;
  body : option string;
}.
End FDC.
Abbreviation AttestationRequestParams := FDC.AttestationRequestParams.

Module RetryOptions.
Record t := {
  maxAttempts : option Z;
  initialDelayMs : option Q;
  maxDelayMs : option Q;
  backoffMultiplier : option Q;
  retryableErrors : option (list string);
}.
(** [{}] *)
Definition empty : t :=
  {| maxAttempts := None; initialDelayMs := None; maxDelayMs := None;
     backoffMultiplier := None; retryableErrors := None |}.
End RetryOptions.

(** [onProgress] is a logging callback; only its presence is recorded. *)
Module PollingOptions.
Record t := {
  checkIntervalMs : option Q;
  maxWaitTimeMs : option Z;
  onProgress : option unit;
}.
(** [{}] *)
Definition empty : t :=
  {| checkIntervalMs := None; maxWaitTimeMs := None; onProgress := None |}.
(** [{ ...a, ...b }] *)
Definition merge (a b : t) : t :=
  {| checkIntervalMs := JS.spread (checkIntervalMs a) (checkIntervalMs b);
     maxWaitTimeMs := JS.spread (maxWaitTimeMs a) (maxWaitTimeMs b);
     onProgress := JS.spread (onProgress a) (onProgress b) |}.
End PollingOptions.

Module FDCServiceOptions.
Record t := {
  enableCaching : option bool;
  cacheTtlMs : option Z;
  defaultRetryOptions : option RetryOptions.t;
  defaultPollingOptions : option PollingOptions.t;
}.
End FDCServiceOptions.

Inductive AttestationType :=
| Web2Json | PaymentVerification | BalanceDecreasing | AddressValidity | BlockHeight.

Inductive SourceId := PublicWeb2.

Definition AttestationType_str (t : AttestationType) : string :=
  match t with
  | Web2Json => "Web2Json"
  | PaymentVerification => "PaymentVerification"
  | BalanceDecreasing => "BalanceDecreasing"
  | AddressValidity => "AddressValidity"
  | BlockHeight => "BlockHeight"
  end.

Definition SourceId_str (s : SourceId) : string :=
  match s with PublicWeb2 => "PublicWeb2" end.

(** The error classes.  [JsError] is the built-in [Error]; the others are the
    classes of FDCTypes.ts with their payload. *)
Inductive Error :=
| JsError (message : string)
| FDCError (message code : string)
| FDCValidationError (message : string)
| FDCRetryError (message : string) (attempts : Z) (originalError : option Error)
| FDCTimeoutError (message : string) (timeoutMs : Z).

(** The [code] field of an FDCError and of its subclasses. *)
Definition error_code (e : Error) : option string :=
  match e with
  | JsError _ => None
  | FDCError _ c => Some c
  | FDCValidationError _ => Some "VALIDATION_ERROR"
  | FDCRetryError _ _ _ => Some "RETRY_EXHAUSTED"
  | FDCTimeoutError _ _ => Some "TIMEOUT"
  end.

Definition isValidationError (e : Error) : bool :=
  match e with
  | FDCValidationError _ => true
  | _ => false
  end.

(** What a [throw] or a rejected promise carries: an [Error] object, or some
    other value, of which only [String(value)] is ever used. *)
Inductive Thrown :=
| ThrownError (e : Error)
| ThrownOther (asString : string).

(** [error instanceof Error ? error : new Error(String(error))] *)
Definition toError (t : Thrown) : Error :=
  match t with
  | ThrownError e => e
  | ThrownOther s => JsError s
  end.

(** ** The world the engine runs in *)

(** A served HTTP exchange: [fetch] rejects, or resolves to a response whose
    [json()] yields a payload or rejects. *)
Inductive FetchResult (A : Type) :=
| FetchRejected (t : Thrown)
| FetchResponse (ok : bool) (httpStatus : Z) (statusText : string) (json : Thrown + A).
Arguments FetchRejected {A} t.
Arguments FetchResponse {A} ok httpStatus statusText json.

(** The payload of the DA layer before it is known to be a proof:
    [response_hex] may be missing. *)
Record ProofPayload := {
  pp_response_hex : option string;
  pp_attestation_type : string;
  pp_proof : list string;
}.

Record NetworkConfig := {
  daLayerUrl : string;
  verifierUrl : string;
  systemsExplorerUrl : string;
}.

Record FDCConfig := {
  verifierApiKey : string;
  requestRetryAttempts : Z;
  requestRetryDelayMs : Z;
  roundFinalizationCheckIntervalMs : Q;
  proofGenerationCheckIntervalMs : Q;
  maxRoundFinalizationWaitMs : Z;
  enableProofCache : bool;
  proofCacheTtlMs : Z;
}.

Inductive Channel :=
| ChOperation | ChVerifier | ChRequestFee | ChFdcHub | ChRelay | ChDALayer.

#[global] Instance Channel_eq_dec : EqDecision Channel.
Proof. solve_decision. Defined.

(** The collaborators.  Each scripted answer is indexed by the number of calls
    the collaborator has received before.  [sleepElapsed ms] is the time the
    clock has advanced when [sleep(ms)] resumes; [toUtf8HexString] and
    [sleep] come from scripts/utils/core, [ConfigManager] supplies both
    configurations. *)
Record Env := {
  sleepElapsed : Q -> Z;
  toUtf8HexString : string -> string;
  networkConfig : NetworkConfig;
  fdcConfig : FDCConfig;
  verifier : nat -> FetchResult PreparedAttestationRequest;
  getRequestFee : nat -> Thrown + Z;
  requestAttestation : nat -> Thrown + Z;
  getBlockTimestamp : Z -> Z;
  firstVotingRoundStartTs : Z;
  votingEpochDurationSeconds : Z;
  fdcProtocolId : Z;
  isFinalized : nat -> Thrown + bool;
  daLayer : nat -> FetchResult ProofPayload;
}.

Inductive Event :=
| EvCall
| EvOnRetry (attempt : Z) (error : Error)
| EvSleep (ms : Q)
| EvFetchVerifier (url : string) (attestationTypeHex sourceIdHex : string)
    (requestBody : AttestationRequest)
| EvGetRequestFee (abiEncoded : string)
| EvRequestAttestation (abiEncoded : string) (value : Z)
| EvIsFinalized (protocolId round : Z)
| EvProgress (message : string)
| EvFetchProof (url : string) (votingRoundId : Z) (requestBytes : string).

Record World := {
  clock : Z;
  calls : Channel -> nat;
  cache : gmap string (ProofData * Z);
  trace : list Event;
}.

Definition initialWorld (now : Z) : World :=
  {| clock := now; calls := fun _ => O; cache := ∅; trace := [] |}.

(** Outcome of a run: a value, a thrown value, or fuel exhausted. *)
Inductive Res (A : Type) :=
| Ok (a : A)
| Throw (t : Thrown)
| Diverge.
Arguments Ok {A} a.
Arguments Throw {A} t.
Arguments Diverge {A}.

Definition M (A : Type) : Type := World -> Res A * World.

Definition ret {A} (a : A) : M A := fun w => (Ok a, w).

Definition bind {A B} (m : M A) (k : A -> M B) : M B :=
  fun w =>
    match m w with
    | (Ok a, w1) => k a w1
    | (Throw t, w1) => (Throw t, w1)
    | (Diverge, w1) => (Diverge, w1)
    end.

Notation "'let*' x ':=' m 'in' k" := (bind m (fun x => k))
  (at level 10, x name, m at level 100, k at level 200).
Notation "'do' m 'then' k" := (bind m (fun _ => k))
  (at level 10, m at level 100, k at level 200).

Definition throw {A} (e : Error) : M A := fun w => (Throw (ThrownError e), w).

Definition out_of_fuel {A} : M A := fun w => (Diverge, w).

(** [try { m } catch (error) { h error }] *)
Definition try_catch {A} (m : M A) (h : Thrown -> M A) : M A :=
  fun w =>
    match m w with
    | (Throw t, w1) => h t w1
    | r => r
    end.

(** [await p] for a promise that settles as [r]. *)
Definition settle {A} (r : Thrown + A) : M A :=
  fun w =>
    match r with
    | inl t => (Throw t, w)
    | inr a => (Ok a, w)
    end.

(** The world after one more observable event. *)
Definition log (e : Event) (w : World) : World :=
  {| clock := clock w; calls := calls w; cache := cache w;
     trace := trace w ++ [e] |}.

(** The world [ms] milliseconds later. *)
Definition advance (ms : Z) (w : World) : World :=
  {| clock := clock w + ms; calls := calls w; cache := cache w;
     trace := trace w |}.

(** The world after one more call to a collaborator. *)
Definition called (ch : Channel) (w : World) : World :=
  {| clock := clock w;
     calls := fun c => if decide (c = ch) then S (calls w c) else calls w c;
     cache := cache w; trace := trace w |}.

Definition emit (e : Event) : M unit := fun w => (Ok tt, log e w).

(** [Date.now()] *)
Definition now : M Z := fun w => (Ok (clock w), w).

(** The number of calls a collaborator has received before this one, which
    is counted in. *)
Definition next_call (ch : Channel) : M nat :=
  fun w => (Ok (calls w ch), called ch w).

Definition when (b : bool) (m : M unit) : M unit := if b then m else ret tt.

(** Projections of the event log. *)
Definition sleeps (tr : list Event) : list Q :=
  omap (fun e => match e with EvSleep ms => Some ms | _ => None end) tr.

Definition retries (tr : list Event) : list (Z * Error) :=
  omap (fun e => match e with EvOnRetry i err => Some (i, err) | _ => None end) tr.

Definition count (p : Event -> bool) (tr : list Event) : nat :=
  length (List.filter p tr).

Definition is_call (e : Event) : bool :=
  match e with EvCall => true | _ => false end.

Definition is_fetch_verifier (e : Event) : bool :=
  match e with EvFetchVerifier _ _ _ _ => true | _ => false end.

Definition is_request_attestation (e : Event) : bool :=
  match e with EvRequestAttestation _ _ => true | _ => false end.

(** An event that reaches the network: a request to the verifier server, to
    the ledger, to the relay or to the DA layer. *)
Definition is_network (e : Event) : bool :=
  match e with
  | EvFetchVerifier _ _ _ _ | EvGetRequestFee _ | EvRequestAttestation _ _
  | EvIsFinalized _ _ | EvFetchProof _ _ _ => true
  | _ => false
  end.

(** [sleep(ms)] of scripts/utils/core: suspends, and the clock has advanced by
    [sleepElapsed env ms] when the caller resumes. *)
Definition sleep (env : Env) (ms : Q) : M unit :=
  fun w => (Ok tt, advance (sleepElapsed env ms) (log (EvSleep ms) w)).

(** ** class ProofCache *)

Module ProofCache.

(** The instance holds [ttl]; its [Map] is the [cache] of the world. *)
Record t := { ttl : Z }.

Definition new (ttlMs : Z) : t := {| ttl := ttlMs |}.

Definition get (self : t) (key : string) : M (option ProofData) :=
  fun w =>
    match cache w !! key with
    | None => (Ok None, w)
    | Some (data, timestamp) =>
        let age := clock w - timestamp in
        if ttl self <? age then
          (Ok None, {| clock := clock w; calls := calls w;
                       cache := delete key (cache w); trace := trace w |})
        else (Ok (Some data), w)
    end.

Definition set (self : t) (key : string) (data : ProofData) : M unit :=
  fun w => (Ok tt, {| clock := clock w; calls := calls w;
                      cache := <[key := (data, clock w)]> (cache w);
                      trace := trace w |}).

Definition clear (self : t) : M unit :=
  fun w => (Ok tt, {| clock := clock w; calls := calls w; cache := ∅;
                      trace := trace w |}).

Definition generateKey (abiEncodedRequest : string) (roundId : Z) : string :=
  abiEncodedRequest +:+ ":" +:+ pretty roundId.

End ProofCache.

(** ** class RetryStrategy *)

Module RetryStrategy.

Record t := {
  maxAttempts : Z;
  initialDelayMs : Q;
  maxDelayMs : Q;
  backoffMultiplier : Q;
}.

Definition new (options : RetryOptions.t) : t :=
  {| maxAttempts := JS.orDefaultZ (RetryOptions.maxAttempts options) 10;
     initialDelayMs := JS.orDefaultQ (RetryOptions.initialDelayMs options) 1000;
     maxDelayMs := JS.orDefaultQ (RetryOptions.maxDelayMs options) 60000;
     backoffMultiplier := JS.orDefaultQ (RetryOptions.backoffMultiplier options) 2 |}.

Section execute.
Context {T : Type}.
Variable env : Env.
Variable self : t.
Variable operation : M T.
Variable onRetry : option (Z -> Error -> M unit).

(** The [throw] after the loop. *)
Definition exhausted (lastError : option Error) : M T :=
  throw (FDCRetryError
           ("Operation failed after " +:+ pretty (maxAttempts self) +:+ " attempts")
           (maxAttempts self) lastError).

(** The [for] loop, entered at its test with the current values of
    [attempt], [delay] and [lastError]; [break] leaves to [exhausted]. *)
Fixpoint execute_loop (fuel : nat) (attempt : Z) (delay : Q)
    (lastError : option Error) : M T :=
  if attempt <=? maxAttempts self then
    match fuel with
    | O => out_of_fuel
    | S fuel' =>
        try_catch operation (fun error =>
          let lastError := toError error in
          if attempt =? maxAttempts self then exhausted (Some lastError)
          else
            do match onRetry with
               | Some f => f attempt lastError
               | None => ret tt
               end then
            do sleep env delay then
            execute_loop fuel' (attempt + 1)
              (Qmin (delay * backoffMultiplier self) (maxDelayMs self))
              (Some lastError))
    end
  else exhausted lastError.

(** The loop body runs at most [maxAttempts] times, which is the fuel. *)
Definition execute : M T :=
  execute_loop (Z.to_nat (maxAttempts self)) 1 (initialDelayMs self) None.

End execute.

End RetryStrategy.

(** A test double for [operation]: it counts and logs its calls and settles
    as the script says for that call. *)
Definition scripted {T} (script : nat -> Thrown + T) : M T :=
  let* n := next_call ChOperation in
  do emit EvCall then
  settle (script n).

(** A test double for [onRetry]: it logs its arguments. *)
Definition logRetry : option (Z -> Error -> M unit) :=
  Some (fun attempt error => emit (EvOnRetry attempt error)).

(** [onRetry] is not given, or is the logging double. *)
Definition quiet (onRetry : option (Z -> Error -> M unit)) : Prop :=
  onRetry = None \/ onRetry = logRetry.

(** The events of a run of [execute], with the logging [onRetry], in which
    the operation fails [k] more times, with the errors [fails i],
    [fails (i + 1)], ..., and then succeeds; [i] failures came before and
    [delay] is the current delay. *)
Fixpoint retry_log (self : RetryStrategy.t) (fails : nat -> Thrown) (k i : nat)
    (delay : Q) : list Event :=
  match k with
  | O => [EvCall]
  | S k' =>
      EvCall :: EvOnRetry (Z.of_nat (S i)) (toError (fails i)) :: EvSleep delay
        :: retry_log self fails k' (S i)
             (Qmin (delay * RetryStrategy.backoffMultiplier self)
                (RetryStrategy.maxDelayMs self))
  end.

(** ** class AttestationRequestBuilder *)

(** [Partial<AttestationRequestParams>] *)
Module Partial.
Record AttestationRequestParams := {
  apiUrl : option string;
  postProcessJq : option string;
  abiSignature : option string;
  httpMethod : option string;
  headers : option string;
  queryParams : option string;
  body : option string;
}.
(** [{}] *)
Definition empty : AttestationRequestParams :=
  {| apiUrl := None; postProcessJq := None; abiSignature := None;
     httpMethod := None; headers := None; queryParams := None; body := None |}.
End Partial.

Module AttestationRequestBuilder.

Record t := {
  params : Partial.AttestationRequestParams;
  attestationType : AttestationType;
  sourceId : SourceId;
}.

(** What [build] returns. *)
Record Built := {
  built_params : AttestationRequestParams;
  built_attestationType : AttestationType;
  built_sourceId : SourceId;
}.

(** [new AttestationRequestBuilder()], also [createAttestationRequest()] *)
Definition new : t :=
  {| params := Partial.empty; attestationType := Web2Json; sourceId := PublicWeb2 |}.

(** [this.params = p] *)
Definition with_params (self : t) (p : Partial.AttestationRequestParams) : t :=
  {| params := p; attestationType := attestationType self;
     sourceId := sourceId self |}.

Definition url (apiUrl : string) (self : t) : t :=
  let p := params self in
  with_params self
    {| Partial.apiUrl := Some apiUrl;
       Partial.postProcessJq := Partial.postProcessJq p;
       Partial.abiSignature := Partial.abiSignature p;
       Partial.httpMethod := Partial.httpMethod p;
       Partial.headers := Partial.headers p;
       Partial.queryParams := Partial.queryParams p;
       Partial.body := Partial.body p |}.

Definition jqFilter (postProcessJq : string) (self : t) : t :=
  let p := params self in
  with_params self
    {| Partial.apiUrl := Partial.apiUrl p;
       Partial.postProcessJq := Some postProcessJq;
       Partial.abiSignature := Partial.abiSignature p;
       Partial.httpMethod := Partial.httpMethod p;
       Partial.headers := Partial.headers p;
       Partial.queryParams := Partial.queryParams p;
       Partial.body := Partial.body p |}.

Definition abiSignature (abiSignature : string) (self : t) : t :=
  let p := params self in
  with_params self
    {| Partial.apiUrl := Partial.apiUrl p;
       Partial.postProcessJq := Partial.postProcessJq p;
       Partial.abiSignature := Some abiSignature;
       Partial.httpMethod := Partial.httpMethod p;
       Partial.headers := Partial.headers p;
       Partial.queryParams := Partial.queryParams p;
       Partial.body := Partial.body p |}.

Definition method (httpMethod : string) (self : t) : t :=
  let p := params self in
  with_params self
    {| Partial.apiUrl := Partial.apiUrl p;
       Partial.postProcessJq := Partial.postProcessJq p;
       Partial.abiSignature := Partial.abiSignature p;
       Partial.httpMethod := Some httpMethod;
       Partial.headers := Partial.headers p;
       Partial.queryParams := Partial.queryParams p;
       Partial.body := Partial.body p |}.

Section json.
(** The argument of [headers], [queryParams] and [body] is a string or an
    object, which [JSON.stringify] turns into a string. *)
Variable JsObject : Type.
Variable JSON_stringify : JsObject -> string.

(** [typeof v === "string" ? v : JSON.stringify(v)] *)
Definition stringified (v : string + JsObject) : string :=
  match v with
  | inl s => s
  | inr o => JSON_stringify o
  end.

Definition headers (headers : string + JsObject) (self : t) : t :=
  let p := params self in
  with_params self
    {| Partial.apiUrl := Partial.apiUrl p;
       Partial.postProcessJq := Partial.postProcessJq p;
       Partial.abiSignature := Partial.abiSignature p;
       Partial.httpMethod := Partial.httpMethod p;
       Partial.headers := Some (stringified headers);
       Partial.queryParams := Partial.queryParams p;
       Partial.body := Partial.body p |}.

Definition queryParams (queryParams : string + JsObject) (self : t) : t :=
  let p := params self in
  with_params self
    {| Partial.apiUrl := Partial.apiUrl p;
       Partial.postProcessJq := Partial.postProcessJq p;
       Partial.abiSignature := Partial.abiSignature p;
       Partial.httpMethod := Partial.httpMethod p;
       Partial.headers := Partial.headers p;
       Partial.queryParams := Some (stringified queryParams);
       Partial.body := Partial.body p |}.

Definition body (body : string + JsObject) (self : t) : t :=
  let p := params self in
  with_params self
    {| Partial.apiUrl := Partial.apiUrl p;
       Partial.postProcessJq := Partial.postProcessJq p;
       Partial.abiSignature := Partial.abiSignature p;
       Partial.httpMethod := Partial.httpMethod p;
       Partial.headers := Partial.headers p;
       Partial.queryParams := Partial.queryParams p;
       Partial.body := Some (stringified body) |}.
End json.

Definition type (attestationType : AttestationType) (self : t) : t :=
  {| params := params self; attestationType := attestationType;
     sourceId := sourceId self |}.

Definition source (sourceId : SourceId) (self : t) : t :=
  {| params := params self; attestationType := attestationType self;
     sourceId := sourceId |}.

Definition reset (self : t) : t := new.

(** [this.params.x] where the guard [!this.params.x] has been passed. *)
Definition required (o : option string) : string := default "" o.

Definition build (self : t) : Error + Built :=
  let p := params self in
  if JS.falsyStr (Partial.apiUrl p) then inl (JsError "API URL is required")
  else if JS.falsyStr (Partial.postProcessJq p) then inl (JsError "JQ filter is required")
  else if JS.falsyStr (Partial.abiSignature p) then
    inl (JsError "ABI signature is required")
  else
    inr {| built_params :=
             {| FDC.apiUrl := required (Partial.apiUrl p);
                FDC.postProcessJq := required (Partial.postProcessJq p);
                FDC.abiSignature := required (Partial.abiSignature p);
                FDC.httpMethod := Some (JS.orDefaultStr (Partial.httpMethod p) "GET");
                FDC.headers := Some (JS.orDefaultStr (Partial.headers p) "{}");
                FDC.queryParams := Some (JS.orDefaultStr (Partial.queryParams p) "{}");
                FDC.body := Some (JS.orDefaultStr (Partial.body p) "{}") |};
           built_attestationType := attestationType self;
           built_sourceId := sourceId self |}.

(** Chains of calls of the fluent methods. *)
Section chains.
Variable JsObject : Type.
Variable JSON_stringify : JsObject -> string.

(** A call of one of the fluent methods. *)
Inductive Call :=
| CallUrl (v : string)
| CallJqFilter (v : string)
| CallAbiSignature (v : string)
| CallMethod (v : string)
| CallHeaders (v : string + JsObject)
| CallQueryParams (v : string + JsObject)
| CallBody (v : string + JsObject)
| CallType (v : AttestationType)
| CallSource (v : SourceId)
| CallReset.

Definition perform (c : Call) (b : t) : t :=
  match c with
  | CallUrl v => url v b
  | CallJqFilter v => jqFilter v b
  | CallAbiSignature v => abiSignature v b
  | CallMethod v => method v b
  | CallHeaders v => headers JsObject JSON_stringify v b
  | CallQueryParams v => queryParams JsObject JSON_stringify v b
  | CallBody v => body JsObject JSON_stringify v b
  | CallType v => type v b
  | CallSource v => source v b
  | CallReset => reset b
  end.

(** The builder after a chain of calls, first call first. *)
Definition chain (cs : list Call) : t := foldl (fun b c => perform c b) new cs.

(** A call that sets the attestation type or the source. *)
Definition setsKind (c : Call) : bool :=
  match c with
  | CallType _ | CallSource _ => true
  | _ => false
  end.

End chains.
Arguments CallUrl {JsObject} v.
Arguments CallJqFilter {JsObject} v.
Arguments CallAbiSignature {JsObject} v.
Arguments CallMethod {JsObject} v.
Arguments CallHeaders {JsObject} v.
Arguments CallQueryParams {JsObject} v.
Arguments CallBody {JsObject} v.
Arguments CallType {JsObject} v.
Arguments CallSource {JsObject} v.
Arguments CallReset {JsObject}.
Arguments setsKind {JsObject} c.

(** A required field that is [undefined] or the empty string. *)
Definition unset (o : option string) : Prop := o = None \/ o = Some "".

End AttestationRequestBuilder.

(** ** class FDCService *)

Module FDCService.

Record t := {
  proofCache : option ProofCache.t;
  defaultRetryOptions : RetryOptions.t;
  defaultPollingOptions : PollingOptions.t;
}.

Section methods.
Variable env : Env.

Definition new (options : FDCServiceOptions.t) : t :=
  let fdcConfig := fdcConfig env in
  {| proofCache :=
       if default (enableProofCache fdcConfig)
            (FDCServiceOptions.enableCaching options)
       then Some (ProofCache.new
                    (JS.orDefaultZ (FDCServiceOptions.cacheTtlMs options)
                       (proofCacheTtlMs fdcConfig)))
       else None;
     defaultRetryOptions :=
       default
         {| RetryOptions.maxAttempts := Some (requestRetryAttempts fdcConfig);
            RetryOptions.initialDelayMs := Some 1000%Q;
            RetryOptions.maxDelayMs := Some 60000%Q;
            RetryOptions.backoffMultiplier := Some 2%Q;
            RetryOptions.retryableErrors := None |}
         (FDCServiceOptions.defaultRetryOptions options);
     defaultPollingOptions :=
       default
         {| PollingOptions.checkIntervalMs :=
              Some (roundFinalizationCheckIntervalMs fdcConfig);
            PollingOptions.maxWaitTimeMs :=
              Some (maxRoundFinalizationWaitMs fdcConfig);
            PollingOptions.onProgress := None |}
         (FDCServiceOptions.defaultPollingOptions options) |}.

Variable self : t.

(** The operation handed to the retry strategy: one POST to the verifier
    server and the checks on its response. *)
Definition prepareOperation (url attestationTypeHex sourceIdHex : string)
    (requestBody : AttestationRequest) : M PreparedAttestationRequest :=
  let* n := next_call ChVerifier in
  do emit (EvFetchVerifier url attestationTypeHex sourceIdHex requestBody) then
  match verifier env n with
  | FetchRejected t => settle (inl t)
  | FetchResponse ok httpStatus statusText json =>
      if negb ok then
        throw (FDCError
                 ("Verifier server returned status " +:+ pretty httpStatus
                    +:+ ": " +:+ statusText)
                 "VERIFIER_ERROR")
      else
        let* data := settle json in
        if negb (String.eqb (status data) "VALID") then
          throw (FDCError ("Invalid attestation request: " +:+ status data)
                   "INVALID_REQUEST")
        else ret data
  end.

Definition prepareAttestationRequest (params : AttestationRequestParams)
    (attestationType : AttestationType) (sourceId : SourceId)
    : M PreparedAttestationRequest :=
  let networkConfig := networkConfig env in
  let requestBody :=
    {| req_url := FDC.apiUrl params;
       req_httpMethod := JS.orDefaultStr (FDC.httpMethod params) "GET";
       req_headers := JS.orDefaultStr (FDC.headers params) "{}";
       req_queryParams := JS.orDefaultStr (FDC.queryParams params) "{}";
       req_body := JS.orDefaultStr (FDC.body params) "{}";
       req_postProcessJq := FDC.postProcessJq params;
       req_abiSignature := FDC.abiSignature params |} in
  let url := verifierUrl networkConfig +:+ AttestationType_str attestationType
               +:+ "/prepareRequest" in
  let attestationTypeHex := toUtf8HexString env (AttestationType_str attestationType) in
  let sourceIdHex := toUtf8HexString env (SourceId_str sourceId) in
  let retryStrategy := RetryStrategy.new (defaultRetryOptions self) in
  RetryStrategy.execute env retryStrategy
    (prepareOperation url attestationTypeHex sourceIdHex requestBody) None.

(** BigInt division truncates and throws a RangeError on a zero divisor. *)
Definition submitAttestationRequest (abiEncodedRequest : string) : M RoundInfo :=
  let networkConfig := networkConfig env in
  let* i := next_call ChRequestFee in
  do emit (EvGetRequestFee abiEncodedRequest) then
  let* requestFee := settle (getRequestFee env i) in
  let* j := next_call ChFdcHub in
  do emit (EvRequestAttestation abiEncodedRequest requestFee) then
  let* blockNumber := settle (requestAttestation env j) in
  let blockTimestamp := getBlockTimestamp env blockNumber in
  let firstVotingRoundStartTs := firstVotingRoundStartTs env in
  let votingEpochDurationSeconds := votingEpochDurationSeconds env in
  if votingEpochDurationSeconds =? 0 then throw (JsError "Division by zero")
  else
    let roundId :=
      (blockTimestamp - firstVotingRoundStartTs) ÷ votingEpochDurationSeconds in
    let explorerUrl :=
      systemsExplorerUrl networkConfig +:+ "/voting-round/" +:+ pretty roundId
        +:+ "?tab=fdc" in
    ret {| roundId := roundId; blockNumber := blockNumber;
           blockTimestamp := blockTimestamp; explorerUrl := explorerUrl |}.

(** [pollingOptions.maxWaitTimeMs && elapsed > pollingOptions.maxWaitTimeMs] *)
Definition deadlinePassed (pollingOptions : PollingOptions.t) (elapsed : Z) : bool :=
  match PollingOptions.maxWaitTimeMs pollingOptions with
  | Some m => JS.truthyZ m && (m <? elapsed)
  | None => false
  end.

(** [if (pollingOptions.onProgress) pollingOptions.onProgress(message)] *)
Definition progress (pollingOptions : PollingOptions.t) (message : string) : M unit :=
  when (bool_decide (is_Some (PollingOptions.onProgress pollingOptions)))
    (emit (EvProgress message)).

(** The adaptive step of the poll interval. *)
Definition adapt (consecutiveChecks : Z) (checkInterval : Q) : Q :=
  if (5 <? consecutiveChecks) && JS.Qltb checkInterval 60000
  then Qmin (checkInterval * 1.5) 60000
  else checkInterval.

(** The [while (true)] loop of waitForRoundFinalization, entered at its
    head with the current [checkInterval] and [consecutiveChecks]. *)
Fixpoint finalization_loop (pollingOptions : PollingOptions.t)
    (protocolId roundId startTime : Z) (fuel : nat)
    (checkInterval : Q) (consecutiveChecks : Z) : M unit :=
  match fuel with
  | O => out_of_fuel
  | S fuel' =>
      let* n := next_call ChRelay in
      do emit (EvIsFinalized protocolId roundId) then
      let* finalized := settle (isFinalized env n) in
      if finalized : bool then
        progress pollingOptions ("Round " +:+ pretty roundId +:+ " finalized")
      else
        let* t := now in
        let elapsed := t - startTime in
        if deadlinePassed pollingOptions elapsed then
          throw (FDCTimeoutError
                   ("Round " +:+ pretty roundId +:+ " did not finalize within "
                      +:+ pretty (default 0 (PollingOptions.maxWaitTimeMs pollingOptions))
                      +:+ "ms")
                   (default 0 (PollingOptions.maxWaitTimeMs pollingOptions)))
        else
          let consecutiveChecks := consecutiveChecks + 1 in
          let checkInterval := adapt consecutiveChecks checkInterval in
          do progress pollingOptions
               ("Waiting for round " +:+ pretty roundId +:+ " to finalize... ("
                  +:+ pretty (JS.roundDiv1000 elapsed) +:+ "s elapsed)") then
          do sleep env checkInterval then
          finalization_loop pollingOptions protocolId roundId startTime fuel'
            checkInterval consecutiveChecks
  end.

Definition waitForRoundFinalization (roundId : Z) (options : PollingOptions.t)
    (fuel : nat) : M unit :=
  let pollingOptions := PollingOptions.merge (defaultPollingOptions self) options in
  let protocolId := fdcProtocolId env in
  let* startTime := now in
  let checkInterval := JS.orDefaultQ (PollingOptions.checkIntervalMs pollingOptions) 30000 in
  finalization_loop pollingOptions protocolId roundId startTime fuel checkInterval 0.

(** [data.response_hex] is truthy: [data as ProofData]. *)
Definition asProofData (data : ProofPayload) : option ProofData :=
  match pp_response_hex data with
  | Some hex =>
      if JS.truthyStr hex then
        Some {| response_hex := hex;
                attestation_type := pp_attestation_type data;
                proof := pp_proof data |}
      else None
  | None => None
  end.

(** The [while (true)] loop of retrieveProof; its value is the variable
    [proof] at the [break]. *)
Fixpoint proof_loop (pollingOptions : PollingOptions.t) (url : string)
    (abiEncodedRequest : string) (roundId startTime : Z) (fuel : nat)
    : M (option ProofData) :=
  match fuel with
  | O => out_of_fuel
  | S fuel' =>
      let* n := next_call ChDALayer in
      do emit (EvFetchProof url roundId abiEncodedRequest) then
      match daLayer env n with
      | FetchRejected t => settle (inl t)
      | FetchResponse ok _ _ json =>
          let* found :=
            (if ok then let* data := settle json in ret (asProofData data)
             else ret None) in
          match found with
          | Some proof => ret (Some proof)
          | None =>
              let* t := now in
              let elapsed := t - startTime in
              if deadlinePassed pollingOptions elapsed then
                throw (FDCTimeoutError
                         ("Proof generation timed out after "
                            +:+ pretty (default 0 (PollingOptions.maxWaitTimeMs pollingOptions))
                            +:+ "ms")
                         (default 0 (PollingOptions.maxWaitTimeMs pollingOptions)))
              else
                do progress pollingOptions
                     ("Waiting for proof generation... ("
                        +:+ pretty (JS.roundDiv1000 elapsed) +:+ "s elapsed)") then
                do sleep env
                     (JS.orDefaultQ (PollingOptions.checkIntervalMs pollingOptions)
                        (proofGenerationCheckIntervalMs (fdcConfig env))) then
                proof_loop pollingOptions url abiEncodedRequest roundId startTime fuel'
          end
      end
  end.

Definition retrieveProof (abiEncodedRequest : string) (roundId : Z)
    (options : PollingOptions.t) (fuel : nat) : M ProofData :=
  let* cached :=
    match proofCache self with
    | Some c => ProofCache.get c (ProofCache.generateKey abiEncodedRequest roundId)
    | None => ret None
    end in
  match cached with
  | Some hit => ret hit
  | None =>
      let networkConfig := networkConfig env in
      let pollingOptions := PollingOptions.merge (defaultPollingOptions self) options in
      let url := daLayerUrl networkConfig +:+ "api/v1/fdc/proof-by-request-round-raw" in
      do waitForRoundFinalization roundId pollingOptions fuel then
      do sleep env 10000 then
      let* startTime := now in
      let* proof := proof_loop pollingOptions url abiEncodedRequest roundId startTime fuel in
      match proof with
      | None => throw (FDCError "Failed to retrieve proof" "PROOF_RETRIEVAL_FAILED")
      | Some proof =>
          do match proofCache self with
             | Some c =>
                 ProofCache.set c (ProofCache.generateKey abiEncodedRequest roundId) proof
             | None => ret tt
             end then
          ret proof
      end
  end.

Definition executeAttestationWorkflow (params : AttestationRequestParams)
    (attestationType : AttestationType) (sourceId : SourceId)
    (pollingOptions : option PollingOptions.t) (fuel : nat)
    : M (RoundInfo * ProofData) :=
  let* prepared := prepareAttestationRequest params attestationType sourceId in
  let* roundInfo := submitAttestationRequest (abiEncodedRequest prepared) in
  let* proof :=
    retrieveProof (abiEncodedRequest prepared) (roundId roundInfo)
      (default PollingOptions.empty pollingOptions) fuel in
  ret (roundInfo, proof).

Definition clearCache : M unit :=
  match proofCache self with
  | Some c => ProofCache.clear c
  | None => ret tt
  end.

End methods.

End FDCService.

(** ** class WeatherInsuranceBase *)

Module WeatherInsuranceBase.

Section methods.
Variable env : Env.

(** The service the constructor creates. *)
Definition fdcService : FDCService.t :=
  FDCService.new env
    {| FDCServiceOptions.enableCaching := Some true;
       FDCServiceOptions.cacheTtlMs := None;
       FDCServiceOptions.defaultRetryOptions := None;
       FDCServiceOptions.defaultPollingOptions :=
         Some {| PollingOptions.checkIntervalMs := None;
                 PollingOptions.maxWaitTimeMs := None;
                 PollingOptions.onProgress := Some tt |} |}.

Definition createWeatherAttestationRequest (apiUrl jqFilter abiSignature : string)
    : Error + AttestationRequestBuilder.Built :=
  AttestationRequestBuilder.build
    (AttestationRequestBuilder.source PublicWeb2
       (AttestationRequestBuilder.type Web2Json
          (AttestationRequestBuilder.abiSignature abiSignature
             (AttestationRequestBuilder.jqFilter jqFilter
                (AttestationRequestBuilder.url apiUrl
                   AttestationRequestBuilder.new))))).

Definition executeWeatherAttestation (apiUrl jqFilter abiSignature : string)
    (pollingOptions : option PollingOptions.t) (fuel : nat)
    : M (RoundInfo * ProofData) :=
  match createWeatherAttestationRequest apiUrl jqFilter abiSignature with
  | inl e => throw e
  | inr built =>
      FDCService.executeAttestationWorkflow env fdcService
        (AttestationRequestBuilder.built_params built)
        (AttestationRequestBuilder.built_attestationType built)
        (AttestationRequestBuilder.built_sourceId built)
        pollingOptions fuel
  end.

End methods.

End WeatherInsuranceBase.

(** The same world at another reading of the clock. *)
Definition at_time (t : Z) (w : World) : World :=
  {| clock := t; calls := calls w; cache := cache w; trace := trace w |}.

(** ** A concrete run: the end-to-end scenario

    The verifier answers VALID with the encoded request 0xdead, the fee is 7,
    the submission lands in block 100 whose timestamp puts it in round 5, the
    relay reports the round finalized at the third poll, and the DA layer
    serves the proof at the second request. *)

Definition scenarioEnv : Env :=
  {| sleepElapsed := fun ms => Qceiling ms;
     toUtf8HexString := fun s => "0x" +:+ s;
     networkConfig :=
       {| daLayerUrl := "https://da/"; verifierUrl := "https://verifier/";
          systemsExplorerUrl := "https://explorer" |};
     fdcConfig :=
       {| verifierApiKey := "key"; requestRetryAttempts := 10;
          requestRetryDelayMs := 20000;
          roundFinalizationCheckIntervalMs := 30000%Q;
          proofGenerationCheckIntervalMs := 10000%Q;
          maxRoundFinalizationWaitMs := 300000;
          enableProofCache := false; proofCacheTtlMs := 3600000 |};
     verifier := fun _ =>
       FetchResponse true 200 "OK"
         (inr {| status := "VALID"; abiEncodedRequest := "0xdead" |});
     getRequestFee := fun _ => inr 7;
     requestAttestation := fun _ => inr 100;
     getBlockTimestamp := fun _ => 1450;
     firstVotingRoundStartTs := 1000;
     votingEpochDurationSeconds := 90;
     fdcProtocolId := 200;
     isFinalized := fun n => inr (2 <=? n)%nat;
     daLayer := fun n =>
       if (1 <=? n)%nat then
         FetchResponse true 200 "OK"
           (inr {| pp_response_hex := Some "0xbeef"; pp_attestation_type := "X";
                   pp_proof := [] |})
       else FetchResponse false 404 "Not Found" (inl (ThrownOther "no body")) |}.

(** The same world with a relay that never reports the round finalized. *)
Definition neverFinalizedEnv : Env :=
  {| sleepElapsed := sleepElapsed scenarioEnv;
     toUtf8HexString := toUtf8HexString scenarioEnv;
     networkConfig := networkConfig scenarioEnv;
     fdcConfig := fdcConfig scenarioEnv;
     verifier := verifier scenarioEnv;
     getRequestFee := getRequestFee scenarioEnv;
     requestAttestation := requestAttestation scenarioEnv;
     getBlockTimestamp := getBlockTimestamp scenarioEnv;
     firstVotingRoundStartTs := firstVotingRoundStartTs scenarioEnv;
     votingEpochDurationSeconds := votingEpochDurationSeconds scenarioEnv;
     fdcProtocolId := fdcProtocolId scenarioEnv;
     isFinalized := fun _ => inr false;
     daLayer := daLayer scenarioEnv |}.

(** The same world with a verifier that answers with a status other than
    VALID, every time. *)
Definition invalidEnv : Env :=
  {| sleepElapsed := sleepElapsed scenarioEnv;
     toUtf8HexString := toUtf8HexString scenarioEnv;
     networkConfig := networkConfig scenarioEnv;
     fdcConfig := fdcConfig scenarioEnv;
     verifier := fun _ =>
       FetchResponse true 200 "OK"
         (inr {| status := "INVALID"; abiEncodedRequest := "0x" |});
     getRequestFee := getRequestFee scenarioEnv;
     requestAttestation := requestAttestation scenarioEnv;
     getBlockTimestamp := getBlockTimestamp scenarioEnv;
     firstVotingRoundStartTs := firstVotingRoundStartTs scenarioEnv;
     votingEpochDurationSeconds := votingEpochDurationSeconds scenarioEnv;
     fdcProtocolId := fdcProtocolId scenarioEnv;
     isFinalized := isFinalized scenarioEnv;
     daLayer := daLayer scenarioEnv |}.

Definition scenarioParams : AttestationRequestParams :=
  {| FDC.apiUrl := "https://api/people/3"; FDC.postProcessJq := "{name: .name}";
     FDC.abiSignature := "tuple"; FDC.httpMethod := None; FDC.headers := None;
     FDC.queryParams := None; FDC.body := None |}.

(** Well-typed parameters whose three required strings are empty. *)
Definition emptyParams : AttestationRequestParams :=
  {| FDC.apiUrl := ""; FDC.postProcessJq := ""; FDC.abiSignature := "";
     FDC.httpMethod := None; FDC.headers := None; FDC.queryParams := None;
     FDC.body := None |}.

(** The poll intervals of [len] consecutive non-finalized checks, from the
    current [checkInterval] and [consecutiveChecks]. *)
Fixpoint intervals (len : nat) (checkInterval : Q) (consecutiveChecks : Z) : list Q :=
  match len with
  | O => []
  | S len' =>
      let consecutiveChecks := consecutiveChecks + 1 in
      let checkInterval := FDCService.adapt consecutiveChecks checkInterval in
      checkInterval :: intervals len' checkInterval consecutiveChecks
  end.

(** A thrown value that is the rejection of a call to the relay or of a
    request to the DA layer. *)
Definition rejected (env : Env) (t : Thrown) : Prop :=
  (exists n, isFinalized env n = inl t)
  \/ (exists n, daLayer env n = FetchRejected t)
  \/ (exists n httpStatus statusText,
        daLayer env n = FetchResponse true httpStatus statusText (inl t)).

(** How polling under the deadline [limit], started at [start], ends: with a
    value, with the FDCTimeoutError of that limit once more than [limit]
    milliseconds have elapsed, or with the rejection of a collaborator. *)
Inductive Ending {A : Type} (env : Env) (limit start : Z) : Res A * World -> Prop :=
| EndOk (a : A) (w : World) : Ending env limit start (Ok a, w)
| EndTimeout (message : string) (w : World) :
    limit < clock w - start ->
    Ending env limit start (Throw (ThrownError (FDCTimeoutError message limit)), w)
| EndRejected (t : Thrown) (w : World) :
    rejected env t -> Ending env limit start (Throw t, w).

(** Number of submissions to the FDC hub in the log of a world. *)
Definition attestations (w : World) : nat :=
  count is_request_attestation (trace w).

(** A computation that leaves the measure [f] of the world as it is. *)
Definition preserves {A : Type} (f : World -> nat) (m : M A) : Prop :=
  forall w, f (m w).2 = f w.

(** A deadline of one millisecond. *)
Definition oneMillisecond : PollingOptions.t :=
  {| PollingOptions.checkIntervalMs := None;
     PollingOptions.maxWaitTimeMs := Some 1;
     PollingOptions.onProgress := None |}.

(** Polling every two minutes. *)
Definition everyTwoMinutes : PollingOptions.t :=
  {| PollingOptions.checkIntervalMs := Some 120000%Q;
     PollingOptions.maxWaitTimeMs := None;
     PollingOptions.onProgress := None |}.

(** Service options with a budget of three attempts. *)
Definition retryThrice : FDCServiceOptions.t :=
  {| FDCServiceOptions.enableCaching := None;
     FDCServiceOptions.cacheTtlMs := None;
     FDCServiceOptions.defaultRetryOptions :=
       Some {| RetryOptions.maxAttempts := Some 3;
               RetryOptions.initialDelayMs := None;
               RetryOptions.maxDelayMs := None;
               RetryOptions.backoffMultiplier := None;
               RetryOptions.retryableErrors := None |};
     FDCServiceOptions.defaultPollingOptions := None |}.

(** The delays of [len] consecutive retries, from the current [delay]. *)
Fixpoint backoff (self : RetryStrategy.t) (len : nat) (delay : Q) : list Q :=
  match len with
  | O => []
  | S len' =>
      delay :: backoff self len'
                 (Qmin (delay * RetryStrategy.backoffMultiplier self)
                    (RetryStrategy.maxDelayMs self))
  end.

(** Retry options that give maxAttempts only. *)
Definition attempts (n : Z) : RetryOptions.t :=
  {| RetryOptions.maxAttempts := Some n; RetryOptions.initialDelayMs := None;
     RetryOptions.maxDelayMs := None; RetryOptions.backoffMultiplier := None;
     RetryOptions.retryableErrors := None |}.

(** What a run of the loop can end in, in terms of the last call of the
    operation. *)
Definition loop_outcome {T : Type} (self : RetryStrategy.t) (operation : M T)
    (attempt : Z) (lastError : option Error) (w : World)
    (r : Res T * World) : Prop :=
  match r.1 with
  | Ok v => exists w0, operation w0 = (Ok v, r.2)
  | Throw t =>
      exists last,
        t = ThrownError
              (FDCRetryError
                 ("Operation failed after " +:+ pretty (RetryStrategy.maxAttempts self)
                    +:+ " attempts")
                 (RetryStrategy.maxAttempts self) last)
        /\ (attempt <= RetryStrategy.maxAttempts self ->
            exists w0 t0, operation w0 = (Throw t0, r.2) /\ last = Some (toError t0))
        /\ (RetryStrategy.maxAttempts self < attempt -> last = lastError /\ r.2 = w)
  | Diverge => exists w0, operation w0 = (Diverge, r.2)
  end.

(** A computation whose observable events all satisfy [P]. *)
Definition emits {A : Type} (P : Event -> Prop) (m : M A) : Prop :=
  forall w, exists evs, trace (m w).2 = trace w ++ evs /\ Forall P evs.

(** The answer of the verifier that ends the preparation: a 2xx response
    whose payload has the status VALID. *)
Definition validAnswer (r : FetchResult PreparedAttestationRequest)
    : option PreparedAttestationRequest :=
  match r with
  | FetchResponse true _ _ (inr data) =>
      if String.eqb (status data) "VALID" then Some data else None
  | _ => None
  end.

(** The request prepareAttestationRequest posts to the verifier. *)
Definition prepareRequest (env : Env) (params : AttestationRequestParams)
    (attestationType : AttestationType) (sourceId : SourceId) : Event :=
  EvFetchVerifier
    (verifierUrl (networkConfig env) +:+ AttestationType_str attestationType
       +:+ "/prepareRequest")
    (toUtf8HexString env (AttestationType_str attestationType))
    (toUtf8HexString env (SourceId_str sourceId))
    {| req_url := FDC.apiUrl params;
       req_httpMethod := JS.orDefaultStr (FDC.httpMethod params) "GET";
       req_headers := JS.orDefaultStr (FDC.headers params) "{}";
       req_queryParams := JS.orDefaultStr (FDC.queryParams params) "{}";
       req_body := JS.orDefaultStr (FDC.body params) "{}";
       req_postProcessJq := FDC.postProcessJq params;
       req_abiSignature := FDC.abiSignature params |}.

Definition is_sleep (e : Event) : Prop := exists ms, e = EvSleep ms.

(** The scenario with an epoch duration of zero. *)
Definition zeroEpochEnv : Env :=
  {| sleepElapsed := sleepElapsed scenarioEnv;
     toUtf8HexString := toUtf8HexString scenarioEnv;
     networkConfig := networkConfig scenarioEnv;
     fdcConfig := fdcConfig scenarioEnv;
     verifier := verifier scenarioEnv;
     getRequestFee := getRequestFee scenarioEnv;
     requestAttestation := requestAttestation scenarioEnv;
     getBlockTimestamp := getBlockTimestamp scenarioEnv;
     firstVotingRoundStartTs := firstVotingRoundStartTs scenarioEnv;
     votingEpochDurationSeconds := 0;
     fdcProtocolId := fdcProtocolId scenarioEnv;
     isFinalized := isFinalized scenarioEnv;
     daLayer := daLayer scenarioEnv |}.

(** What a run of the finalization loop, entered in the world [w] with the
    interval [c] and [n] checks made, says about the relay and the clock. *)
Definition wait_outcome (env : Env) (pollingOptions : PollingOptions.t)
    (startTime : Z) (c : Q) (n : Z) (w : World) (r : Res unit * World) : Prop :=
  match r.1 with
  | Ok _ =>
      exists k : nat,
        calls r.2 ChRelay = (calls w ChRelay + S k)%nat
        /\ isFinalized env (calls w ChRelay + k)%nat = inr true
        /\ (forall j, (j < k)%nat -> isFinalized env (calls w ChRelay + j)%nat = inr false)
        /\ sleeps (trace r.2) = sleeps (trace w) ++ intervals k c n
  | Throw t =>
      (exists i, isFinalized env i = inl t)
      \/ (exists message limit,
             t = ThrownError (FDCTimeoutError message limit)
             /\ PollingOptions.maxWaitTimeMs pollingOptions = Some limit
             /\ limit <> 0
             /\ limit < clock r.2 - startTime)
  | Diverge => True
  end.

(** The events of the two phases of retrieveProof. *)
Definition is_wait_event (e : Event) : Prop :=
  (exists protocolId round, e = EvIsFinalized protocolId round)
  \/ (exists message, e = EvProgress message)
  \/ is_sleep e.

Definition is_proof_event (e : Event) : Prop :=
  (exists url round bytes, e = EvFetchProof url round bytes)
  \/ (exists message, e = EvProgress message)
  \/ is_sleep e.

(** A computation that leaves the component [f] of the world as it is. *)
Definition keeps {A X : Type} (f : World -> X) (m : M A) : Prop :=
  forall w, f (m w).2 = f w.

(** Every cached proof has a non-empty [response_hex]. *)
Definition cache_wf (w : World) : Prop :=
  forall key data timestamp,
    cache w !! key = Some (data, timestamp) -> response_hex data <> "".

(** A string without the separator of the cache keys. *)
Fixpoint colon_free (s : string) : Prop :=
  match s with
  | EmptyString => True
  | String c s' => c <> ":"%char /\ colon_free s'
  end.

(** A question to the relay or to the DA layer. *)
Definition is_poll (e : Event) : Prop :=
  (exists protocolId round, e = EvIsFinalized protocolId round)
  \/ (exists url round bytes, e = EvFetchProof url round bytes).

(** An event of the polling for the proof of [abiEncodedRequest] in round
    [roundId]: a question to the relay or to the DA layer about that round
    and that request, a progress message or a sleep. *)
Definition polls_for (env : Env) (abiEncodedRequest : string) (roundId : Z)
    (e : Event) : Prop :=
  match e with
  | EvIsFinalized protocolId round => protocolId = fdcProtocolId env /\ round = roundId
  | EvFetchProof url votingRoundId requestBytes =>
      url = daLayerUrl (networkConfig env) +:+ "api/v1/fdc/proof-by-request-round-raw"
      /\ votingRoundId = roundId /\ requestBytes = abiEncodedRequest
  | EvProgress _ | EvSleep _ => True
  | _ => False
  end.

(** The field of the builder that a call assigns; [reset] assigns them all. *)
Definition assigned {JsObject : Type} (c : AttestationRequestBuilder.Call JsObject)
    : option nat :=
  match c with
  | AttestationRequestBuilder.CallUrl _ => Some 0%nat
  | AttestationRequestBuilder.CallJqFilter _ => Some 1%nat
  | AttestationRequestBuilder.CallAbiSignature _ => Some 2%nat
  | AttestationRequestBuilder.CallMethod _ => Some 3%nat
  | AttestationRequestBuilder.CallHeaders _ => Some 4%nat
  | AttestationRequestBuilder.CallQueryParams _ => Some 5%nat
  | AttestationRequestBuilder.CallBody _ => Some 6%nat
  | AttestationRequestBuilder.CallType _ => Some 7%nat
  | AttestationRequestBuilder.CallSource _ => Some 8%nat
  | AttestationRequestBuilder.CallReset => None
  end.

(** ** The logging utility

    [console] is the list of the calls made to it, each with the method
    called and its arguments; [new Date().toISOString()] is the rendering
    [toISOString] of the clock reading passed in. *)

Module Logger.

Inductive LogLevel := DEBUG | INFO | WARN | ERROR.

(** The number of a member of the enum. *)
Definition value (l : LogLevel) : Z :=
  match l with
  | DEBUG => 0
  | INFO => 1
  | WARN => 2
  | ERROR => 3
  end.

Record LoggerOptions := {
  opt_level : option LogLevel;
  opt_prefix : option string;
  opt_enableTimestamp : option bool;
}.

Record t := {
  level : LogLevel;
  prefix : string;
  enableTimestamp : bool;
}.

(** The constructor; [a ?? d] replaces [undefined] only. *)
Definition new (options : LoggerOptions) : t :=
  {| level := default INFO (opt_level options);
     prefix := default "" (opt_prefix options);
     enableTimestamp := default true (opt_enableTimestamp options) |}.

Inductive ConsoleMethod := ConsoleDebug | ConsoleLog | ConsoleWarn | ConsoleError.

(** An [Error] object as the logger reads it. *)
Record ErrorObject := {
  thrown : Error;
  stack : option string;
}.

Section methods.
(** The values passed in [...args]. *)
Variable Any : Type.
Variable toISOString : Z -> string.

Inductive Printed :=
| PString (s : string)
| PError (e : ErrorObject)
| PAny (a : Any).

Record ConsoleCall := {
  method : ConsoleMethod;
  arguments : list Printed;
}.

(** [parts.join(sep)] *)
Fixpoint join (sep : string) (parts : list string) : string :=
  match parts with
  | [] => ""
  | [part] => part
  | part :: rest => part +:+ sep +:+ join sep rest
  end.

Definition formatMessage (self : t) (clock : Z) (level : string) (message : string)
    : string :=
  let parts := [] in
  let parts :=
    if enableTimestamp self then parts ++ ["[" +:+ toISOString clock +:+ "]"] else parts in
  let parts := parts ++ ["[" +:+ level +:+ "]"] in
  let parts :=
    if JS.truthyStr (prefix self) then parts ++ ["[" +:+ prefix self +:+ "]"] else parts in
  let parts := parts ++ [message] in
  join " " parts.

Definition shouldLog (self : t) (level : LogLevel) : bool :=
  value level >=? value (Logger.level self).

Definition debug (self : t) (clock : Z) (message : string) (args : list Any)
    : list ConsoleCall :=
  if shouldLog self DEBUG then
    [{| method := ConsoleDebug;
        arguments := PString (formatMessage self clock "DEBUG" message) :: map PAny args |}]
  else [].

Definition info (self : t) (clock : Z) (message : string) (args : list Any)
    : list ConsoleCall :=
  if shouldLog self INFO then
    [{| method := ConsoleLog;
        arguments := PString (formatMessage self clock "INFO" message) :: map PAny args |}]
  else [].

Definition warn (self : t) (clock : Z) (message : string) (args : list Any)
    : list ConsoleCall :=
  if shouldLog self WARN then
    [{| method := ConsoleWarn;
        arguments := PString (formatMessage self clock "WARN" message) :: map PAny args |}]
  else [].

Definition error (self : t) (clock : Z) (message : string) (error : option ErrorObject)
    (args : list Any) : list ConsoleCall :=
  if shouldLog self ERROR then
    [{| method := ConsoleError;
        arguments := PString (formatMessage self clock "ERROR" message) :: map PAny args |}]
    ++ match error with
       | Some e =>
           [{| method := ConsoleError; arguments := [PString "Error details:"; PError e] |}]
           ++ (if JS.falsyStr (stack e) then []
               else [{| method := ConsoleError;
                        arguments := [PString "Stack trace:";
                                      PString (default "" (stack e))] |}])
       | None => []
       end
  else [].

End methods.

Definition child (self : t) (additionalPrefix : string) : t :=
  new {| opt_level := Some (level self);
         opt_prefix :=
           Some (if JS.truthyStr (prefix self)
                 then prefix self +:+ ":" +:+ additionalPrefix
                 else additionalPrefix);
         opt_enableTimestamp := Some (enableTimestamp self) |}.

End Logger.

(** ** Properties *)

(** *** End-to-end scenario *)

Example scenario_result :
  let r := WeatherInsuranceBase.executeWeatherAttestation scenarioEnv
             "https://api/people/3" "{name: .name}" "tuple" None 10 (initialWorld 0) in
  exists info, r.1 = Ok (info, {| response_hex := "0xbeef"; attestation_type := "X"; proof := [] |})
    /\ roundId info = 5
    /\ fst <$> (cache r.2 !! "0xdead:5")
       = Some {| response_hex := "0xbeef"; attestation_type := "X"; proof := [] |}
    /\ count is_request_attestation (trace r.2) = 1%nat.
Proof. eexists. vm_compute. repeat split. Qed.

(** *** ProofCache *)

Section ProofCacheFacts.
Variable self : ProofCache.t.
Variables (key : string) (data : ProofData).

Lemma get_absent (w : World) :
  cache w !! key = None -> ProofCache.get self key w = (Ok None, w).
Proof. intros H. unfold ProofCache.get. by rewrite H. Qed.

Lemma get_fresh (w : World) (timestamp : Z) :
  cache w !! key = Some (data, timestamp) ->
  clock w - timestamp <= ProofCache.ttl self ->
  ProofCache.get self key w = (Ok (Some data), w).
Proof.
  intros H Hage. unfold ProofCache.get. rewrite H.
  destruct (Z.ltb_spec (ProofCache.ttl self) (clock w - timestamp)); [lia | done].
Qed.

Lemma get_expired (w : World) (timestamp : Z) :
  cache w !! key = Some (data, timestamp) ->
  ProofCache.ttl self < clock w - timestamp ->
  ProofCache.get self key w
  = (Ok None, {| clock := clock w; calls := calls w;
                 cache := delete key (cache w); trace := trace w |}).
Proof.
  intros H Hage. unfold ProofCache.get. rewrite H.
  destruct (Z.ltb_spec (ProofCache.ttl self) (clock w - timestamp)); [done | lia].
Qed.

(** C6. For every fingerprint and record, [set] followed at once by [get]
    returns the record (the time to live being a duration, not negative),
    and so does a [get] at any age up to the time to live; once the age of
    the entry exceeds the time to live, [get] returns absent and removes
    the entry, and every later [get], at whatever time, with no [set] in
    between, returns absent as well. *)
Theorem cache_set_then_get (w : World) :
  let w1 := (ProofCache.set self key data w).2 in
  (0 <= ProofCache.ttl self ->
     ProofCache.get self key w1 = (Ok (Some data), w1))
  /\ (forall t, t - clock w <= ProofCache.ttl self ->
        ProofCache.get self key (at_time t w1) = (Ok (Some data), at_time t w1))
  /\ (forall t, ProofCache.ttl self < t - clock w ->
        let r := ProofCache.get self key (at_time t w1) in
        r.1 = Ok None
        /\ cache r.2 !! key = None
        /\ forall t', ProofCache.get self key (at_time t' r.2)
                      = (Ok None, at_time t' r.2)).
Proof.
  cbn zeta. split; [| split].
  - intros Httl. apply (get_fresh _ (clock w)).
    + cbn. apply lookup_insert_eq.
    + cbn. lia.
  - intros t Hage. apply (get_fresh _ (clock w)).
    + cbn. apply lookup_insert_eq.
    + cbn. lia.
  - intros t Hage.
    rewrite (get_expired (at_time t _) (clock w)); cbn.
    + split; [done |]. split; [apply lookup_delete_eq |].
      intros t'. apply get_absent. cbn. apply lookup_delete_eq.
    + apply lookup_insert_eq.
    + lia.
Qed.

End ProofCacheFacts.

Lemma cache_set_then_get_witness :
  let self := ProofCache.new 3600000 in
  let data := {| response_hex := "0xbeef"; attestation_type := "X"; proof := [] |} in
  let w1 := (ProofCache.set self "0xdead:5" data (initialWorld 0)).2 in
  ProofCache.get self "0xdead:5" w1 = (Ok (Some data), w1)
  /\ (ProofCache.get self "0xdead:5" (at_time 3600001 w1)).1 = Ok None.
Proof.
  pose proof (cache_set_then_get (ProofCache.new 3600000) "0xdead:5"
                {| response_hex := "0xbeef"; attestation_type := "X"; proof := [] |}
                (initialWorld 0)) as (Hfresh & _ & Hold).
  split.
  - apply Hfresh. cbn. lia.
  - apply (Hold 3600001). cbn. lia.
Defined.

(** *** AttestationRequestBuilder *)

Section BuilderFacts.
Import AttestationRequestBuilder.

Variable JsObject : Type.
Variable JSON_stringify : JsObject -> string.

#[local] Abbreviation chain := (chain JsObject JSON_stringify).
#[local] Abbreviation Call := (Call JsObject).

Lemma falsyStr_unset (o : option string) : JS.falsyStr o = true <-> unset o.
Proof.
  unfold unset. destruct o as [s|]; cbn.
  - unfold JS.truthyStr. rewrite negb_involutive.
    rewrite String.eqb_eq. split; [intros ->; by right | intros [|]; congruence].
  - split; [by left | done].
Qed.

Lemma kind_of_chain (cs : list Call) :
  forallb (fun c => negb (setsKind c)) cs = true ->
  attestationType (chain cs) = Web2Json /\ sourceId (chain cs) = PublicWeb2.
Proof.
  unfold AttestationRequestBuilder.chain.
  induction cs as [|c cs IH] using rev_ind; [done |].
  rewrite forallb_app, foldl_app. cbn. rewrite andb_true_r.
  intros [Hcs Hc]%andb_prop. specialize (IH Hcs).
  destruct c; cbn in *; try done.
Qed.


End BuilderFacts.


(** *** The event log *)

Lemma count_app (p : Event -> bool) (l1 l2 : list Event) :
  count p (l1 ++ l2) = (count p l1 + count p l2)%nat.
Proof. unfold count. by rewrite List.filter_app, length_app. Qed.

Lemma count_snoc (p : Event -> bool) (l : list Event) (e : Event) :
  count p (l ++ [e]) = (count p l + if p e then 1 else 0)%nat.
Proof. rewrite count_app. unfold count. cbn. by destruct (p e). Qed.

Lemma retries_app (l1 l2 : list Event) : retries (l1 ++ l2) = retries l1 ++ retries l2.
Proof. unfold retries. apply omap_app. Qed.

Lemma sleeps_app (l1 l2 : list Event) : sleeps (l1 ++ l2) = sleeps l1 ++ sleeps l2.
Proof. unfold sleeps. apply omap_app. Qed.

(** *** RetryStrategy *)

Lemma scripted_run {T} (script : nat -> Thrown + T) (w : World) :
  scripted script w
  = (match script (calls w ChOperation) with
     | inl t => Throw t
     | inr v => Ok v
     end, log EvCall (called ChOperation w)).
Proof. unfold scripted, bind, next_call, emit, settle. cbn. by destruct (script _). Qed.

Section ExecuteFacts.
Context {T : Type}.
Variable env : Env.
Variable self : RetryStrategy.t.
Variable onRetry : option (Z -> Error -> M unit).
Hypothesis onRetry_quiet : quiet onRetry.

#[local] Abbreviation maxAttempts := (RetryStrategy.maxAttempts self).
#[local] Abbreviation execute_loop := (RetryStrategy.execute_loop env self).

Section always_fails.
(** An operation that fails at every call; [cnt] counts its calls and
    [raised n e] relates the error [e] to the number [n] of earlier calls. *)
Variable operation : M T.
Variable cnt : World -> nat.
Variable raised : nat -> Error -> Prop.
Hypothesis operation_fails :
  forall w, exists t w1,
    operation w = (Throw t, w1) /\ cnt w1 = S (cnt w) /\ raised (cnt w) (toError t).
Hypothesis cnt_retry : forall i e w, cnt (log (EvOnRetry i e) w) = cnt w.
Hypothesis cnt_sleep : forall ms w, cnt (log (EvSleep ms) w) = cnt w.
Hypothesis cnt_advance : forall ms w, cnt (advance ms w) = cnt w.

Lemma execute_loop_always_fails (fuel : nat) :
  forall attempt delay lastError w,
    attempt <= maxAttempts ->
    fuel = Z.to_nat (maxAttempts - attempt + 1) ->
    exists e w',
      execute_loop operation onRetry fuel attempt delay lastError w
      = (Throw (ThrownError
                  (FDCRetryError
                     ("Operation failed after " +:+ pretty maxAttempts +:+ " attempts")
                     maxAttempts (Some e))), w')
      /\ cnt w' = (cnt w + fuel)%nat
      /\ raised (cnt w + fuel - 1)%nat e.
Proof.
  induction fuel as [|fuel IH]; intros attempt delay lastError w Hle Hfuel; [lia |].
  cbn [RetryStrategy.execute_loop].
  destruct (Z.leb_spec attempt maxAttempts) as [_|]; [| lia].
  unfold try_catch.
  destruct (operation_fails w) as (t & w1 & -> & Hcnt & Hraised).
  destruct (Z.eqb_spec attempt maxAttempts) as [->|Hne].
  - assert (fuel = O) as -> by lia.
    exists (toError t), w1. split; [reflexivity |].
    rewrite Hcnt. split; [lia |].
    by replace (cnt w + 1 - 1)%nat with (cnt w) by lia.
  - set (delay' := Qmin (delay * RetryStrategy.backoffMultiplier self)
                     (RetryStrategy.maxDelayMs self)).
    assert (exists w2,
               (do match onRetry with
                   | Some f => f attempt (toError t)
                   | None => ret tt
                   end then
                do sleep env delay then
                execute_loop operation onRetry fuel (attempt + 1) delay'
                  (Some (toError t))) w1
               = execute_loop operation onRetry fuel (attempt + 1) delay'
                   (Some (toError t)) w2
               /\ cnt w2 = cnt w1) as (w2 & -> & Hcnt2).
    { destruct onRetry_quiet as [-> | ->]; unfold bind; cbn.
      - eexists; split; [reflexivity |]. by rewrite cnt_advance, cnt_sleep.
      - eexists; split; [reflexivity |].
        by rewrite cnt_advance, cnt_sleep, cnt_retry. }
    destruct (IH (attempt + 1) delay' (Some (toError t)) w2)
      as (e & w' & Hrun & Hcnt' & Hraised'); [lia | lia |].
    exists e, w'. split; [exact Hrun |].
    rewrite Hcnt2, Hcnt in Hcnt', Hraised'.
    split; [lia |].
    by replace (cnt w + S fuel - 1)%nat with (S (cnt w) + fuel - 1)%nat by lia.
Qed.

End always_fails.

Lemma calls_called_same (ch : Channel) (w : World) :
  calls (called ch w) ch = S (calls w ch).
Proof. cbn. by rewrite decide_True. Qed.

(** The scripted operation failing at every call. *)
Lemma execute_always_fails (fails : nat -> Thrown) (w : World) :
  1 <= maxAttempts ->
  let r := RetryStrategy.execute (T:=T) env self (scripted (fun i => inl (fails i)))
             onRetry w in
  r.1 = Throw (ThrownError
                 (FDCRetryError
                    ("Operation failed after " +:+ pretty maxAttempts +:+ " attempts")
                    maxAttempts
                    (Some (toError
                             (fails (calls w ChOperation + Z.to_nat maxAttempts - 1)%nat)))))
  /\ calls r.2 ChOperation = (calls w ChOperation + Z.to_nat maxAttempts)%nat
  /\ count is_call (trace r.2) = (count is_call (trace w) + Z.to_nat maxAttempts)%nat.
Proof.
  intros Hmax. cbn zeta. unfold RetryStrategy.execute.
  destruct (execute_loop_always_fails
              (scripted (fun i => inl (fails i)))
              (fun w => calls w ChOperation)
              (fun n e => e = toError (fails n))) with
    (fuel := Z.to_nat maxAttempts) (attempt := 1)
    (delay := RetryStrategy.initialDelayMs self) (lastError := @None Error) (w := w)
    as (e & w' & Hrun & Hcalls & ->); try done; try lia.
  { intros w0. rewrite scripted_run. do 2 eexists. split; [reflexivity |].
    split; [apply calls_called_same | done]. }
  destruct (execute_loop_always_fails
              (scripted (fun i => inl (fails i)))
              (fun w => count is_call (trace w))
              (fun _ _ => True)) with
    (fuel := Z.to_nat maxAttempts) (attempt := 1)
    (delay := RetryStrategy.initialDelayMs self) (lastError := @None Error) (w := w)
    as (e' & w'' & Hrun' & Hcount & _); try lia.
  { intros w0. rewrite scripted_run. do 2 eexists. split; [reflexivity |].
    split; [| done]. cbn [trace log called]. rewrite count_snoc. cbn. lia. }
  { intros i e w0. cbn [trace log]. rewrite count_snoc. cbn. lia. }
  { intros ms w0. cbn [trace log]. rewrite count_snoc. cbn. lia. }
  { done. }
  rewrite Hrun in Hrun'. injection Hrun' as _ <-.
  rewrite Hrun. cbn. done.
Qed.

(** The scripted operation failing [k] times and then succeeding. *)
Lemma execute_loop_converges (script : nat -> Thrown + T) (fails : nat -> Thrown)
    (v : T) (k : nat) :
  forall fuel attempt delay lastError w i,
    attempt = Z.of_nat (S i) ->
    attempt + Z.of_nat k <= maxAttempts ->
    (k < fuel)%nat ->
    (forall j, (j < k)%nat -> script (calls w ChOperation + j)%nat = inl (fails (i + j)%nat)) ->
    script (calls w ChOperation + k)%nat = inr v ->
    exists w',
      execute_loop (scripted script) logRetry fuel attempt delay lastError w = (Ok v, w')
      /\ calls w' ChOperation = (calls w ChOperation + S k)%nat
      /\ trace w' = trace w ++ retry_log self fails k i delay.
Proof.
  induction k as [|k IH]; intros fuel attempt delay lastError w i Hatt Hle Hfuel Hfails Hok;
    (destruct fuel as [|fuel]; [lia |]);
    cbn [RetryStrategy.execute_loop];
    (destruct (Z.leb_spec attempt maxAttempts) as [_|]; [| lia]);
    unfold try_catch; rewrite scripted_run.
  - rewrite Nat.add_0_r in Hok. rewrite Hok.
    eexists. split; [reflexivity |]. split; [| reflexivity].
    cbn [calls log]. rewrite calls_called_same. lia.
  - specialize (Hfails O ltac:(lia)) as Hfirst.
    rewrite !Nat.add_0_r in Hfirst. rewrite Hfirst.
    destruct (Z.eqb_spec attempt maxAttempts) as [|_]; [lia |].
    unfold logRetry, bind, emit, sleep. cbn beta iota.
    set (w2 := advance _ _).
    destruct (IH fuel (attempt + 1)
                (Qmin (delay * RetryStrategy.backoffMultiplier self)
                   (RetryStrategy.maxDelayMs self))
                (Some (toError (fails i))) w2 (S i))
      as (w' & Hrun & Hcalls & Htrace); try lia.
    { intros j Hj. subst w2. cbn [calls advance log].
      rewrite calls_called_same.
      replace (S (calls w ChOperation) + j)%nat with (calls w ChOperation + S j)%nat by lia.
      rewrite Hfails by lia. f_equal. f_equal. lia. }
    { subst w2. cbn [calls advance log]. rewrite calls_called_same.
      by replace (S (calls w ChOperation) + k)%nat with (calls w ChOperation + S k)%nat by lia. }
    exists w'. split; [exact Hrun |]. split.
    + rewrite Hcalls. subst w2. cbn [calls advance log]. rewrite calls_called_same. lia.
    + rewrite Htrace. subst w2. cbn [trace advance log called retry_log].
      rewrite <- !app_assoc. cbn. by rewrite Hatt.
Qed.

(** Success at the first call: no retry, no delay. *)
Lemma execute_first_success (script : nat -> Thrown + T) (v : T) (w : World) :
  1 <= maxAttempts ->
  script (calls w ChOperation) = inr v ->
  RetryStrategy.execute env self (scripted script) onRetry w
  = (Ok v, log EvCall (called ChOperation w)).
Proof.
  intros Hmax Hv. unfold RetryStrategy.execute.
  destruct (Z.to_nat maxAttempts) as [|fuel] eqn:E; [lia |].
  cbn [RetryStrategy.execute_loop].
  destruct (Z.leb_spec 1 maxAttempts) as [_|]; [| lia].
  unfold try_catch. by rewrite scripted_run, Hv.
Qed.

End ExecuteFacts.

Lemma retry_log_calls (self : RetryStrategy.t) (fails : nat -> Thrown) (k : nat) :
  forall i delay, count is_call (retry_log self fails k i delay) = S k.
Proof.
  induction k as [|k IH]; intros i delay; [done |].
  unfold count in *. cbn. f_equal. apply IH.
Qed.

Lemma retry_log_retries (self : RetryStrategy.t) (fails : nat -> Thrown) (k : nat) :
  forall i delay,
    retries (retry_log self fails k i delay)
    = map (fun j => (Z.of_nat (S j), toError (fails j))) (seq i k).
Proof.
  induction k as [|k IH]; intros i delay; [done |].
  unfold retries in *. cbn. f_equal. apply IH.
Qed.

Lemma new_maxAttempts (options : RetryOptions.t) (n : Z) :
  RetryOptions.maxAttempts options = Some n -> n <> 0 ->
  RetryStrategy.maxAttempts (RetryStrategy.new options) = n.
Proof.
  intros H Hn. cbn. rewrite H. cbn. unfold JS.truthyZ.
  by destruct (Z.eqb_spec n 0).
Qed.

(** C3. For every maxAttempts of at least 1, [execute] applied to an
    operation that fails at every call calls it exactly maxAttempts times
    and then fails with an FDCRetryError (RETRY_EXHAUSTED) that carries
    attempts = maxAttempts and the error of the last call. *)
Theorem retry_exhaustion {T : Type} (env : Env) (options : RetryOptions.t) (n : Z)
    (fails : nat -> Thrown) (onRetry : option (Z -> Error -> M unit)) (w : World) :
  RetryOptions.maxAttempts options = Some n ->
  1 <= n ->
  quiet onRetry ->
  let self := RetryStrategy.new options in
  let r := RetryStrategy.execute (T:=T) env self (scripted (fun i => inl (fails i)))
             onRetry w in
  r.1 = Throw (ThrownError
                 (FDCRetryError ("Operation failed after " +:+ pretty n +:+ " attempts") n
                    (Some (toError (fails (calls w ChOperation + Z.to_nat n - 1)%nat)))))
  /\ calls r.2 ChOperation = (calls w ChOperation + Z.to_nat n)%nat
  /\ count is_call (trace r.2) = (count is_call (trace w) + Z.to_nat n)%nat.
Proof.
  intros Hopt Hn Hquiet self r.
  pose proof (new_maxAttempts options n Hopt ltac:(lia)) as Hmax.
  pose proof (execute_always_fails (T:=T) env self onRetry Hquiet fails w) as H.
  fold self in Hmax. rewrite Hmax in H. apply H. lia.
Qed.

Lemma retry_exhaustion_witness :
  let options :=
    {| RetryOptions.maxAttempts := Some 3; RetryOptions.initialDelayMs := None;
       RetryOptions.maxDelayMs := None; RetryOptions.backoffMultiplier := None;
       RetryOptions.retryableErrors := None |} in
  let r := RetryStrategy.execute (T:=unit) scenarioEnv (RetryStrategy.new options)
             (scripted (fun i => inl (ThrownOther "down"))) logRetry (initialWorld 0) in
  r.1 = Throw (ThrownError (FDCRetryError "Operation failed after 3 attempts" 3
                              (Some (JsError "down"))))
  /\ count is_call (trace r.2) = 3%nat.
Proof.
  intros options r.
  destruct (retry_exhaustion (T:=unit) scenarioEnv options 3 (fun _ => ThrownOther "down")
              logRetry (initialWorld 0)) as (Hr & _ & Hc);
    [reflexivity | lia | by right |].
  split; [exact Hr | exact Hc].
Defined.

(** C4. For every k below maxAttempts, [execute] applied to an operation
    that fails exactly k times and then succeeds calls it exactly k + 1
    times and returns the success value, so no FDCRetryError is raised; the
    run is: call, onRetry(1, error 1), sleep, call, onRetry(2, error 2),
    sleep, ..., call, so that onRetry is invoked exactly for the attempts
    1..k, each time with the error of that attempt and before the sleep. *)
Theorem retry_convergence {T : Type} (env : Env) (options : RetryOptions.t) (n : Z)
    (script : nat -> Thrown + T) (fails : nat -> Thrown) (v : T) (k : nat) (w : World) :
  RetryOptions.maxAttempts options = Some n ->
  Z.of_nat k < n ->
  (forall j, (j < k)%nat -> script (calls w ChOperation + j)%nat = inl (fails j)) ->
  script (calls w ChOperation + k)%nat = inr v ->
  let self := RetryStrategy.new options in
  let r := RetryStrategy.execute env self (scripted script) logRetry w in
  let events := retry_log self fails k 0 (RetryStrategy.initialDelayMs self) in
  r.1 = Ok v
  /\ calls r.2 ChOperation = (calls w ChOperation + (k + 1))%nat
  /\ trace r.2 = trace w ++ events
  /\ count is_call events = (k + 1)%nat
  /\ retries events = map (fun j => (Z.of_nat (S j), toError (fails j))) (seq 0 k).
Proof.
  intros Hopt Hk Hfails Hok self r events.
  pose proof (new_maxAttempts options n Hopt ltac:(lia)) as Hmax. fold self in Hmax.
  destruct (execute_loop_converges env self script fails v k
              (Z.to_nat (RetryStrategy.maxAttempts self)) 1
              (RetryStrategy.initialDelayMs self) None w O)
    as (w' & Hrun & Hcalls & Htrace); try done; try lia.
  subst r. unfold RetryStrategy.execute. rewrite Hrun. cbn [fst snd].
  split; [done |]. split; [rewrite Hcalls; lia |]. split; [exact Htrace |].
  split; [subst events; rewrite retry_log_calls; lia | apply retry_log_retries].
Qed.

Lemma retry_convergence_witness :
  let options :=
    {| RetryOptions.maxAttempts := Some 5; RetryOptions.initialDelayMs := None;
       RetryOptions.maxDelayMs := None; RetryOptions.backoffMultiplier := None;
       RetryOptions.retryableErrors := None |} in
  let script := fun i : nat =>
    if (i <? 2)%nat then inl (ThrownOther "busy") else inr 42 in
  let r := RetryStrategy.execute scenarioEnv (RetryStrategy.new options)
             (scripted script) logRetry (initialWorld 0) in
  r.1 = Ok 42
  /\ calls r.2 ChOperation = 3%nat
  /\ retries (trace r.2) = [(1, JsError "busy"); (2, JsError "busy")].
Proof.
  intros options script r.
  destruct (retry_convergence scenarioEnv options 5 script (fun _ => ThrownOther "busy")
              42 2 (initialWorld 0)) as (Hr & Hc & Ht & _ & Hretries);
    [reflexivity | lia | | reflexivity |].
  { intros j Hj. cbn. destruct j as [|[|j]]; [reflexivity | reflexivity | lia]. }
  split; [exact Hr |]. split; [exact Hc |].
  fold r in Ht. rewrite Ht. cbn [trace initialWorld app]. exact Hretries.
Defined.

(** Against C5 as stated: retry options that ask for zero attempts are
    accepted, the strategy has ten attempts and the operation is called. *)
Lemma zero_maxAttempts_is_accepted :
  let options :=
    {| RetryOptions.maxAttempts := Some 0; RetryOptions.initialDelayMs := None;
       RetryOptions.maxDelayMs := None; RetryOptions.backoffMultiplier := None;
       RetryOptions.retryableErrors := None |} in
  let self := RetryStrategy.new options in
  let r := RetryStrategy.execute scenarioEnv self (scripted (fun _ => inr "done"))
             None (initialWorld 0) in
  RetryStrategy.maxAttempts self = 10
  /\ r.1 = Ok "done"
  /\ count is_call (trace r.2) = 1%nat.
Proof. vm_compute. repeat split. Qed.

(** C5, as the code has it.  A maxAttempts of 0 is not rejected: the
    constructor takes it for unset and uses the default of 10 attempts, and no
    configuration error is raised.  The operation is invoked: one that
    succeeds at its first call is called once and its value returned, one that
    fails at every call is called 10 times before the FDCRetryError with
    attempts = 10. *)
Theorem zero_maxAttempts_defaults_to_ten {T : Type} (env : Env)
    (options : RetryOptions.t) (onRetry : option (Z -> Error -> M unit)) (w : World) :
  RetryOptions.maxAttempts options = Some 0 ->
  quiet onRetry ->
  let self := RetryStrategy.new options in
  RetryStrategy.maxAttempts self = 10
  /\ (forall (script : nat -> Thrown + T) (v : T),
        script (calls w ChOperation) = inr v ->
        let r := RetryStrategy.execute env self (scripted script) onRetry w in
        r.1 = Ok v /\ calls r.2 ChOperation = S (calls w ChOperation))
  /\ (forall fails : nat -> Thrown,
        let r := RetryStrategy.execute (T:=T) env self
                   (scripted (fun i => inl (fails i))) onRetry w in
        r.1 = Throw (ThrownError
                       (FDCRetryError "Operation failed after 10 attempts" 10
                          (Some (toError (fails (calls w ChOperation + 9)%nat)))))
        /\ calls r.2 ChOperation = (calls w ChOperation + 10)%nat).
Proof.
  intros Hopt Hquiet self.
  assert (RetryStrategy.maxAttempts self = 10) as Hmax.
  { subst self. cbn. by rewrite Hopt. }
  split; [exact Hmax |]. split.
  - intros script v Hv. cbn zeta.
    rewrite (execute_first_success env self onRetry script v w) by (done || lia).
    cbn [fst snd calls log]. by rewrite calls_called_same.
  - intros fails.
    pose proof (execute_always_fails (T:=T) env self onRetry Hquiet fails w) as H.
    rewrite Hmax in H. destruct H as (Hr & Hc & _); [lia |].
    cbn zeta. rewrite Hr, Hc. split; [| reflexivity].
    replace (calls w ChOperation + Z.to_nat 10 - 1)%nat
      with (calls w ChOperation + 9)%nat by lia.
    reflexivity.
Qed.

Lemma zero_maxAttempts_defaults_to_ten_witness :
  let options :=
    {| RetryOptions.maxAttempts := Some 0; RetryOptions.initialDelayMs := None;
       RetryOptions.maxDelayMs := None; RetryOptions.backoffMultiplier := None;
       RetryOptions.retryableErrors := None |} in
  RetryStrategy.maxAttempts (RetryStrategy.new options) = 10.
Proof.
  intros options.
  apply (zero_maxAttempts_defaults_to_ten (T:=unit) scenarioEnv options None (initialWorld 0));
    [reflexivity | by left].
Defined.

(** *** FDCService.prepareAttestationRequest *)

(** Against C1 as stated: a verifier that answers 200 with the status
    INVALID is asked three times under a budget of three attempts, and the
    failure that surfaces is the exhausted retry, not a validation error. *)
Lemma invalid_status_is_retried :
  let r := FDCService.prepareAttestationRequest invalidEnv
             (FDCService.new invalidEnv retryThrice) scenarioParams Web2Json PublicWeb2
             (initialWorld 0) in
  r.1 = Throw (ThrownError
                 (FDCRetryError "Operation failed after 3 attempts" 3
                    (Some (FDCError "Invalid attestation request: INVALID"
                             "INVALID_REQUEST"))))
  /\ count is_fetch_verifier (trace r.2) = 3%nat
  /\ match r.1 with
     | Throw (ThrownError e) => isValidationError e = false
     | _ => False
     end.
Proof. vm_compute. repeat split. Qed.

Section PrepareFacts.
Variable env : Env.
Variable self : FDCService.t.

Lemma prepareOperation_invalid (url typeHex sourceHex : string)
    (requestBody : AttestationRequest) (w : World) :
  (forall i, exists httpStatus statusText data,
      verifier env i = FetchResponse true httpStatus statusText (inr data)
      /\ status data <> "VALID") ->
  exists t w1,
    FDCService.prepareOperation env url typeHex sourceHex requestBody w = (Throw t, w1)
    /\ count is_fetch_verifier (trace w1) = S (count is_fetch_verifier (trace w))
    /\ exists msg, toError t = FDCError msg "INVALID_REQUEST".
Proof.
  intros Hverifier.
  destruct (Hverifier (calls w ChVerifier)) as (st & txt & data & Hv & Hstatus).
  unfold FDCService.prepareOperation, bind, next_call, emit. cbn beta iota.
  rewrite Hv. cbn.
  destruct (String.eqb_spec (status data) "VALID") as [|_]; [done |]. cbn.
  do 2 eexists. split; [reflexivity |]. split.
  - cbn [trace log called]. rewrite count_snoc. cbn. lia.
  - by eexists.
Qed.

(** C1, as the code has it.  A success-shaped response whose status differs
    from "VALID" makes the operation fail with an FDCError of code
    INVALID_REQUEST, which the retry strategy treats like any other failure:
    against a verifier that keeps answering so, the request is sent exactly
    maxAttempts times, and prepareAttestationRequest then fails with the
    FDCRetryError that carries attempts = maxAttempts and that INVALID_REQUEST
    error. *)
Theorem invalid_status_retried_until_exhausted (params : AttestationRequestParams)
    (attestationType : AttestationType) (sourceId : SourceId) (n : Z) (w : World) :
  RetryStrategy.maxAttempts (RetryStrategy.new (FDCService.defaultRetryOptions self)) = n ->
  1 <= n ->
  (forall i, exists httpStatus statusText data,
      verifier env i = FetchResponse true httpStatus statusText (inr data)
      /\ status data <> "VALID") ->
  let r := FDCService.prepareAttestationRequest env self params attestationType sourceId w in
  (exists msg,
      r.1 = Throw (ThrownError
                     (FDCRetryError ("Operation failed after " +:+ pretty n +:+ " attempts") n
                        (Some (FDCError msg "INVALID_REQUEST")))))
  /\ count is_fetch_verifier (trace r.2)
     = (count is_fetch_verifier (trace w) + Z.to_nat n)%nat.
Proof.
  intros Hn Hpos Hverifier. cbn zeta.
  unfold FDCService.prepareAttestationRequest, RetryStrategy.execute.
  set (strategy := RetryStrategy.new _) in *.
  set (operation := FDCService.prepareOperation _ _ _ _ _).
  destruct (execute_loop_always_fails env strategy None ltac:(by left) operation
              (fun w => count is_fetch_verifier (trace w))
              (fun _ e => exists msg, e = FDCError msg "INVALID_REQUEST"))
    with (fuel := Z.to_nat (RetryStrategy.maxAttempts strategy)) (attempt := 1)
         (delay := RetryStrategy.initialDelayMs strategy) (lastError := @None Error)
         (w := w)
    as (e & w' & Hrun & Hcount & msg & ->); try lia.
  { intros w0. by apply prepareOperation_invalid. }
  { intros i e w0. cbn [trace log]. rewrite count_snoc. cbn. lia. }
  { intros ms w0. cbn [trace log]. rewrite count_snoc. cbn. lia. }
  { done. }
  rewrite Hrun. cbn [fst snd]. rewrite Hn in *. split; [by exists msg | exact Hcount].
Qed.

End PrepareFacts.

Lemma invalid_status_retried_until_exhausted_witness :
  let r := FDCService.prepareAttestationRequest invalidEnv
             (FDCService.new invalidEnv retryThrice) scenarioParams Web2Json PublicWeb2
             (initialWorld 0) in
  count is_fetch_verifier (trace r.2) = 3%nat.
Proof.
  intros r.
  apply (invalid_status_retried_until_exhausted invalidEnv
           (FDCService.new invalidEnv retryThrice) scenarioParams Web2Json PublicWeb2 3
           (initialWorld 0)).
  - reflexivity.
  - lia.
  - intros i. exists 200, "OK", {| status := "INVALID"; abiEncodedRequest := "0x" |}.
    split; [reflexivity | discriminate].
Defined.

(** *** FDCService.waitForRoundFinalization: the poll intervals *)

Lemma adapt_ge (n : Z) (c : Q) : (0 < c)%Q -> (c <= FDCService.adapt n c)%Q.
Proof.
  intros Hc. unfold FDCService.adapt.
  destruct ((5 <? n) && JS.Qltb c 60000) eqn:E; [| lra].
  apply andb_prop in E as [_ E].
  apply Q.min_glb; [lra |].
  unfold JS.Qltb in E. apply negb_true_iff in E.
  destruct (Qlt_le_dec c 60000) as [|Hle]; [lra |].
  apply Qle_bool_iff in Hle. congruence.
Qed.

Lemma adapt_le (n : Z) (c : Q) : (FDCService.adapt n c <= Qmax c 60000)%Q.
Proof.
  unfold FDCService.adapt.
  destruct ((5 <? n) && JS.Qltb c 60000).
  - eapply Qle_trans; [apply Q.le_min_r | apply Q.le_max_r].
  - apply Q.le_max_l.
Qed.

Lemma adapt_early (n : Z) (c : Q) : n <= 5 -> FDCService.adapt n c = c.
Proof.
  intros Hn. unfold FDCService.adapt.
  by destruct (Z.ltb_spec 5 n); [lia |].
Qed.

Lemma intervals_ge (len : nat) :
  forall c n, (0 < c)%Q -> Forall (Qle c) (intervals len c n).
Proof.
  induction len as [|len IH]; intros c n Hc; cbn; [constructor |].
  pose proof (adapt_ge (n + 1) c Hc) as Hge.
  constructor; [exact Hge |].
  eapply Forall_impl; [apply IH; lra |].
  intros d Hd. cbn in Hd. lra.
Qed.

Lemma intervals_sorted (len : nat) :
  forall c n, (0 < c)%Q -> StronglySorted Qle (intervals len c n).
Proof.
  induction len as [|len IH]; intros c n Hc; cbn; [constructor |].
  pose proof (adapt_ge (n + 1) c Hc) as Hge.
  constructor; [apply IH; lra | apply intervals_ge; lra].
Qed.

Lemma intervals_le (len : nat) :
  forall c n, (0 < c)%Q ->
    Forall (fun d => (d <= Qmax c 60000)%Q) (intervals len c n).
Proof.
  induction len as [|len IH]; intros c n Hc; cbn; [constructor |].
  pose proof (adapt_ge (n + 1) c Hc) as Hge.
  pose proof (adapt_le (n + 1) c) as Hle.
  constructor; [exact Hle |].
  eapply Forall_impl; [apply IH; lra |].
  intros d Hd. cbn in Hd. eapply Qle_trans; [exact Hd |].
  apply Q.max_lub; [exact Hle | apply Q.le_max_r].
Qed.

Lemma intervals_early (len : nat) :
  forall c n i d,
    intervals len c n !! i = Some d -> n + Z.of_nat i < 5 -> d = c.
Proof.
  induction len as [|len IH]; intros c n i d Hi Hn; [done |].
  cbn in Hi. rewrite adapt_early in Hi by lia.
  destruct i as [|i]; cbn in Hi; [congruence |].
  apply (IH c (n + 1) i); [exact Hi | lia].
Qed.

Lemma intervals_sixth (len : nat) (c d : Q) :
  intervals len c 0 !! 5%nat = Some d ->
  (c < 60000)%Q ->
  d = Qmin (c * 1.5) 60000.
Proof.
  intros Hd Hc.
  do 6 (destruct len as [|len]; [done |]).
  cbn [intervals] in Hd.
  rewrite !(adapt_early _ c) in Hd by lia.
  cbn in Hd. injection Hd as <-.
  unfold FDCService.adapt. cbn [Z.ltb Z.compare Pos.compare Pos.compare_cont andb].
  unfold JS.Qltb. destruct (Qle_bool 60000 c) eqn:E; [| done].
  apply Qle_bool_iff in E. lra.
Qed.

Section WaitFacts.
Variable env : Env.
Variable self : FDCService.t.

(** The sleeps of the loop are a prefix of the sequence of adapted intervals. *)
Lemma finalization_loop_sleeps (pollingOptions : PollingOptions.t)
    (protocolId roundId startTime : Z) (fuel : nat) :
  forall c n w,
    exists len evs,
      trace (FDCService.finalization_loop env pollingOptions protocolId roundId
               startTime fuel c n w).2 = trace w ++ evs
      /\ sleeps evs = intervals len c n.
Proof.
  induction fuel as [|fuel IH]; intros c n w.
  - exists O, []. cbn. by rewrite app_nil_r.
  - cbn [FDCService.finalization_loop].
    unfold bind, next_call, emit, settle, now. cbn beta iota.
    destruct (isFinalized env (calls w ChRelay)) as [t|[|]].
    + exists O, [EvIsFinalized protocolId roundId]. done.
    + unfold FDCService.progress, when, emit.
      destruct (bool_decide _).
      * exists O. eexists. cbn [snd trace log called].
        rewrite <- app_assoc. split; [reflexivity | reflexivity].
      * exists O, [EvIsFinalized protocolId roundId]. done.
    + destruct (FDCService.deadlinePassed _ _).
      * exists O, [EvIsFinalized protocolId roundId]. done.
      * unfold FDCService.progress, when, emit, sleep, ret.
        destruct (bool_decide _).
        -- match goal with
           | |- context [FDCService.finalization_loop _ _ _ _ _ _ ?c' ?n' ?w'] =>
               destruct (IH c' n' w') as (len & evs & -> & Hs)
           end.
           exists (S len). eexists. cbn [trace log called advance].
           rewrite <- !app_assoc. split; [reflexivity |].
           cbn. unfold sleeps in Hs. by rewrite Hs.
        -- match goal with
           | |- context [FDCService.finalization_loop _ _ _ _ _ _ ?c' ?n' ?w'] =>
               destruct (IH c' n' w') as (len & evs & -> & Hs)
           end.
           exists (S len). eexists. cbn [trace log called advance].
           rewrite <- !app_assoc. split; [reflexivity |].
           cbn. unfold sleeps in Hs. by rewrite Hs.
Qed.

(** C7, as the code has it.  For every positive initial interval (an absent
    or zero checkIntervalMs stands for 30 s), in every run of the loop the
    successive poll intervals are non-decreasing and never exceed the larger
    of the initial interval and 60 s, hence never exceed 60 s when the
    initial interval does not; the first five intervals are the initial
    one, and the sixth is 1.5 times that, capped at 60 s, so growth begins
    only after five consecutive non-finalized checks. *)
Theorem poll_intervals_monotone_bounded (roundId : Z) (options : PollingOptions.t)
    (fuel : nat) (w : World) :
  let c0 := JS.orDefaultQ
              (PollingOptions.checkIntervalMs
                 (PollingOptions.merge (FDCService.defaultPollingOptions self) options))
              30000 in
  (0 < c0)%Q ->
  let r := FDCService.waitForRoundFinalization env self roundId options fuel w in
  exists evs,
    trace r.2 = trace w ++ evs
    /\ StronglySorted Qle (sleeps evs)
    /\ Forall (fun d => (d <= Qmax c0 60000)%Q) (sleeps evs)
    /\ ((c0 <= 60000)%Q -> Forall (fun d => (d <= 60000)%Q) (sleeps evs))
    /\ (forall i d, sleeps evs !! i = Some d -> (i < 5)%nat -> d = c0)
    /\ (forall d, sleeps evs !! 5%nat = Some d -> (c0 < 60000)%Q ->
          d = Qmin (c0 * 1.5) 60000).
Proof.
  intros c0 Hc0 r. subst r.
  unfold FDCService.waitForRoundFinalization, bind, now. cbn beta iota.
  fold c0.
  destruct (finalization_loop_sleeps
              (PollingOptions.merge (FDCService.defaultPollingOptions self) options)
              (fdcProtocolId env) roundId (clock w) fuel c0 0 w)
    as (len & evs & Htrace & Hsleeps).
  exists evs. split; [exact Htrace |]. rewrite Hsleeps.
  split; [by apply intervals_sorted |].
  split; [by apply intervals_le |].
  split.
  { intros Hcap. eapply Forall_impl; [by apply intervals_le |].
    intros d Hd. cbn in Hd. eapply Qle_trans; [exact Hd |].
    apply Q.max_lub; [exact Hcap | lra]. }
  split.
  - intros i d Hi Hlt. apply (intervals_early len c0 0 i d Hi). lia.
  - intros d Hd Hlt. by apply (intervals_sixth len).
Qed.

End WaitFacts.

Lemma poll_intervals_monotone_bounded_witness :
  let r := FDCService.waitForRoundFinalization scenarioEnv
             (FDCService.new scenarioEnv retryThrice) 5 PollingOptions.empty 10
             (initialWorld 0) in
  exists evs, trace r.2 = evs /\ Forall (fun d => (d <= 60000)%Q) (sleeps evs).
Proof.
  intros r.
  destruct (poll_intervals_monotone_bounded scenarioEnv
              (FDCService.new scenarioEnv retryThrice) 5 PollingOptions.empty 10
              (initialWorld 0)) as (evs & Htrace & _ & _ & Hcap & _ & _).
  - reflexivity.
  - exists evs. split; [exact Htrace |]. apply Hcap. discriminate.
Defined.

(** Against C7 as stated: a configured interval of two minutes is slept as
    it is, above the cap of 60 s. *)
Lemma configured_interval_above_cap :
  let r := FDCService.waitForRoundFinalization neverFinalizedEnv
             (FDCService.new neverFinalizedEnv retryThrice) 5 everyTwoMinutes 10
             (initialWorld 0) in
  sleeps (trace r.2) = [120000%Q; 120000%Q; 120000%Q]
  /\ ~ Forall (fun d => (d <= 60000)%Q) (sleeps (trace r.2)).
Proof.
  cbn zeta.
  assert (sleeps (trace (FDCService.waitForRoundFinalization neverFinalizedEnv
             (FDCService.new neverFinalizedEnv retryThrice) 5 everyTwoMinutes 10
             (initialWorld 0)).2) = [120000%Q; 120000%Q; 120000%Q]) as ->
    by (vm_compute; reflexivity).
  split; [reflexivity |].
  intros H. apply Forall_cons in H as [H _]. revert H. by vm_compute.
Qed.

(** *** The polling loops and the deadline *)

(** Without a deadline, against a relay that never reports the round
    finalized, no amount of fuel ends the loop. *)
Lemma finalization_loop_without_deadline (pollingOptions : PollingOptions.t)
    (protocolId roundId startTime : Z) (fuel : nat) :
  PollingOptions.maxWaitTimeMs pollingOptions = None ->
  forall c n w,
    (FDCService.finalization_loop neverFinalizedEnv pollingOptions protocolId roundId
       startTime fuel c n w).1 = Diverge.
Proof.
  intros Hnone. induction fuel as [|fuel IH]; intros c n w; [done |].
  cbn [FDCService.finalization_loop].
  unfold bind, next_call, emit, settle, now. cbn beta iota.
  unfold FDCService.deadlinePassed. rewrite Hnone. cbn iota.
  unfold FDCService.progress, when, emit, sleep, ret.
  destruct (bool_decide _); apply IH.
Qed.


Lemma merge_idem (a b : PollingOptions.t) :
  PollingOptions.merge a (PollingOptions.merge a b) = PollingOptions.merge a b.
Proof.
  destruct a as [[?|] [?|] [?|]], b as [[?|] [?|] [?|]]; reflexivity.
Qed.

Section DeadlineFacts.
Variable env : Env.
(** The timer never resumes early. *)
Hypothesis sleep_elapses : forall ms, (ms <= inject_Z (sleepElapsed env ms))%Q.

Lemma sleep_advances (ms : Q) : (0 < ms)%Q -> 1 <= sleepElapsed env ms.
Proof.
  intros Hms. pose proof (sleep_elapses ms) as H.
  assert (inject_Z 0 < inject_Z (sleepElapsed env ms))%Q as Hlt
    by (eapply Qlt_le_trans; [exact Hms | exact H]).
  rewrite <- Zlt_Qlt in Hlt. lia.
Qed.

Variable pollingOptions : PollingOptions.t.
Variable limit : Z.
Hypothesis has_deadline : PollingOptions.maxWaitTimeMs pollingOptions = Some limit.
Hypothesis deadline_nonzero : limit <> 0.

Lemma deadlinePassed_spec (elapsed : Z) :
  FDCService.deadlinePassed pollingOptions elapsed = (limit <? elapsed).
Proof.
  unfold FDCService.deadlinePassed. rewrite has_deadline.
  unfold JS.truthyZ. by destruct (Z.eqb_spec limit 0).
Qed.

Lemma finalization_loop_ends (protocolId roundId startTime : Z) (fuel : nat) :
  forall c n w,
    (0 < c)%Q ->
    (1 <= fuel)%nat ->
    limit + 1 < clock w - startTime + Z.of_nat fuel ->
    let r := FDCService.finalization_loop env pollingOptions protocolId roundId
               startTime fuel c n w in
    Ending env limit startTime r /\ clock w <= clock r.2.
Proof.
  induction fuel as [|fuel IH]; intros c n w Hc Hfuel Hbound; [lia |].
  cbn zeta. cbn [FDCService.finalization_loop].
  unfold bind, next_call, emit, settle, now. cbn beta iota.
  destruct (isFinalized env (calls w ChRelay)) as [t|[|]] eqn:Eoracle.
  - split; [| cbn; lia]. apply EndRejected. left. eauto.
  - unfold FDCService.progress, when, emit, ret.
    destruct (bool_decide _); (split; [apply EndOk | cbn; lia]).
  - rewrite deadlinePassed_spec. cbn [clock log called].
    destruct (Z.ltb_spec limit (clock w - startTime)) as [Hpast|Hnot].
    + rewrite has_deadline. cbn [default]. split; [| cbn; lia].
      apply EndTimeout. cbn. exact Hpast.
    + pose proof (adapt_ge (n + 1) c Hc) as Hge.
      pose proof (sleep_advances (FDCService.adapt (n + 1) c) ltac:(lra)) as Hadv.
      unfold FDCService.progress, when, emit, sleep, ret.
      destruct (bool_decide _);
        match goal with
        | |- context [FDCService.finalization_loop _ _ _ _ _ _ ?c' ?n' ?w'] =>
            destruct (IH c' n' w') as [Hend Hclock];
              [lra | lia | cbn [clock advance log called]; lia |];
              cbn zeta in Hend, Hclock;
              split; [exact Hend | cbn [clock advance log called] in Hclock; lia]
        end.
Qed.

Lemma proof_loop_ends (url abiEncodedRequest : string) (roundId startTime : Z)
    (fuel : nat) :
  (0 < JS.orDefaultQ (PollingOptions.checkIntervalMs pollingOptions)
         (proofGenerationCheckIntervalMs (fdcConfig env)))%Q ->
  forall w,
    (1 <= fuel)%nat ->
    limit + 1 < clock w - startTime + Z.of_nat fuel ->
    let r := FDCService.proof_loop env pollingOptions url abiEncodedRequest roundId
               startTime fuel w in
    Ending env limit startTime r
    /\ clock w <= clock r.2
    /\ forall a, r.1 = Ok a -> is_Some a.
Proof.
  intros Hc. pose proof (sleep_advances _ Hc) as Hadv.
  induction fuel as [|fuel IH]; intros w Hfuel Hbound; [lia |].
  cbn zeta.
  set (P := fun (w : World) (r : Res (option ProofData) * World) =>
              Ending env limit startTime r
              /\ clock w <= clock r.2
              /\ forall a, r.1 = Ok a -> is_Some a).
  change (P w (FDCService.proof_loop env pollingOptions url abiEncodedRequest roundId
                 startTime (S fuel) w)).
  cbn [FDCService.proof_loop].
  unfold bind at 1 2. unfold next_call, emit. cbn beta iota.
  assert (forall w0 : World,
             clock w0 = clock w ->
             P w ((let* t := now in
                   let elapsed := t - startTime in
                   if FDCService.deadlinePassed pollingOptions elapsed then
                     throw (FDCTimeoutError
                              ("Proof generation timed out after "
                                 +:+ pretty (default 0 (PollingOptions.maxWaitTimeMs pollingOptions))
                                 +:+ "ms")
                              (default 0 (PollingOptions.maxWaitTimeMs pollingOptions)))
                   else
                     do FDCService.progress pollingOptions
                          ("Waiting for proof generation... ("
                             +:+ pretty (JS.roundDiv1000 elapsed) +:+ "s elapsed)") then
                     do sleep env
                          (JS.orDefaultQ (PollingOptions.checkIntervalMs pollingOptions)
                             (proofGenerationCheckIntervalMs (fdcConfig env))) then
                     FDCService.proof_loop env pollingOptions url abiEncodedRequest
                       roundId startTime fuel) w0)) as Hrest.
  { intros w0 Hw0. unfold bind at 1. unfold now. cbn beta iota.
    rewrite deadlinePassed_spec, Hw0.
    destruct (Z.ltb_spec limit (clock w - startTime)) as [Hpast|Hnot].
    - rewrite has_deadline. unfold throw. subst P. cbn.
      split; [| split; [lia | done]].
      apply EndTimeout. lia.
    - unfold FDCService.progress, when, bind, emit, sleep, ret.
      destruct (bool_decide _);
        match goal with
        | |- context [FDCService.proof_loop _ _ _ _ _ _ _ ?w'] =>
            destruct (IH w') as (Hend & Hclock & Hsome);
              [lia | cbn [clock advance log called]; lia |];
              cbn zeta in Hend, Hclock, Hsome;
              subst P; cbn beta;
              split; [exact Hend |];
              split; [cbn [clock advance log called] in Hclock; lia | exact Hsome]
        end. }
  destruct (daLayer env (calls w ChDALayer)) as [t|ok st txt json] eqn:Eda.
  - subst P. cbn. split; [| split; [lia | done]]. apply EndRejected. right. left. eauto.
  - destruct ok.
    + unfold bind at 1 2. unfold settle at 1.
      destruct json as [t|data].
      * subst P. cbn. split; [| split; [lia | done]].
        apply EndRejected. right. right. eauto.
      * unfold ret at 1. cbn beta iota.
        destruct (FDCService.asProofData data) as [p|].
        -- subst P. cbn. split; [apply EndOk |]. split; [lia |]. intros a [= <-]. eauto.
        -- apply Hrest. reflexivity.
    + unfold bind at 1. unfold ret at 1. cbn beta iota.
      apply Hrest. reflexivity.
Qed.

Lemma Ending_earlier_start {A B : Type} (start start' : Z) (t : Thrown) (w : World) :
  start <= start' ->
  Ending (A:=A) env limit start' (Throw t, w) ->
  Ending (A:=B) env limit start (Throw t, w).
Proof.
  intros Hle H. inversion H; subst.
  - apply EndTimeout. lia.
  - by apply EndRejected.
Qed.

Variable self : FDCService.t.
Variable options : PollingOptions.t.
Hypothesis merged :
  pollingOptions = PollingOptions.merge (FDCService.defaultPollingOptions self) options.
Hypothesis finalization_interval :
  (0 < JS.orDefaultQ (PollingOptions.checkIntervalMs pollingOptions) 30000)%Q.
Hypothesis proof_interval :
  (0 < JS.orDefaultQ (PollingOptions.checkIntervalMs pollingOptions)
         (proofGenerationCheckIntervalMs (fdcConfig env)))%Q.

Lemma waitForRoundFinalization_ends (roundId : Z) (fuel : nat) (w : World) :
  (Z.to_nat limit + 2 <= fuel)%nat ->
  let r := FDCService.waitForRoundFinalization env self roundId options fuel w in
  Ending env limit (clock w) r /\ clock w <= clock r.2.
Proof.
  intros Hfuel. unfold FDCService.waitForRoundFinalization, bind, now. cbn beta iota.
  rewrite <- merged.
  apply finalization_loop_ends; [exact finalization_interval | lia | lia].
Qed.

Lemma retrieveProof_ends (abiEncodedRequest : string) (roundId : Z) (fuel : nat)
    (w : World) :
  (Z.to_nat limit + 2 <= fuel)%nat ->
  Ending env limit (clock w)
    (FDCService.retrieveProof env self abiEncodedRequest roundId options fuel w).
Proof.
  intros Hfuel. unfold FDCService.retrieveProof.
  set (key := ProofCache.generateKey abiEncodedRequest roundId).
  assert (exists o w0,
             match FDCService.proofCache self with
             | Some c => ProofCache.get c key
             | None => ret None
             end w = (Ok o, w0) /\ clock w0 = clock w) as (o & w0 & Hget & Hclk).
  { destruct (FDCService.proofCache self) as [c|]; [| by eexists _, _].
    unfold ProofCache.get.
    destruct (cache w !! key) as [[data ts]|]; [destruct (_ <? _) |];
      eexists _, _; (split; [reflexivity | done]). }
  unfold bind at 1. rewrite Hget.
  destruct o as [hit|]; [apply EndOk |].
  rewrite <- merged.
  assert (FDCService.waitForRoundFinalization env self roundId pollingOptions fuel w0
          = FDCService.waitForRoundFinalization env self roundId options fuel w0) as Hsame.
  { unfold FDCService.waitForRoundFinalization. by rewrite merged, merge_idem. }
  destruct (waitForRoundFinalization_ends roundId fuel w0 Hfuel) as [Hend Hclock].
  cbn zeta in Hend, Hclock. rewrite <- Hsame in Hend, Hclock.
  unfold bind at 1.
  destruct (FDCService.waitForRoundFinalization env self roundId pollingOptions fuel w0)
    as [[[]|t|] w1] eqn:Ewait.
  - cbn [snd] in Hclock.
    unfold bind at 1. unfold sleep at 1. cbn beta iota.
    unfold bind at 1. unfold now at 1. cbn beta iota.
    set (w2 := advance _ _).
    pose proof (sleep_advances 10000 ltac:(reflexivity)) as Hsettle.
    assert (clock w <= clock w2) as Hw2 by (subst w2; cbn; lia).
    destruct (proof_loop_ends
                (daLayerUrl (networkConfig env) +:+ "api/v1/fdc/proof-by-request-round-raw")
                abiEncodedRequest roundId (clock w2) fuel proof_interval w2)
      as (Hend' & Hclock' & Hsome); [lia | lia |].
    cbn zeta in Hend', Hclock', Hsome.
    unfold bind at 1.
    destruct (FDCService.proof_loop env pollingOptions _ abiEncodedRequest roundId
                (clock w2) fuel w2) as [[[p|]|t|] w3] eqn:Eloop.
    + destruct (FDCService.proofCache self); cbn; apply EndOk.
    + destruct (Hsome None eq_refl) as [? ?]. discriminate.
    + by apply (Ending_earlier_start (A:=option ProofData) (clock w) (clock w2)).
    + inversion Hend'.
  - rewrite <- Hclk. by apply (Ending_earlier_start (A:=unit) (clock w0) (clock w0)).
  - inversion Hend.
Qed.

End DeadlineFacts.



(** *** FDCService.executeAttestationWorkflow: validation *)

(** Against C8 as stated: parameters with an empty URL, filter and
    signature, handed to the workflow directly, are sent to the verifier,
    and the workflow completes. *)
Lemma empty_params_reach_the_verifier :
  let r := FDCService.executeAttestationWorkflow scenarioEnv
             (FDCService.new scenarioEnv retryThrice) emptyParams Web2Json PublicWeb2
             None 10 (initialWorld 0) in
  (exists v, r.1 = Ok v)
  /\ (exists url typeHex sourceHex requestBody,
        trace r.2 !! O = Some (EvFetchVerifier url typeHex sourceHex requestBody)
        /\ req_url requestBody = "")
  /\ count is_network (trace r.2) = 8%nat.
Proof.
  cbn zeta. split; [| split].
  - eexists. vm_compute. reflexivity.
  - do 4 eexists. split; [vm_compute; reflexivity | reflexivity].
  - vm_compute. reflexivity.
Qed.

(** C8, as the code has it.  The check of the three required strings is
    made by AttestationRequestBuilder.build, not by the service: a request
    assembled through the builder, as executeWeatherAttestation does, with an
    empty URL, JQ filter or ABI signature fails with the plain Error of
    [build] and leaves the world untouched, so that no network request is
    issued; when the three are non-empty the workflow is entered with the
    built parameters. *)
Theorem builder_validates_before_network (env : Env) (apiUrl jqFilter abiSignature : string)
    (pollingOptions : option PollingOptions.t) (fuel : nat) (w : World) :
  let r := WeatherInsuranceBase.executeWeatherAttestation env apiUrl jqFilter abiSignature
             pollingOptions fuel w in
  (apiUrl = "" \/ jqFilter = "" \/ abiSignature = "" ->
     (exists message, r.1 = Throw (ThrownError (JsError message)))
     /\ r.2 = w
     /\ count is_network (trace r.2) = count is_network (trace w))
  /\ (apiUrl <> "" -> jqFilter <> "" -> abiSignature <> "" ->
        r = FDCService.executeAttestationWorkflow env (WeatherInsuranceBase.fdcService env)
              {| FDC.apiUrl := apiUrl; FDC.postProcessJq := jqFilter;
                 FDC.abiSignature := abiSignature; FDC.httpMethod := Some "GET";
                 FDC.headers := Some "{}"; FDC.queryParams := Some "{}";
                 FDC.body := Some "{}" |}
              Web2Json PublicWeb2 pollingOptions fuel w).
Proof.
  cbn zeta.
  unfold WeatherInsuranceBase.executeWeatherAttestation,
    WeatherInsuranceBase.createWeatherAttestationRequest,
    AttestationRequestBuilder.build.
  cbn [AttestationRequestBuilder.params AttestationRequestBuilder.source
       AttestationRequestBuilder.type AttestationRequestBuilder.abiSignature
       AttestationRequestBuilder.jqFilter AttestationRequestBuilder.url
       AttestationRequestBuilder.with_params AttestationRequestBuilder.new
       Partial.apiUrl Partial.postProcessJq Partial.abiSignature Partial.empty
       JS.falsyStr].
  unfold JS.truthyStr. rewrite !negb_involutive.
  destruct (String.eqb_spec apiUrl "") as [->|Hu];
    [| destruct (String.eqb_spec jqFilter "") as [->|Hj];
       [| destruct (String.eqb_spec abiSignature "") as [->|Ha]]].
  - split; [intros _; cbn; eauto | done].
  - split; [intros _; cbn; eauto | done].
  - split; [intros _; cbn; eauto | done].
  - split; [intros [|[|]]; done |]. intros _ _ _. reflexivity.
Qed.

Lemma builder_validates_before_network_witness :
  let r := WeatherInsuranceBase.executeWeatherAttestation scenarioEnv "" "." "tuple"
             None 10 (initialWorld 0) in
  r.2 = initialWorld 0.
Proof.
  intros r.
  destruct (builder_validates_before_network scenarioEnv "" "." "tuple" None 10
              (initialWorld 0)) as [Hempty _].
  apply Hempty. left. reflexivity.
Defined.

(** *** FDCService.executeAttestationWorkflow: the submission *)

Section Preserves.
Variable f : World -> nat.

Lemma preserves_ret {A} (a : A) : preserves f (ret a).
Proof. by intros w. Qed.

Lemma preserves_throw {A} (e : Error) : preserves f (throw (A:=A) e).
Proof. by intros w. Qed.

Lemma preserves_settle {A} (r : Thrown + A) : preserves f (settle r).
Proof. intros w. by destruct r. Qed.

Lemma preserves_out_of_fuel {A} : preserves f (out_of_fuel (A:=A)).
Proof. by intros w. Qed.

Lemma preserves_now : preserves f now.
Proof. by intros w. Qed.

Lemma preserves_bind {A B} (m : M A) (k : A -> M B) :
  preserves f m -> (forall a, preserves f (k a)) -> preserves f (bind m k).
Proof.
  intros Hm Hk w. unfold bind. specialize (Hm w).
  destruct (m w) as [[a|t|] w1]; cbn in *; [| done | done].
  by rewrite Hk.
Qed.

Lemma preserves_try_catch {A} (m : M A) (h : Thrown -> M A) :
  preserves f m -> (forall t, preserves f (h t)) -> preserves f (try_catch m h).
Proof.
  intros Hm Hh w. unfold try_catch. specialize (Hm w).
  destruct (m w) as [[a|t|] w1]; cbn in *; [done | | done].
  by rewrite Hh.
Qed.

Lemma preserves_when (b : bool) (m : M unit) : preserves f m -> preserves f (when b m).
Proof. intros Hm. destruct b; [done | apply preserves_ret]. Qed.

End Preserves.

(** Everything but the submission leaves the number of submissions as it is. *)
Lemma attestations_log (e : Event) (w : World) :
  is_request_attestation e = false -> attestations (log e w) = attestations w.
Proof.
  intros He. unfold attestations. cbn [trace log]. rewrite count_snoc, He. lia.
Qed.

Lemma attestations_emit (e : Event) :
  is_request_attestation e = false -> preserves attestations (emit e).
Proof. intros He w. by apply attestations_log. Qed.

Lemma attestations_next_call (ch : Channel) : preserves attestations (next_call ch).
Proof. by intros w. Qed.

Lemma attestations_sleep (env : Env) (ms : Q) : preserves attestations (sleep env ms).
Proof. intros w. unfold sleep. cbn [snd]. by apply (attestations_log (EvSleep ms)). Qed.

Lemma attestations_cache_get (c : ProofCache.t) (key : string) :
  preserves attestations (ProofCache.get c key).
Proof.
  intros w. unfold ProofCache.get.
  destruct (cache w !! key) as [[data ts]|]; [destruct (_ <? _) |]; done.
Qed.

Lemma attestations_cache_set (c : ProofCache.t) (key : string) (data : ProofData) :
  preserves attestations (ProofCache.set c key data).
Proof. by intros w. Qed.

Create HintDb preserves.
#[local] Hint Resolve preserves_ret preserves_throw preserves_settle preserves_out_of_fuel
  preserves_now preserves_when attestations_next_call attestations_sleep
  attestations_cache_get attestations_cache_set : preserves.

Ltac preserve :=
  repeat first
    [ apply preserves_bind; [| intros ?]
    | apply attestations_emit; reflexivity
    | solve [auto with preserves] ].

Section SubmissionFacts.
Variable env : Env.
Variable self : FDCService.t.

Lemma attestations_execute_loop {T} (strategy : RetryStrategy.t) (operation : M T)
    (fuel : nat) :
  preserves attestations operation ->
  forall attempt delay lastError,
    preserves attestations
      (RetryStrategy.execute_loop env strategy operation None fuel attempt delay lastError).
Proof.
  intros Hop. induction fuel as [|fuel IH]; intros attempt delay lastError;
    cbn [RetryStrategy.execute_loop];
    (destruct (attempt <=? RetryStrategy.maxAttempts strategy);
       [| apply preserves_throw]).
  - apply preserves_out_of_fuel.
  - apply preserves_try_catch; [exact Hop |]. intros t.
    destruct (attempt =? RetryStrategy.maxAttempts strategy); [apply preserves_throw |].
    preserve; try apply IH.
Qed.

Lemma attestations_prepare (params : AttestationRequestParams)
    (attestationType : AttestationType) (sourceId : SourceId) :
  preserves attestations
    (FDCService.prepareAttestationRequest env self params attestationType sourceId).
Proof.
  unfold FDCService.prepareAttestationRequest, RetryStrategy.execute.
  apply attestations_execute_loop.
  unfold FDCService.prepareOperation.
  apply preserves_bind; [preserve | intros i].
  apply preserves_bind; [preserve | intros _].
  destruct (verifier env _) as [t|ok st txt json]; [preserve |].
  destruct ok; cbn [negb]; [| preserve].
  apply preserves_bind; [preserve | intros data].
  destruct (negb _); preserve.
Qed.

Lemma attestations_progress (pollingOptions : PollingOptions.t) (message : string) :
  preserves attestations (FDCService.progress pollingOptions message).
Proof. unfold FDCService.progress. apply preserves_when. by apply attestations_emit. Qed.

Lemma attestations_finalization_loop (pollingOptions : PollingOptions.t)
    (protocolId roundId startTime : Z) (fuel : nat) :
  forall c n,
    preserves attestations
      (FDCService.finalization_loop env pollingOptions protocolId roundId startTime
         fuel c n).
Proof.
  induction fuel as [|fuel IH]; intros c n; cbn [FDCService.finalization_loop];
    [apply preserves_out_of_fuel |].
  apply preserves_bind; [preserve | intros i].
  apply preserves_bind; [preserve | intros _].
  apply preserves_bind; [preserve | intros finalized].
  destruct finalized; [apply attestations_progress |].
  apply preserves_bind; [preserve | intros t].
  cbn zeta. destruct (FDCService.deadlinePassed _ _); [preserve |].
  apply preserves_bind; [apply attestations_progress | intros _].
  preserve; try apply IH.
Qed.

Lemma attestations_proof_loop (pollingOptions : PollingOptions.t) (url : string)
    (abiEncodedRequest : string) (roundId startTime : Z) (fuel : nat) :
  preserves attestations
    (FDCService.proof_loop env pollingOptions url abiEncodedRequest roundId startTime fuel).
Proof.
  induction fuel as [|fuel IH]; cbn [FDCService.proof_loop];
    [apply preserves_out_of_fuel |].
  apply preserves_bind; [preserve | intros i].
  apply preserves_bind; [preserve | intros _].
  destruct (daLayer env _) as [t|ok st txt json]; [preserve |].
  apply preserves_bind; [destruct ok; preserve | intros found].
  destruct found; [preserve |].
  apply preserves_bind; [preserve | intros t].
  cbn zeta. destruct (FDCService.deadlinePassed _ _); [preserve |].
  apply preserves_bind; [apply attestations_progress | intros _].
  preserve; try apply IH.
Qed.

Lemma attestations_retrieveProof (abiEncodedRequest : string) (roundId : Z)
    (options : PollingOptions.t) (fuel : nat) :
  preserves attestations
    (FDCService.retrieveProof env self abiEncodedRequest roundId options fuel).
Proof.
  unfold FDCService.retrieveProof.
  apply preserves_bind; [destruct (FDCService.proofCache self); preserve | intros cached].
  destruct cached; [preserve |].
  apply preserves_bind.
  { unfold FDCService.waitForRoundFinalization. preserve.
    apply attestations_finalization_loop. }
  intros _.
  apply preserves_bind; [preserve | intros _].
  apply preserves_bind; [preserve | intros startTime].
  apply preserves_bind; [apply attestations_proof_loop | intros found].
  destruct found; [| preserve].
  apply preserves_bind; [destruct (FDCService.proofCache self); preserve | intros _].
  preserve.
Qed.

(** One run of submitAttestationRequest: the fee is asked once; if that
    succeeds the hub is called once, and nothing follows in the world whether
    the call succeeds or fails. *)
Lemma submitAttestationRequest_once (abiEncodedRequest : string) (w : World) :
  let r := FDCService.submitAttestationRequest env abiEncodedRequest w in
  match getRequestFee env (calls w ChRequestFee) with
  | inl t => r = (Throw t, log (EvGetRequestFee abiEncodedRequest) (called ChRequestFee w))
  | inr fee =>
      r.2 = log (EvRequestAttestation abiEncodedRequest fee)
              (called ChFdcHub
                 (log (EvGetRequestFee abiEncodedRequest) (called ChRequestFee w)))
      /\ match requestAttestation env (calls w ChFdcHub) with
         | inl t => r.1 = Throw t
         | inr _ => r.1 <> Diverge
         end
  end.
Proof.
  cbn zeta. unfold FDCService.submitAttestationRequest.
  unfold bind, next_call, emit, settle. cbn beta iota.
  destruct (getRequestFee env (calls w ChRequestFee)) as [t|fee]; [reflexivity |].
  cbn [calls log called]. cbn [decide Channel_eq_dec].
  change (if decide (ChFdcHub = ChRequestFee) then S (calls w ChFdcHub)
          else calls w ChFdcHub) with (calls w ChFdcHub).
  destruct (requestAttestation env (calls w ChFdcHub)) as [t|blockNumber];
    [split; reflexivity |].
  destruct (votingEpochDurationSeconds env =? 0); split; done.
Qed.

(** C9.  In executeAttestationWorkflow the submission is made once and is
    not retried: no run submits to the FDC hub more than once; a run whose
    preparation and fee query succeed submits exactly once, whether the
    submission then succeeds or fails and whatever follows; and when the
    submission fails, the workflow fails with that very error, the failed
    call being the last thing that happened. *)
Theorem submission_is_single_attempt (params : AttestationRequestParams)
    (attestationType : AttestationType) (sourceId : SourceId)
    (pollingOptions : option PollingOptions.t) (fuel : nat) (w : World) :
  let r := FDCService.executeAttestationWorkflow env self params attestationType
             sourceId pollingOptions fuel w in
  (attestations r.2 <= attestations w + 1)%nat
  /\ forall prepared w1 fee,
       FDCService.prepareAttestationRequest env self params attestationType sourceId w
       = (Ok prepared, w1) ->
       getRequestFee env (calls w1 ChRequestFee) = inr fee ->
       attestations r.2 = (attestations w + 1)%nat
       /\ forall t,
            requestAttestation env (calls w1 ChFdcHub) = inl t ->
            r = (Throw t,
                 log (EvRequestAttestation (abiEncodedRequest prepared) fee)
                   (called ChFdcHub
                      (log (EvGetRequestFee (abiEncodedRequest prepared))
                         (called ChRequestFee w1)))).
Proof.
  cbn zeta.
  set (P := fun r : Res (RoundInfo * ProofData) * World =>
              (attestations r.2 <= attestations w + 1)%nat
              /\ forall prepared w1 fee,
                   FDCService.prepareAttestationRequest env self params attestationType
                     sourceId w = (Ok prepared, w1) ->
                   getRequestFee env (calls w1 ChRequestFee) = inr fee ->
                   attestations r.2 = (attestations w + 1)%nat
                   /\ forall t,
                        requestAttestation env (calls w1 ChFdcHub) = inl t ->
                        r = (Throw t,
                             log (EvRequestAttestation (abiEncodedRequest prepared) fee)
                               (called ChFdcHub
                                  (log (EvGetRequestFee (abiEncodedRequest prepared))
                                     (called ChRequestFee w1))))).
  change (P (FDCService.executeAttestationWorkflow env self params attestationType
               sourceId pollingOptions fuel w)).
  unfold FDCService.executeAttestationWorkflow.
  pose proof (attestations_prepare params attestationType sourceId w) as Hprep.
  unfold bind at 1.
  destruct (FDCService.prepareAttestationRequest env self params attestationType
              sourceId w) as [[prepared|t|] w1] eqn:Eprep; cbn [snd] in Hprep;
    [| subst P; split; [cbn; lia | intros ? ? ? [=]]
     | subst P; split; [cbn; lia | intros ? ? ? [=]]].
  pose proof (submitAttestationRequest_once (abiEncodedRequest prepared) w1) as Hsub.
  cbn zeta in Hsub. unfold bind at 1.
  destruct (FDCService.submitAttestationRequest env (abiEncodedRequest prepared) w1)
    as [[roundInfo|t|] w2] eqn:Esub.
  - (* submitted: the retrieval adds no submission *)
    unfold bind at 1.
    pose proof (attestations_retrieveProof (abiEncodedRequest prepared)
                  (roundId roundInfo) (default PollingOptions.empty pollingOptions)
                  fuel w2) as Hret.
    destruct (getRequestFee env (calls w1 ChRequestFee)) as [t0|fee] eqn:Efee;
      [discriminate |].
    destruct Hsub as [Hw2 Hres]. cbn [fst snd] in Hw2, Hres.
    assert (attestations w2 = (attestations w + 1)%nat) as Hone
      by (rewrite Hw2; unfold attestations; cbn [trace log called];
          rewrite !count_snoc; cbn; unfold attestations in Hprep; lia).
    destruct (FDCService.retrieveProof env self (abiEncodedRequest prepared)
                (roundId roundInfo) (default PollingOptions.empty pollingOptions) fuel w2)
      as [[proof|t|] w3]; unfold ret; subst P; cbn [fst snd] in Hret |- *;
      (split; [lia |]); intros p' w1' fee' [= <- <-] Hfee'; (split; [lia |]);
      intros t' Ht'; rewrite Ht' in Hres; discriminate.
  - subst P. cbn beta.
    destruct (getRequestFee env (calls w1 ChRequestFee)) as [t0|fee] eqn:Efee.
    + injection Hsub as -> ->. cbn [snd]. split.
      * rewrite attestations_log by reflexivity.
        change (attestations (called ChRequestFee w1)) with (attestations w1). lia.
      * intros p' w1' fee' [= <- <-] Hfee'. congruence.
    + destruct Hsub as [Hw2 Hres]. cbn [fst snd] in Hw2, Hres |- *.
      assert (attestations w2 = (attestations w + 1)%nat) as Hone
        by (rewrite Hw2; unfold attestations; cbn [trace log called];
            rewrite !count_snoc; cbn; unfold attestations in Hprep; lia).
      split; [lia |]. intros p' w1' fee' [= <- <-] Hfee'.
      assert (fee' = fee) as -> by congruence.
      split; [exact Hone |].
      intros t' Ht'. rewrite Ht' in Hres. injection Hres as ->. by rewrite Hw2.
  - destruct (getRequestFee env (calls w1 ChRequestFee)) as [t0|fee]; [discriminate |].
    destruct Hsub as [_ Hres]. cbn [fst] in Hres.
    destruct (requestAttestation env (calls w1 ChFdcHub)); [discriminate | done].
Qed.

End SubmissionFacts.

Lemma submission_is_single_attempt_witness :
  let r := FDCService.executeAttestationWorkflow scenarioEnv
             (FDCService.new scenarioEnv retryThrice) scenarioParams Web2Json PublicWeb2
             None 10 (initialWorld 0) in
  attestations r.2 = 1%nat.
Proof.
  intros r.
  destruct (submission_is_single_attempt scenarioEnv
              (FDCService.new scenarioEnv retryThrice) scenarioParams Web2Json PublicWeb2
              None 10 (initialWorld 0)) as [_ Hone].
  destruct (Hone {| status := "VALID"; abiEncodedRequest := "0xdead" |}
              (FDCService.prepareAttestationRequest scenarioEnv
                 (FDCService.new scenarioEnv retryThrice) scenarioParams Web2Json
                 PublicWeb2 (initialWorld 0)).2
              7) as [Hcount _].
  - vm_compute. reflexivity.
  - reflexivity.
  - exact Hcount.
Defined.

(** ** Further properties *)

(** *** RetryStrategy.execute: outcomes *)

Section ExecuteOutcomes.
Context {T : Type}.
Variable env : Env.
Variable self : RetryStrategy.t.
Variable operation : M T.
Variable onRetry : option (Z -> Error -> M unit).
Hypothesis onRetry_quiet : quiet onRetry.

Lemma execute_loop_outcome (fuel : nat) :
  forall attempt delay lastError w,
    fuel = Z.to_nat (RetryStrategy.maxAttempts self - attempt + 1) ->
    loop_outcome self operation attempt lastError w
      (RetryStrategy.execute_loop env self operation onRetry fuel attempt delay
         lastError w).
Proof.
  induction fuel as [|fuel IH]; intros attempt delay lastError w Hfuel;
    cbn [RetryStrategy.execute_loop];
    destruct (Z.leb_spec attempt (RetryStrategy.maxAttempts self)) as [Hle|Hgt];
    try lia.
  - unfold loop_outcome, RetryStrategy.exhausted, throw. cbn [fst snd].
    eexists. split; [reflexivity |]. split; [lia | done].
  - unfold try_catch.
    destruct (operation w) as [[v|t|] w1] eqn:Eop.
    + unfold loop_outcome. cbn [fst snd]. eauto.
    + destruct (Z.eqb_spec attempt (RetryStrategy.maxAttempts self)) as [Heq|Hne].
      * unfold loop_outcome, RetryStrategy.exhausted, throw. cbn [fst snd].
        eexists. split; [reflexivity |]. split; [eauto | lia].
      * set (delay' := Qmin (delay * RetryStrategy.backoffMultiplier self)
                         (RetryStrategy.maxDelayMs self)).
        assert (exists w2,
                   (do match onRetry with
                       | Some f => f attempt (toError t)
                       | None => ret tt
                       end then
                    do sleep env delay then
                    RetryStrategy.execute_loop env self operation onRetry fuel
                      (attempt + 1) delay' (Some (toError t))) w1
                   = RetryStrategy.execute_loop env self operation onRetry fuel
                       (attempt + 1) delay' (Some (toError t)) w2) as [w2 ->].
        { destruct onRetry_quiet as [-> | ->]; unfold bind; cbn; eauto. }
        specialize (IH (attempt + 1) delay' (Some (toError t)) w2 ltac:(lia)).
        unfold loop_outcome in *.
        destruct (RetryStrategy.execute_loop env self operation onRetry fuel
                    (attempt + 1) delay' (Some (toError t)) w2) as [[v|t'|] w3];
          cbn [fst snd] in *; [done | | done].
        destruct IH as (last & -> & Hlast & _).
        eexists. split; [reflexivity |]. split; [| lia].
        intros _. apply Hlast. lia.
    + unfold loop_outcome. cbn [fst snd]. eauto.
Qed.

(** X1. Whatever the operation does, [execute] ends in one of three ways: it
    returns a value, which the operation returned at its last call, at once;
    it fails with the FDCRetryError of maxAttempts, never with the bare error
    of the operation, and for maxAttempts >= 1 the error carried is that of
    the last call, which nothing follows; or the operation itself never
    returned. *)
Theorem execute_outcomes (w : World) :
  let r := RetryStrategy.execute env self operation onRetry w in
  match r.1 with
  | Ok v => exists w0, operation w0 = (Ok v, r.2)
  | Throw t =>
      exists last,
        t = ThrownError
              (FDCRetryError
                 ("Operation failed after " +:+ pretty (RetryStrategy.maxAttempts self)
                    +:+ " attempts")
                 (RetryStrategy.maxAttempts self) last)
        /\ (1 <= RetryStrategy.maxAttempts self ->
            exists w0 t0, operation w0 = (Throw t0, r.2) /\ last = Some (toError t0))
  | Diverge => exists w0, operation w0 = (Diverge, r.2)
  end.
Proof.
  cbn zeta. unfold RetryStrategy.execute.
  pose proof (execute_loop_outcome (Z.to_nat (RetryStrategy.maxAttempts self)) 1
                (RetryStrategy.initialDelayMs self) None w ltac:(lia)) as H.
  unfold loop_outcome in H.
  destruct (RetryStrategy.execute_loop env self operation onRetry
              (Z.to_nat (RetryStrategy.maxAttempts self)) 1
              (RetryStrategy.initialDelayMs self) None w) as [[v|t|] w'];
    cbn [fst snd] in *; [done | | done].
  destruct H as (last & -> & Hlast & _). eauto.
Qed.

End ExecuteOutcomes.

Lemma execute_outcomes_witness :
  let r := RetryStrategy.execute (T:=unit) scenarioEnv (RetryStrategy.new (attempts 3))
             (scripted (fun _ => inl (ThrownOther "down"))) logRetry (initialWorld 0) in
  match r.1 with
  | Ok v => True
  | Throw t => exists last, t = ThrownError (FDCRetryError "Operation failed after 3 attempts" 3 last)
  | Diverge => False
  end.
Proof.
  pose proof (execute_outcomes (T:=unit) scenarioEnv (RetryStrategy.new (attempts 3))
                (scripted (fun _ => inl (ThrownOther "down"))) logRetry
                ltac:(by right) (initialWorld 0)) as H.
  cbn zeta in *.
  destruct (RetryStrategy.execute scenarioEnv (RetryStrategy.new (attempts 3))
              (scripted (fun _ => inl (ThrownOther "down"))) logRetry (initialWorld 0))
    as [[v|t|] w']; cbn [fst snd] in *.
  - exact I.
  - destruct H as (last & -> & _). by exists last.
  - destruct H as [w0 H]. rewrite scripted_run in H. discriminate.
Defined.

(** X2. A negative maxAttempts is kept as it is by the constructor, and the
    loop is then never entered: whatever the operation, it is not called,
    the world is left untouched, and [execute] fails with the FDCRetryError
    of that negative count and no underlying error. *)
Theorem execute_negative_maxAttempts {T : Type} (env : Env) (options : RetryOptions.t)
    (n : Z) (operation : M T) (onRetry : option (Z -> Error -> M unit)) (w : World) :
  RetryOptions.maxAttempts options = Some n ->
  n < 0 ->
  RetryStrategy.execute env (RetryStrategy.new options) operation onRetry w
  = (Throw (ThrownError
              (FDCRetryError ("Operation failed after " +:+ pretty n +:+ " attempts")
                 n None)), w).
Proof.
  intros Hopt Hn.
  pose proof (new_maxAttempts options n Hopt ltac:(lia)) as Hmax.
  unfold RetryStrategy.execute. rewrite Hmax.
  replace (Z.to_nat n) with O by lia. cbn [RetryStrategy.execute_loop].
  rewrite Hmax. destruct (Z.leb_spec 1 n); [lia |].
  unfold RetryStrategy.exhausted, throw. by rewrite Hmax.
Qed.

Lemma execute_negative_maxAttempts_witness :
  RetryStrategy.execute scenarioEnv (RetryStrategy.new (attempts (-1)))
    (scripted (fun _ => inr "done")) logRetry (initialWorld 0)
  = (Throw (ThrownError (FDCRetryError "Operation failed after -1 attempts" (-1) None)),
     initialWorld 0).
Proof.
  apply (execute_negative_maxAttempts scenarioEnv (attempts (-1)) (-1)
           (scripted (fun _ => inr "done")) logRetry (initialWorld 0));
    [reflexivity | lia].
Defined.

(** *** RetryStrategy.execute: the delays *)

Lemma backoff_capped (self : RetryStrategy.t) (len : nat) :
  forall delay,
    Forall (fun d => (d <= RetryStrategy.maxDelayMs self)%Q)
      (drop 1 (backoff self len delay)).
Proof.
  induction len as [|len IH]; intros delay; [constructor |].
  cbn [backoff drop]. destruct len as [|len]; [constructor |].
  cbn [backoff]. constructor; [apply Q.le_min_r |].
  apply (IH (Qmin (delay * RetryStrategy.backoffMultiplier self)
               (RetryStrategy.maxDelayMs self))).
Qed.

Lemma backoff_ge (self : RetryStrategy.t) (len : nat) :
  (1 <= RetryStrategy.backoffMultiplier self)%Q ->
  forall delay,
    (0 < delay)%Q -> (delay <= RetryStrategy.maxDelayMs self)%Q ->
    Forall (fun d => (delay <= d)%Q /\ (d <= RetryStrategy.maxDelayMs self)%Q)
      (backoff self len delay).
Proof.
  intros Hmult. induction len as [|len IH]; intros delay Hpos Hcap; [constructor |].
  cbn [backoff]. constructor; [split; [lra | exact Hcap] |].
  assert (delay <= Qmin (delay * RetryStrategy.backoffMultiplier self)
                     (RetryStrategy.maxDelayMs self))%Q as Hge.
  { apply Q.min_glb; [| exact Hcap]. nra. }
  eapply Forall_impl; [apply IH; [lra | apply Q.le_min_r] |].
  intros d [Hd Hd']. cbn beta. split; [lra | exact Hd'].
Qed.

Lemma backoff_sorted (self : RetryStrategy.t) (len : nat) :
  (1 <= RetryStrategy.backoffMultiplier self)%Q ->
  forall delay,
    (0 < delay)%Q -> (delay <= RetryStrategy.maxDelayMs self)%Q ->
    StronglySorted Qle (backoff self len delay).
Proof.
  intros Hmult. induction len as [|len IH]; intros delay Hpos Hcap; [constructor |].
  pose proof (backoff_ge self (S len) Hmult delay Hpos Hcap) as Hge.
  cbn [backoff] in *. apply Forall_cons in Hge as [_ Hge].
  assert (delay <= Qmin (delay * RetryStrategy.backoffMultiplier self)
                     (RetryStrategy.maxDelayMs self))%Q as Hstep.
  { apply Q.min_glb; [| exact Hcap]. nra. }
  constructor; [apply IH; [lra | apply Q.le_min_r] |].
  eapply Forall_impl; [exact Hge |]. by intros d [Hd _].
Qed.

Section ExecuteDelays.
Context {T : Type}.
Variable env : Env.
Variable self : RetryStrategy.t.
Variable operation : M T.
Variable onRetry : option (Z -> Error -> M unit).
Hypothesis onRetry_quiet : quiet onRetry.
(** The operation does not sleep itself. *)
Hypothesis operation_awake :
  forall w, sleeps (trace (operation w).2) = sleeps (trace w).

Lemma execute_loop_sleeps (fuel : nat) :
  forall attempt delay lastError w,
    fuel = Z.to_nat (RetryStrategy.maxAttempts self - attempt + 1) ->
    exists len,
      sleeps (trace (RetryStrategy.execute_loop env self operation onRetry fuel
                       attempt delay lastError w).2)
      = sleeps (trace w) ++ backoff self len delay
      /\ (len <= fuel - 1)%nat.
Proof.
  induction fuel as [|fuel IH]; intros attempt delay lastError w Hfuel;
    cbn [RetryStrategy.execute_loop];
    destruct (Z.leb_spec attempt (RetryStrategy.maxAttempts self)) as [Hle|Hgt];
    try lia.
  - exists O. cbn. by rewrite app_nil_r.
  - unfold try_catch. specialize (operation_awake w) as Hop.
    destruct (operation w) as [[v|t|] w1] eqn:Eop; cbn [snd] in *.
    + exists O. cbn [backoff]. rewrite app_nil_r. split; [done | lia].
    + destruct (Z.eqb_spec attempt (RetryStrategy.maxAttempts self)) as [Heq|Hne].
      * exists O. cbn [backoff snd RetryStrategy.exhausted throw].
        rewrite app_nil_r. split; [done | lia].
      * set (delay' := Qmin (delay * RetryStrategy.backoffMultiplier self)
                         (RetryStrategy.maxDelayMs self)).
        assert (exists w2,
                   (do match onRetry with
                       | Some f => f attempt (toError t)
                       | None => ret tt
                       end then
                    do sleep env delay then
                    RetryStrategy.execute_loop env self operation onRetry fuel
                      (attempt + 1) delay' (Some (toError t))) w1
                   = RetryStrategy.execute_loop env self operation onRetry fuel
                       (attempt + 1) delay' (Some (toError t)) w2
                   /\ sleeps (trace w2) = sleeps (trace w1) ++ [delay])
          as (w2 & -> & Hw2).
        { destruct onRetry_quiet as [-> | ->];
            unfold bind, logRetry, sleep, emit, ret; cbn beta iota;
            eexists; (split; [reflexivity |]); cbn [trace log advance];
            rewrite !sleeps_app; cbn; by rewrite ?app_nil_r. }
        destruct (IH (attempt + 1) delay' (Some (toError t)) w2 ltac:(lia))
          as (len & -> & Hlen).
        exists (S len). rewrite Hw2, Hop, <- app_assoc. split; [done | lia].
    + exists O. cbn [backoff]. rewrite app_nil_r. split; [done | lia].
Qed.

(** X3. In every run of [execute] the delays slept are the backoff sequence:
    the first is initialDelayMs as configured, each next one is the previous
    times backoffMultiplier, capped at maxDelayMs, and there are fewer of them
    than maxAttempts.  So every delay but the first is at most maxDelayMs;
    when 0 < initialDelayMs <= maxDelayMs and the multiplier is at least 1,
    all of them are, and they never decrease. *)
Theorem retry_delays_backoff (w : World) :
  let r := RetryStrategy.execute env self operation onRetry w in
  exists len,
    sleeps (trace r.2)
    = sleeps (trace w) ++ backoff self len (RetryStrategy.initialDelayMs self)
    /\ (len <= Z.to_nat (RetryStrategy.maxAttempts self) - 1)%nat
    /\ Forall (fun d => (d <= RetryStrategy.maxDelayMs self)%Q)
         (drop 1 (backoff self len (RetryStrategy.initialDelayMs self)))
    /\ ((0 < RetryStrategy.initialDelayMs self)%Q ->
        (RetryStrategy.initialDelayMs self <= RetryStrategy.maxDelayMs self)%Q ->
        (1 <= RetryStrategy.backoffMultiplier self)%Q ->
        StronglySorted Qle (backoff self len (RetryStrategy.initialDelayMs self))
        /\ Forall (fun d => (d <= RetryStrategy.maxDelayMs self)%Q)
             (backoff self len (RetryStrategy.initialDelayMs self))).
Proof.
  cbn zeta. unfold RetryStrategy.execute.
  destruct (execute_loop_sleeps (Z.to_nat (RetryStrategy.maxAttempts self)) 1
              (RetryStrategy.initialDelayMs self) None w ltac:(lia))
    as (len & Hsleeps & Hlen).
  exists len. split; [exact Hsleeps |]. split; [exact Hlen |].
  split; [apply backoff_capped |].
  intros Hpos Hcap Hmult. split; [by apply backoff_sorted |].
  eapply Forall_impl; [by apply backoff_ge |]. by intros d [_ Hd].
Qed.

End ExecuteDelays.

Lemma retry_delays_backoff_witness :
  let self := RetryStrategy.new (attempts 4) in
  let r := RetryStrategy.execute (T:=unit) scenarioEnv self
             (scripted (fun _ => inl (ThrownOther "down"))) logRetry (initialWorld 0) in
  exists len,
    sleeps (trace r.2) = backoff self len 1000 /\ (len <= 3)%nat.
Proof.
  destruct (retry_delays_backoff (T:=unit) scenarioEnv (RetryStrategy.new (attempts 4))
              (scripted (fun _ => inl (ThrownOther "down"))) logRetry
              ltac:(by right)
              ltac:(intros w; rewrite scripted_run; cbn [snd trace log called];
                    by rewrite sleeps_app, app_nil_r)
              (initialWorld 0)) as (len & Hs & Hlen & _).
  exists len. split; [exact Hs | exact Hlen].
Defined.

(** *** RetryStrategy.execute: the log of an exhausted run *)

Lemma retry_log_sleeps (self : RetryStrategy.t) (fails : nat -> Thrown) (k : nat) :
  forall i delay, sleeps (retry_log self fails k i delay) = backoff self k delay.
Proof.
  induction k as [|k IH]; intros i delay; [done |].
  unfold sleeps in *. cbn. f_equal. apply IH.
Qed.

Lemma retry_log_last (self : RetryStrategy.t) (fails : nat -> Thrown) (k : nat) :
  forall i delay, last (retry_log self fails k i delay) = Some EvCall.
Proof.
  induction k as [|k IH]; intros i delay; [done |].
  cbn [retry_log]. rewrite !last_cons, IH. done.
Qed.

Lemma execute_loop_exhausts {T : Type} (env : Env) (self : RetryStrategy.t)
    (script : nat -> Thrown + T) (fails : nat -> Thrown) (k : nat) :
  forall fuel attempt delay lastError w i,
    attempt = Z.of_nat (S i) ->
    attempt + Z.of_nat k = RetryStrategy.maxAttempts self ->
    (k < fuel)%nat ->
    (forall j, (j <= k)%nat ->
               script (calls w ChOperation + j)%nat = inl (fails (i + j)%nat)) ->
    exists w',
      RetryStrategy.execute_loop env self (scripted script) logRetry
        fuel attempt delay lastError w
      = (Throw (ThrownError
                  (FDCRetryError
                     ("Operation failed after "
                        +:+ pretty (RetryStrategy.maxAttempts self) +:+ " attempts")
                     (RetryStrategy.maxAttempts self)
                     (Some (toError (fails (i + k)%nat))))), w')
      /\ trace w' = trace w ++ retry_log self fails k i delay.
Proof.
  induction k as [|k IH];
    intros fuel attempt delay lastError w i Hatt Hmax Hfuel Hfails;
    (destruct fuel as [|fuel]; [lia |]);
    cbn [RetryStrategy.execute_loop];
    (destruct (Z.leb_spec attempt (RetryStrategy.maxAttempts self)) as [_|]; [| lia]);
    unfold try_catch; rewrite scripted_run;
    specialize (Hfails O ltac:(lia)) as Hfirst;
    rewrite !Nat.add_0_r in Hfirst; rewrite Hfirst.
  - destruct (Z.eqb_spec attempt (RetryStrategy.maxAttempts self)) as [_|]; [| lia].
    unfold RetryStrategy.exhausted, throw. rewrite Nat.add_0_r.
    eexists. split; [reflexivity | reflexivity].
  - destruct (Z.eqb_spec attempt (RetryStrategy.maxAttempts self)) as [|_]; [lia |].
    unfold logRetry, bind, emit, sleep. cbn beta iota.
    set (w2 := advance _ _).
    assert (calls w2 ChOperation = S (calls w ChOperation)) as Hcalls
      by (subst w2; cbn [calls advance log]; apply calls_called_same).
    destruct (IH fuel (attempt + 1)
                (Qmin (delay * RetryStrategy.backoffMultiplier self)
                   (RetryStrategy.maxDelayMs self))
                (Some (toError (fails i))) w2 (S i))
      as (w' & Hrun & Htrace); try lia.
    { intros j Hj. rewrite Hcalls.
      replace (S (calls w ChOperation) + j)%nat with (calls w ChOperation + S j)%nat
        by lia.
      rewrite Hfails by lia. do 2 f_equal. lia. }
    exists w'. split.
    + replace (i + S k)%nat with (S i + k)%nat by lia. exact Hrun.
    + rewrite Htrace. subst w2. cbn [trace advance log called retry_log].
      rewrite <- !app_assoc. cbn. by rewrite Hatt.
Qed.

(** X4. When every attempt fails, the run with a logging onRetry is: call,
    onRetry(1, error 1), sleep, ..., call, onRetry(n - 1, error n - 1),
    sleep, call.  So onRetry is invoked for the attempts 1..maxAttempts - 1
    and not for the last one, there are maxAttempts - 1 sleeps, and the last
    failed call is followed by neither. *)
Theorem retry_exhaustion_log {T : Type} (env : Env) (options : RetryOptions.t)
    (n : Z) (script : nat -> Thrown + T) (fails : nat -> Thrown) (w : World) :
  RetryOptions.maxAttempts options = Some n ->
  1 <= n ->
  (forall j, script (calls w ChOperation + j)%nat = inl (fails j)) ->
  let self := RetryStrategy.new options in
  let r := RetryStrategy.execute env self (scripted script) logRetry w in
  let events := retry_log self fails (Z.to_nat n - 1) 0
                  (RetryStrategy.initialDelayMs self) in
  trace r.2 = trace w ++ events
  /\ retries events
     = map (fun j => (Z.of_nat (S j), toError (fails j))) (seq 0 (Z.to_nat n - 1))
  /\ sleeps events = backoff self (Z.to_nat n - 1) (RetryStrategy.initialDelayMs self)
  /\ last events = Some EvCall.
Proof.
  intros Hopt Hn Hscript self r events.
  pose proof (new_maxAttempts options n Hopt ltac:(lia)) as Hmax. fold self in Hmax.
  destruct (execute_loop_exhausts (T:=T) env self script fails
              (Z.to_nat n - 1)
              (Z.to_nat (RetryStrategy.maxAttempts self)) 1
              (RetryStrategy.initialDelayMs self) None w O)
    as (w' & Hrun & Htrace).
  - reflexivity.
  - lia.
  - lia.
  - intros j Hj. apply Hscript.
  - subst r. unfold RetryStrategy.execute. rewrite Hrun. cbn [snd].
    split; [exact Htrace |]. split; [apply retry_log_retries |].
    split; [apply retry_log_sleeps | apply retry_log_last].
Qed.

Lemma retry_exhaustion_log_witness :
  let r := RetryStrategy.execute (T:=unit) scenarioEnv (RetryStrategy.new (attempts 3))
             (scripted (fun j => inl (ThrownOther "down"))) logRetry (initialWorld 0) in
  retries (trace r.2) = [(1, JsError "down"); (2, JsError "down")].
Proof.
  destruct (retry_exhaustion_log (T:=unit) scenarioEnv (attempts 3) 3
              (fun _ => inl (ThrownOther "down")) (fun _ => ThrownOther "down")
              (initialWorld 0)) as (Ht & Hr & _);
    [reflexivity | lia | reflexivity |].
  cbn zeta in *. rewrite Ht. exact Hr.
Defined.

(** *** Events of a computation *)

Section Emits.
Variable P : Event -> Prop.

Lemma emits_silent {A} (m : M A) : (forall w, trace (m w).2 = trace w) -> emits P m.
Proof. intros H w. exists []. by rewrite app_nil_r, H. Qed.

Lemma emits_ret {A} (a : A) : emits P (ret a).
Proof. by apply emits_silent. Qed.

Lemma emits_throw {A} (e : Error) : emits P (throw (A:=A) e).
Proof. by apply emits_silent. Qed.

Lemma emits_settle {A} (r : Thrown + A) : emits P (settle r).
Proof. apply emits_silent. intros w. by destruct r. Qed.

Lemma emits_out_of_fuel {A} : emits P (out_of_fuel (A:=A)).
Proof. by apply emits_silent. Qed.

Lemma emits_now : emits P now.
Proof. by apply emits_silent. Qed.

Lemma emits_next_call (ch : Channel) : emits P (next_call ch).
Proof. by apply emits_silent. Qed.

Lemma emits_emit (e : Event) : P e -> emits P (emit e).
Proof. intros He w. exists [e]. split; [done | by constructor]. Qed.

Lemma emits_sleep (env : Env) (ms : Q) : P (EvSleep ms) -> emits P (sleep env ms).
Proof. intros He w. exists [EvSleep ms]. split; [done | by constructor]. Qed.

Lemma emits_bind {A B} (m : M A) (k : A -> M B) :
  emits P m -> (forall a, emits P (k a)) -> emits P (bind m k).
Proof.
  intros Hm Hk w. unfold bind. destruct (Hm w) as (evs & Ht & Hevs).
  destruct (m w) as [[a|t|] w1]; cbn [snd] in *; [| by eauto | by eauto].
  destruct (Hk a w1) as (evs' & Ht' & Hevs').
  exists (evs ++ evs'). rewrite Ht', Ht, app_assoc. split; [done |].
  by apply Forall_app.
Qed.

Lemma emits_try_catch {A} (m : M A) (h : Thrown -> M A) :
  emits P m -> (forall t, emits P (h t)) -> emits P (try_catch m h).
Proof.
  intros Hm Hh w. unfold try_catch. destruct (Hm w) as (evs & Ht & Hevs).
  destruct (m w) as [[a|t|] w1]; cbn [snd] in *; [by eauto | | by eauto].
  destruct (Hh t w1) as (evs' & Ht' & Hevs').
  exists (evs ++ evs'). rewrite Ht', Ht, app_assoc. split; [done |].
  by apply Forall_app.
Qed.

Lemma emits_when (b : bool) (m : M unit) : emits P m -> emits P (when b m).
Proof. intros Hm. destruct b; [done | apply emits_ret]. Qed.

Lemma emits_cache_get (c : ProofCache.t) (key : string) : emits P (ProofCache.get c key).
Proof.
  apply emits_silent. intros w. unfold ProofCache.get.
  destruct (cache w !! key) as [[data ts]|]; [destruct (_ <? _) |]; done.
Qed.

Lemma emits_cache_set (c : ProofCache.t) (key : string) (data : ProofData) :
  emits P (ProofCache.set c key data).
Proof. by apply emits_silent. Qed.

End Emits.

Lemma emits_weaken {A} (P Q : Event -> Prop) (m : M A) :
  (forall e, P e -> Q e) -> emits P m -> emits Q m.
Proof.
  intros HPQ Hm w. destruct (Hm w) as (evs & Ht & Hevs).
  exists evs. split; [done |]. by eapply Forall_impl.
Qed.

Create HintDb emits.
#[local] Hint Resolve emits_ret emits_throw emits_settle emits_out_of_fuel emits_now
  emits_next_call emits_when emits_cache_get emits_cache_set : emits.

(** *** FDCService.prepareAttestationRequest: requests and outcomes *)

Section PrepareMore.
Variable env : Env.
Variable self : FDCService.t.
Variable params : AttestationRequestParams.
Variable attestationType : AttestationType.
Variable sourceId : SourceId.

#[local] Abbreviation request := (prepareRequest env params attestationType sourceId).
#[local] Abbreviation strategy :=
  (RetryStrategy.new (FDCService.defaultRetryOptions self)).
#[local] Abbreviation operation :=
  (FDCService.prepareOperation env
     (verifierUrl (networkConfig env) +:+ AttestationType_str attestationType
        +:+ "/prepareRequest")
     (toUtf8HexString env (AttestationType_str attestationType))
     (toUtf8HexString env (SourceId_str sourceId))
     {| req_url := FDC.apiUrl params;
        req_httpMethod := JS.orDefaultStr (FDC.httpMethod params) "GET";
        req_headers := JS.orDefaultStr (FDC.headers params) "{}";
        req_queryParams := JS.orDefaultStr (FDC.queryParams params) "{}";
        req_body := JS.orDefaultStr (FDC.body params) "{}";
        req_postProcessJq := FDC.postProcessJq params;
        req_abiSignature := FDC.abiSignature params |}).

(** One attempt: the request is sent and counted, whatever comes back; the
    attempt succeeds exactly on a valid answer. *)
Lemma prepareOperation_run (w : World) :
  (operation w).2 = log request (called ChVerifier w)
  /\ match validAnswer (verifier env (calls w ChVerifier)) with
     | Some data => (operation w).1 = Ok data
     | None =>
         exists t, (operation w).1 = Throw t
           /\ (error_code (toError t) = Some "VERIFIER_ERROR"
               \/ error_code (toError t) = Some "INVALID_REQUEST"
               \/ verifier env (calls w ChVerifier) = FetchRejected t
               \/ exists httpStatus statusText,
                    verifier env (calls w ChVerifier)
                    = FetchResponse true httpStatus statusText (inl t))
     end.
Proof.
  unfold FDCService.prepareOperation, bind, next_call, emit. cbn beta iota.
  destruct (verifier env (calls w ChVerifier)) as [t|[|] st txt [t|data]];
    cbn [validAnswer negb settle throw fst snd].
  - split; [done |]. exists t. split; [done |]. auto.
  - split; [done |]. exists t. split; [done |]. right. right. right. eauto.
  - destruct (String.eqb (status data) "VALID"); cbn [negb fst snd].
    + done.
    + split; [done |]. eexists. split; [reflexivity |]. cbn. auto.
  - split; [done |]. eexists. split; [reflexivity |]. cbn. auto.
  - split; [done |]. eexists. split; [reflexivity |]. cbn. auto.
Qed.

Lemma emits_execute_loop {T} (P : Event -> Prop) (s : RetryStrategy.t) (op : M T)
    (fuel : nat) :
  (forall ms, P (EvSleep ms)) ->
  emits P op ->
  forall attempt delay lastError,
    emits P (RetryStrategy.execute_loop env s op None fuel attempt delay lastError).
Proof.
  intros Hsleep Hop. induction fuel as [|fuel IH]; intros attempt delay lastError;
    cbn [RetryStrategy.execute_loop];
    (destruct (attempt <=? RetryStrategy.maxAttempts s); [| apply emits_throw]).
  - apply emits_out_of_fuel.
  - apply emits_try_catch; [exact Hop |]. intros t.
    destruct (attempt =? RetryStrategy.maxAttempts s); [apply emits_throw |].
    apply emits_bind; [apply emits_ret | intros _].
    apply emits_bind; [by apply emits_sleep | intros _].
    apply IH.
Qed.

Lemma prepare_emits :
  emits (fun e => e = request \/ is_sleep e)
    (FDCService.prepareAttestationRequest env self params attestationType sourceId).
Proof.
  unfold FDCService.prepareAttestationRequest, RetryStrategy.execute.
  apply emits_execute_loop.
  - intros ms. right. by exists ms.
  - intros w0. destruct (prepareOperation_run w0) as [-> _].
    exists [request]. split; [done |]. constructor; [by left | constructor].
Qed.

(** X5. Everything prepareAttestationRequest does to the outside is to post
    one and the same request to `${verifierUrl}${attestationType}/prepareRequest`
    and to sleep in between: the body of every attempt is that of the
    parameters, with "GET" and "{}" for an absent or empty method, headers,
    query parameters and body.  It reaches no other collaborator and leaves
    the proof cache as it is. *)
Theorem prepare_posts_one_request (w : World) :
  let r := FDCService.prepareAttestationRequest env self params attestationType
             sourceId w in
  (exists evs,
      trace r.2 = trace w ++ evs
      /\ Forall (fun e => e = request \/ is_sleep e) evs)
  /\ cache r.2 = cache w.
Proof.
  cbn zeta. split; [apply prepare_emits |].
  unfold FDCService.prepareAttestationRequest, RetryStrategy.execute.
  generalize (Z.to_nat (RetryStrategy.maxAttempts strategy)) 1
    (RetryStrategy.initialDelayMs strategy) (@None Error).
  intros fuel. revert w.
  induction fuel as [|fuel IH]; intros w attempt delay lastError;
    cbn [RetryStrategy.execute_loop];
    (destruct (attempt <=? RetryStrategy.maxAttempts strategy); [| done]);
    [done |].
  unfold try_catch. destruct (prepareOperation_run w) as [Hw _].
  destruct (operation w) as [[v|t|] w1]; cbn [snd] in *; subst w1; [done | | done].
  destruct (attempt =? RetryStrategy.maxAttempts strategy); [done |].
  unfold bind, ret, sleep. cbn beta iota. rewrite IH. done.
Qed.

Lemma prepare_run (w : World) :
  loop_outcome strategy operation 1 None w
    (FDCService.prepareAttestationRequest env self params attestationType sourceId w).
Proof.
  unfold FDCService.prepareAttestationRequest, RetryStrategy.execute.
  by apply execute_loop_outcome; [left | lia].
Qed.

Lemma prepare_ok_valid (w w' : World) (data : PreparedAttestationRequest) :
  FDCService.prepareAttestationRequest env self params attestationType sourceId w
  = (Ok data, w') ->
  status data = "VALID"
  /\ exists n httpStatus statusText,
       verifier env n = FetchResponse true httpStatus statusText (inr data).
Proof.
  intros Hrun. pose proof (prepare_run w) as H. unfold loop_outcome in H.
  rewrite Hrun in H. cbn [fst snd] in H.
  destruct H as [w0 Hop]. destruct (prepareOperation_run w0) as [_ Hans].
  rewrite Hop in Hans. cbn [fst] in Hans.
  destruct (verifier env (calls w0 ChVerifier)) as [t|[|] st txt [t|d]] eqn:Ev;
    cbn [validAnswer] in Hans;
    try (destruct Hans as (t' & [=] & _)).
  destruct (String.eqb_spec (status d) "VALID") as [Hvalid|];
    [| destruct Hans as (t' & [=] & _)].
  injection Hans as <-. split; [done |]. eauto.
Qed.

(** X6. prepareAttestationRequest returns only what the verifier answered
    with a 2xx response and the status VALID.  It never fails with the bare
    error of an attempt: every failure is the FDCRetryError of maxAttempts,
    and for maxAttempts >= 1 the error it carries is the rejection of the
    fetch or of its JSON body, or the FDCError of code VERIFIER_ERROR or
    INVALID_REQUEST, of the last attempt. *)
Theorem prepare_outcomes (w : World) :
  let r := FDCService.prepareAttestationRequest env self params attestationType
             sourceId w in
  match r.1 with
  | Ok data =>
      status data = "VALID"
      /\ exists n httpStatus statusText,
           verifier env n = FetchResponse true httpStatus statusText (inr data)
  | Throw t =>
      exists last,
        t = ThrownError
              (FDCRetryError
                 ("Operation failed after " +:+ pretty (RetryStrategy.maxAttempts strategy)
                    +:+ " attempts")
                 (RetryStrategy.maxAttempts strategy) last)
        /\ (1 <= RetryStrategy.maxAttempts strategy ->
            exists e, last = Some e
              /\ (error_code e = Some "VERIFIER_ERROR"
                  \/ error_code e = Some "INVALID_REQUEST"
                  \/ exists n t0, e = toError t0
                       /\ (verifier env n = FetchRejected t0
                           \/ exists httpStatus statusText,
                                verifier env n
                                = FetchResponse true httpStatus statusText (inl t0))))
  | Diverge => False
  end.
Proof.
  cbn zeta. pose proof (prepare_run w) as H. unfold loop_outcome in H.
  destruct (FDCService.prepareAttestationRequest env self params attestationType
              sourceId w) as [[data|t|] w'] eqn:Erun; cbn [fst snd] in *.
  - by apply (prepare_ok_valid w w').
  - destruct H as (last & -> & Hlast & _). exists last. split; [done |].
    intros Hmax. destruct (Hlast Hmax) as (w0 & t0 & Hop & ->).
    eexists. split; [reflexivity |].
    destruct (prepareOperation_run w0) as [_ Hans]. rewrite Hop in Hans.
    cbn [fst] in Hans.
    destruct (validAnswer (verifier env (calls w0 ChVerifier))); [discriminate |].
    destruct Hans as (t' & [= <-] & [?|[?|[?|?]]]); eauto 10.
  - destruct H as [w0 Hop]. destruct (prepareOperation_run w0) as [_ Hans].
    rewrite Hop in Hans. cbn [fst] in Hans.
    destruct (validAnswer (verifier env (calls w0 ChVerifier))); [discriminate |].
    by destruct Hans as (t' & [=] & _).
Qed.

End PrepareMore.

Lemma prepare_posts_one_request_witness :
  cache (FDCService.prepareAttestationRequest scenarioEnv
           (FDCService.new scenarioEnv retryThrice) scenarioParams Web2Json PublicWeb2
           (initialWorld 0)).2 = ∅.
Proof.
  exact (proj2 (prepare_posts_one_request scenarioEnv
                  (FDCService.new scenarioEnv retryThrice) scenarioParams Web2Json
                  PublicWeb2 (initialWorld 0))).
Defined.

Lemma prepare_outcomes_witness :
  exists n httpStatus statusText,
    verifier scenarioEnv n
    = FetchResponse true httpStatus statusText
        (inr {| status := "VALID"; abiEncodedRequest := "0xdead" |}).
Proof.
  pose proof (prepare_outcomes scenarioEnv (FDCService.new scenarioEnv retryThrice)
                scenarioParams Web2Json PublicWeb2 (initialWorld 0)) as H.
  cbv zeta in H.
  assert ((FDCService.prepareAttestationRequest scenarioEnv
             (FDCService.new scenarioEnv retryThrice) scenarioParams Web2Json PublicWeb2
             (initialWorld 0)).1
          = Ok {| status := "VALID"; abiEncodedRequest := "0xdead" |}) as Hr
    by (vm_compute; reflexivity).
  rewrite Hr in H. exact (proj2 H).
Defined.

Section PrepareRecovers.
Variable env : Env.
Variable self : FDCService.t.
Variable params : AttestationRequestParams.
Variable attestationType : AttestationType.
Variable sourceId : SourceId.

#[local] Abbreviation strategy :=
  (RetryStrategy.new (FDCService.defaultRetryOptions self)).
#[local] Abbreviation operation :=
  (FDCService.prepareOperation env
     (verifierUrl (networkConfig env) +:+ AttestationType_str attestationType
        +:+ "/prepareRequest")
     (toUtf8HexString env (AttestationType_str attestationType))
     (toUtf8HexString env (SourceId_str sourceId))
     {| req_url := FDC.apiUrl params;
        req_httpMethod := JS.orDefaultStr (FDC.httpMethod params) "GET";
        req_headers := JS.orDefaultStr (FDC.headers params) "{}";
        req_queryParams := JS.orDefaultStr (FDC.queryParams params) "{}";
        req_body := JS.orDefaultStr (FDC.body params) "{}";
        req_postProcessJq := FDC.postProcessJq params;
        req_abiSignature := FDC.abiSignature params |}).

Lemma prepare_loop_recovers (data : PreparedAttestationRequest) (k : nat) :
  forall fuel attempt delay lastError w,
    attempt + Z.of_nat k <= RetryStrategy.maxAttempts strategy ->
    (k < fuel)%nat ->
    (forall j, (j < k)%nat ->
               validAnswer (verifier env (calls w ChVerifier + j)%nat) = None) ->
    validAnswer (verifier env (calls w ChVerifier + k)%nat) = Some data ->
    exists w',
      RetryStrategy.execute_loop env strategy operation None fuel attempt delay
        lastError w = (Ok data, w')
      /\ calls w' ChVerifier = (calls w ChVerifier + S k)%nat
      /\ count is_fetch_verifier (trace w')
         = (count is_fetch_verifier (trace w) + S k)%nat
      /\ sleeps (trace w') = sleeps (trace w) ++ backoff strategy k delay.
Proof.
  induction k as [|k IH]; intros fuel attempt delay lastError w Hle Hfuel Hfails Hok;
    (destruct fuel as [|fuel]; [lia |]);
    cbn [RetryStrategy.execute_loop];
    (destruct (Z.leb_spec attempt (RetryStrategy.maxAttempts strategy)) as [_|];
       [| lia]);
    unfold try_catch;
    destruct (prepareOperation_run env params attestationType sourceId w)
      as [Hw Hans];
    destruct (operation w) as [res w1]; cbn [fst snd] in Hw, Hans; subst w1.
  - rewrite Nat.add_0_r in Hok. rewrite Hok in Hans. subst res.
    eexists. split; [reflexivity |]. cbn [calls log backoff].
    rewrite calls_called_same. split; [lia |].
    cbn [trace log called]. rewrite count_snoc, sleeps_app, !app_nil_r.
    split; [cbn; lia | done].
  - specialize (Hfails O ltac:(lia)) as Hfirst. rewrite Nat.add_0_r in Hfirst.
    rewrite Hfirst in Hans. destruct Hans as (t & -> & _).
    destruct (Z.eqb_spec attempt (RetryStrategy.maxAttempts strategy)) as [|_]; [lia |].
    unfold bind, ret, sleep. cbn beta iota.
    set (w2 := advance _ _).
    assert (calls w2 ChVerifier = S (calls w ChVerifier)) as Hcalls
      by (subst w2; cbn [calls advance log]; apply calls_called_same).
    destruct (IH fuel (attempt + 1)
                (Qmin (delay * RetryStrategy.backoffMultiplier strategy)
                   (RetryStrategy.maxDelayMs strategy))
                (Some (toError t)) w2)
      as (w' & Hrun & Hc & Hn & Hs); try lia.
    { intros j Hj. rewrite Hcalls.
      replace (S (calls w ChVerifier) + j)%nat with (calls w ChVerifier + S j)%nat
        by lia.
      apply Hfails. lia. }
    { rewrite Hcalls.
      by replace (S (calls w ChVerifier) + k)%nat with (calls w ChVerifier + S k)%nat
        by lia. }
    exists w'. split; [exact Hrun |].
    split; [lia |]. split.
    + rewrite Hn. subst w2. cbn [trace advance log called].
      rewrite !count_snoc. cbn. lia.
    + rewrite Hs. subst w2. cbn [trace advance log called backoff].
      rewrite !sleeps_app. cbn. by rewrite app_nil_r, <- app_assoc.
Qed.


End PrepareRecovers.


(** *** FDCService.submitAttestationRequest: the voting round *)

Section SubmitFacts.
Variable env : Env.
Variable abiEncodedRequest : string.
Variable w : World.
Variables (fee block : Z).
Hypothesis fee_known : getRequestFee env (calls w ChRequestFee) = inr fee.
Hypothesis submitted : requestAttestation env (calls w ChFdcHub) = inr block.

Lemma submit_run :
  FDCService.submitAttestationRequest env abiEncodedRequest w
  = (if votingEpochDurationSeconds env =? 0 then
       Throw (ThrownError (JsError "Division by zero"))
     else
       Ok {| roundId := (getBlockTimestamp env block - firstVotingRoundStartTs env)
                          ÷ votingEpochDurationSeconds env;
             blockNumber := block;
             blockTimestamp := getBlockTimestamp env block;
             explorerUrl :=
               systemsExplorerUrl (networkConfig env) +:+ "/voting-round/"
                 +:+ pretty ((getBlockTimestamp env block
                                - firstVotingRoundStartTs env)
                               ÷ votingEpochDurationSeconds env)
                 +:+ "?tab=fdc" |},
     log (EvRequestAttestation abiEncodedRequest fee)
       (called ChFdcHub (log (EvGetRequestFee abiEncodedRequest)
                           (called ChRequestFee w)))).
Proof.
  unfold FDCService.submitAttestationRequest, bind, next_call, emit, settle.
  cbn beta iota. rewrite fee_known. cbn [calls log called].
  change (if decide (ChFdcHub = ChRequestFee) then S (calls w ChFdcHub)
          else calls w ChFdcHub) with (calls w ChFdcHub).
  rewrite submitted.
  by destruct (votingEpochDurationSeconds env =? 0).
Qed.


(** X9. With an epoch duration of zero the division fails, but only after
    the fee has been asked and the attestation request has been sent to the
    hub: the caller gets an error and no round, and the submission has
    happened. *)
Theorem submit_zero_epoch_after_sending :
  votingEpochDurationSeconds env = 0 ->
  let r := FDCService.submitAttestationRequest env abiEncodedRequest w in
  (exists message, r.1 = Throw (ThrownError (JsError message)))
  /\ attestations r.2 = S (attestations w)
  /\ last (trace r.2) = Some (EvRequestAttestation abiEncodedRequest fee).
Proof.
  intros Hzero. cbn zeta. rewrite submit_run, Hzero. cbn [fst snd Z.eqb].
  split; [eauto |]. split.
  - unfold attestations. cbn [trace log called]. rewrite !count_snoc. cbn. lia.
  - cbn [trace log called]. by rewrite last_snoc.
Qed.

End SubmitFacts.


Lemma submit_zero_epoch_after_sending_witness :
  let r := FDCService.submitAttestationRequest zeroEpochEnv "0xdead" (initialWorld 0) in
  attestations r.2 = 1%nat.
Proof.
  apply (submit_zero_epoch_after_sending zeroEpochEnv "0xdead" (initialWorld 0) 7 100
           eq_refl eq_refl eq_refl).
Defined.

(** *** FDCService.waitForRoundFinalization: what its result means *)

Section WaitOutcome.
Variable env : Env.

Lemma finalization_loop_outcome (pollingOptions : PollingOptions.t)
    (protocolId roundId startTime : Z) (fuel : nat) :
  forall c n w,
    wait_outcome env pollingOptions startTime c n w
      (FDCService.finalization_loop env pollingOptions protocolId roundId startTime
         fuel c n w).
Proof.
  induction fuel as [|fuel IH]; intros c n w; [done |].
  cbn [FDCService.finalization_loop].
  unfold bind, next_call, emit, settle, now. cbn beta iota.
  destruct (isFinalized env (calls w ChRelay)) as [t|[|]] eqn:Eoracle.
  - unfold wait_outcome. cbn [fst]. left. eauto.
  - unfold FDCService.progress, when, emit, ret, wait_outcome.
    destruct (bool_decide _); cbn [fst snd calls trace log];
      (exists O; rewrite calls_called_same, Nat.add_0_r;
       split; [lia |]; split; [done |]; split; [intros j Hj; lia |];
       cbn [intervals trace called]; rewrite ?sleeps_app; cbn;
       by rewrite ?app_nil_r).
  - cbn [clock log called].
    destruct (FDCService.deadlinePassed pollingOptions (clock w - startTime)) eqn:Edl.
    + unfold wait_outcome, throw. cbn [fst snd clock log called]. right.
      unfold FDCService.deadlinePassed in Edl.
      destruct (PollingOptions.maxWaitTimeMs pollingOptions) as [m|]; [| done].
      apply andb_prop in Edl as [Hm Hlt]. unfold JS.truthyZ in Hm.
      apply Z.ltb_lt in Hlt.
      eexists _, m. split; [reflexivity |]. split; [done |].
      split; [by destruct (Z.eqb_spec m 0) | lia].
    + unfold FDCService.progress, when, emit, sleep, ret.
      destruct (bool_decide _);
        match goal with
        | |- context [FDCService.finalization_loop _ _ _ _ _ _ ?c' ?n' ?w'] =>
            specialize (IH c' n' w'); unfold wait_outcome in *;
              destruct (FDCService.finalization_loop env pollingOptions protocolId
                          roundId startTime fuel c' n' w') as [[[]|t|] w3];
              cbn [fst snd] in *; [| exact IH | done];
              destruct IH as (k & Hcalls & Htrue & Hfalse & Hsleeps);
              cbn [calls trace advance log] in Hcalls, Htrue, Hfalse, Hsleeps;
              rewrite calls_called_same in Hcalls, Htrue, Hfalse;
              exists (S k);
              (split; [lia |]);
              (split; [by replace (calls w ChRelay + S k)%nat
                         with (S (calls w ChRelay) + k)%nat by lia |]);
              (split;
                 [intros [|j] Hj;
                    [by rewrite Nat.add_0_r
                    | replace (calls w ChRelay + S j)%nat
                        with (S (calls w ChRelay) + j)%nat by lia;
                      apply Hfalse; lia] |]);
              rewrite Hsleeps; cbn [trace called];
              rewrite ?sleeps_app; cbn; by rewrite ?app_nil_r, <- ?app_assoc
        end.
Qed.


End WaitOutcome.

(** *** FDCService.retrieveProof *)

Section Keeps.
Context {X : Type}.
Variable f : World -> X.

Lemma keeps_ret {A} (a : A) : keeps f (ret a).
Proof. by intros w. Qed.

Lemma keeps_throw {A} (e : Error) : keeps f (throw (A:=A) e).
Proof. by intros w. Qed.

Lemma keeps_settle {A} (r : Thrown + A) : keeps f (settle r).
Proof. intros w. by destruct r. Qed.

Lemma keeps_out_of_fuel {A} : keeps f (out_of_fuel (A:=A)).
Proof. by intros w. Qed.

Lemma keeps_now : keeps f now.
Proof. by intros w. Qed.

Lemma keeps_bind {A B} (m : M A) (k : A -> M B) :
  keeps f m -> (forall a, keeps f (k a)) -> keeps f (bind m k).
Proof.
  intros Hm Hk w. unfold bind. specialize (Hm w).
  destruct (m w) as [[a|t|] w1]; cbn in *; [| done | done].
  by rewrite Hk.
Qed.

Lemma keeps_when (b : bool) (m : M unit) : keeps f m -> keeps f (when b m).
Proof. intros Hm. destruct b; [done | apply keeps_ret]. Qed.

End Keeps.

Section RetrieveFacts.
Variable env : Env.

Lemma cache_emit (e : Event) : keeps cache (emit e).
Proof. by intros w. Qed.

Lemma cache_next_call (ch : Channel) : keeps cache (next_call ch).
Proof. by intros w. Qed.

Lemma cache_sleep (ms : Q) : keeps cache (sleep env ms).
Proof. by intros w. Qed.

Lemma cache_progress (pollingOptions : PollingOptions.t) (message : string) :
  keeps cache (FDCService.progress pollingOptions message).
Proof. unfold FDCService.progress. apply keeps_when, cache_emit. Qed.

Lemma cache_finalization_loop (pollingOptions : PollingOptions.t)
    (protocolId roundId startTime : Z) (fuel : nat) :
  forall c n,
    keeps cache
      (FDCService.finalization_loop env pollingOptions protocolId roundId startTime
         fuel c n).
Proof.
  induction fuel as [|fuel IH]; intros c n; cbn [FDCService.finalization_loop];
    [apply keeps_out_of_fuel |].
  apply keeps_bind; [apply cache_next_call | intros i].
  apply keeps_bind; [apply cache_emit | intros _].
  apply keeps_bind; [apply keeps_settle | intros finalized].
  destruct finalized; [apply cache_progress |].
  apply keeps_bind; [apply keeps_now | intros t].
  cbn zeta. destruct (FDCService.deadlinePassed _ _); [apply keeps_throw |].
  apply keeps_bind; [apply cache_progress | intros _].
  apply keeps_bind; [apply cache_sleep | intros _].
  apply IH.
Qed.

Lemma cache_waitForRoundFinalization (self : FDCService.t) (roundId : Z)
    (options : PollingOptions.t) (fuel : nat) :
  keeps cache (FDCService.waitForRoundFinalization env self roundId options fuel).
Proof.
  unfold FDCService.waitForRoundFinalization.
  apply keeps_bind; [apply keeps_now | intros t]. apply cache_finalization_loop.
Qed.

(** The loop of retrieveProof leaves the cache alone, and the proof it breaks
    with is a payload the DA layer served with [response_hex] filled in. *)
Lemma proof_loop_result (pollingOptions : PollingOptions.t) (url : string)
    (abiEncodedRequest : string) (roundId startTime : Z) (fuel : nat) :
  forall w,
    let r := FDCService.proof_loop env pollingOptions url abiEncodedRequest roundId
               startTime fuel w in
    cache r.2 = cache w
    /\ forall o, r.1 = Ok o ->
         exists data n httpStatus statusText,
           o = Some data
           /\ response_hex data <> ""
           /\ daLayer env n
              = FetchResponse true httpStatus statusText
                  (inr {| pp_response_hex := Some (response_hex data);
                          pp_attestation_type := attestation_type data;
                          pp_proof := proof data |}).
Proof.
  induction fuel as [|fuel IH]; intros w; cbn zeta; [done |].
  set (P := fun (w : World) (r : Res (option ProofData) * World) =>
              cache r.2 = cache w
              /\ forall o, r.1 = Ok o ->
                   exists data n httpStatus statusText,
                     o = Some data
                     /\ response_hex data <> ""
                     /\ daLayer env n
                        = FetchResponse true httpStatus statusText
                            (inr {| pp_response_hex := Some (response_hex data);
                                    pp_attestation_type := attestation_type data;
                                    pp_proof := proof data |})).
  change (P w (FDCService.proof_loop env pollingOptions url abiEncodedRequest roundId
                 startTime (S fuel) w)).
  cbn [FDCService.proof_loop].
  unfold bind at 1 2. unfold next_call, emit. cbn beta iota.
  assert (forall w0 : World,
             cache w0 = cache w ->
             P w ((let* t := now in
                   let elapsed := t - startTime in
                   if FDCService.deadlinePassed pollingOptions elapsed then
                     throw (FDCTimeoutError
                              ("Proof generation timed out after "
                                 +:+ pretty (default 0 (PollingOptions.maxWaitTimeMs pollingOptions))
                                 +:+ "ms")
                              (default 0 (PollingOptions.maxWaitTimeMs pollingOptions)))
                   else
                     do FDCService.progress pollingOptions
                          ("Waiting for proof generation... ("
                             +:+ pretty (JS.roundDiv1000 elapsed) +:+ "s elapsed)") then
                     do sleep env
                          (JS.orDefaultQ (PollingOptions.checkIntervalMs pollingOptions)
                             (proofGenerationCheckIntervalMs (fdcConfig env))) then
                     FDCService.proof_loop env pollingOptions url abiEncodedRequest
                       roundId startTime fuel) w0)) as Hrest.
  { intros w0 Hw0. unfold bind at 1. unfold now. cbn beta iota.
    destruct (FDCService.deadlinePassed _ _); [subst P; by cbn |].
    unfold FDCService.progress, when, bind, emit, sleep, ret.
    destruct (bool_decide _);
      match goal with
      | |- context [FDCService.proof_loop _ _ _ _ _ _ _ ?w'] =>
          destruct (IH w') as [Hcache Hres]; cbn zeta in Hcache, Hres;
            subst P; cbn beta; split; [by rewrite Hcache | exact Hres]
      end. }
  destruct (daLayer env (calls w ChDALayer)) as [t|ok st txt json] eqn:Eda.
  - subst P. by cbn.
  - destruct ok.
    + unfold bind at 1 2. unfold settle at 1.
      destruct json as [t|data]; [subst P; by cbn |].
      unfold ret at 1. cbn beta iota.
      destruct (FDCService.asProofData data) as [p|] eqn:Edata; [| by apply Hrest].
      subst P. cbn. split; [done |]. intros o [= <-].
      unfold FDCService.asProofData in Edata.
      destruct data as [[hex|] ty pr]; cbn in Edata; [| done].
      destruct (JS.truthyStr hex) eqn:Ehex; [| done]. injection Edata as <-. cbn.
      exists {| response_hex := hex; attestation_type := ty; proof := pr |}.
      exists (calls w ChDALayer), st, txt. split; [done |]. split; [| exact Eda].
      unfold JS.truthyStr in Ehex. cbn. intros Hhex. by rewrite Hhex in Ehex.
    + unfold bind at 1. unfold ret at 1. cbn beta iota. by apply Hrest.
Qed.

Variable self : FDCService.t.
Variable abiEncodedRequest : string.
Variable roundId : Z.

#[local] Abbreviation key := (ProofCache.generateKey abiEncodedRequest roundId).

Lemma get_inversion (c : ProofCache.t) (k : string) (w w0 : World)
    (o : Res (option ProofData)) :
  ProofCache.get c k w = (o, w0) ->
  clock w0 = clock w /\ trace w0 = trace w /\ calls w0 = calls w
  /\ ((exists data timestamp,
          o = Ok (Some data) /\ w0 = w /\ cache w !! k = Some (data, timestamp)
          /\ clock w - timestamp <= ProofCache.ttl c)
      \/ (o = Ok None /\ cache w0 !! k = None
          /\ forall k', cache w0 !! k' = None \/ cache w0 !! k' = cache w !! k')).
Proof.
  unfold ProofCache.get. destruct (cache w !! k) as [[data ts]|] eqn:E.
  - destruct (Z.ltb_spec (ProofCache.ttl c) (clock w - ts)); intros [= <- <-]; cbn.
    + do 3 (split; [done |]). right. split; [done |].
      split; [apply lookup_delete_eq |]. intros k'.
      destruct (decide (k = k')) as [->|Hne];
        [left; apply lookup_delete_eq | right; by apply lookup_delete_ne].
    + do 3 (split; [done |]). left. eauto 10.
  - intros [= <- <-]. do 3 (split; [done |]). right. eauto.
Qed.

(** X11. With caching on and a time to live that is not negative, a proof
    that retrieveProof has returned is in the cache under the key of its
    request and round, and is served from there for as long as the entry is
    not older than the time to live: a further retrieveProof, with whatever
    polling options, returns the same proof and changes nothing, so that it
    polls neither the relay nor the DA layer and does not sleep. *)
Theorem retrieveProof_served_again (c : ProofCache.t) (options : PollingOptions.t)
    (fuel : nat) (w w' : World) (data : ProofData) :
  FDCService.proofCache self = Some c ->
  0 <= ProofCache.ttl c ->
  FDCService.retrieveProof env self abiEncodedRequest roundId options fuel w
  = (Ok data, w') ->
  exists timestamp,
    cache w' !! key = Some (data, timestamp)
    /\ clock w' - timestamp <= ProofCache.ttl c
    /\ forall options' fuel' t,
         t - timestamp <= ProofCache.ttl c ->
         FDCService.retrieveProof env self abiEncodedRequest roundId options' fuel'
           (at_time t w')
         = (Ok data, at_time t w').
Proof.
  intros Hc Httl Hrun.
  assert (forall timestamp,
             cache w' !! key = Some (data, timestamp) ->
             forall options' fuel' t,
               t - timestamp <= ProofCache.ttl c ->
               FDCService.retrieveProof env self abiEncodedRequest roundId options'
                 fuel' (at_time t w')
               = (Ok data, at_time t w')) as Hagain.
  { intros ts Hts options' fuel' t Ht. unfold FDCService.retrieveProof.
    rewrite Hc. unfold bind at 1.
    by rewrite (get_fresh c key data (at_time t w') ts). }
  unfold FDCService.retrieveProof in Hrun. rewrite Hc in Hrun.
  unfold bind at 1 in Hrun.
  destruct (ProofCache.get c key w) as [o w0] eqn:Eget.
  apply get_inversion in Eget
    as (_ & _ & _ & [(d & ts & -> & -> & Hhit & Hfresh) | (-> & _ & _)]).
  - injection Hrun as <- <-. exists ts. eauto.
  - unfold bind at 1 in Hrun.
    destruct (FDCService.waitForRoundFinalization env self roundId _ fuel w0)
      as [[[]|t|] w1]; [| done | done].
    unfold bind at 1 in Hrun. unfold sleep at 1 in Hrun. cbn beta iota in Hrun.
    unfold bind at 1 in Hrun. unfold now at 1 in Hrun. cbn beta iota in Hrun.
    unfold bind at 1 in Hrun.
    destruct (FDCService.proof_loop env _ _ abiEncodedRequest roundId _ fuel _)
      as [[[p|]|t|] w3]; [| done | done | done].
    unfold bind, ProofCache.set, ret in Hrun. injection Hrun as <- <-.
    exists (clock w3). cbn [cache clock].
    assert (<[key := (p, clock w3)]> (cache w3) !! key = Some (p, clock w3)) as Hin
      by apply lookup_insert_eq.
    split; [exact Hin |]. split; [lia |].
    apply Hagain. exact Hin.
Qed.

End RetrieveFacts.

Lemma retrieveProof_served_again_witness :
  let self := WeatherInsuranceBase.fdcService scenarioEnv in
  let run := FDCService.retrieveProof scenarioEnv self "0xdead" 5 PollingOptions.empty 10
               (initialWorld 0) in
  FDCService.retrieveProof scenarioEnv self "0xdead" 5 PollingOptions.empty 0 run.2
  = (Ok {| response_hex := "0xbeef"; attestation_type := "X"; proof := [] |}, run.2).
Proof.
  intros self run.
  destruct (retrieveProof_served_again scenarioEnv self "0xdead" 5
              (ProofCache.new 3600000) PollingOptions.empty 10 (initialWorld 0) run.2
              {| response_hex := "0xbeef"; attestation_type := "X"; proof := [] |})
    as (ts & Hin & Hage & Hagain).
  - reflexivity.
  - cbn. lia.
  - vm_compute. reflexivity.
  - apply (Hagain PollingOptions.empty O (clock run.2)). exact Hage.
Defined.

Section RetrievePhases.
Variable env : Env.

Lemma emits_progress (P : Event -> Prop) (pollingOptions : PollingOptions.t)
    (message : string) :
  P (EvProgress message) -> emits P (FDCService.progress pollingOptions message).
Proof. intros HP. unfold FDCService.progress. by apply emits_when, emits_emit. Qed.

Lemma emits_finalization_loop (pollingOptions : PollingOptions.t)
    (protocolId roundId startTime : Z) (fuel : nat) :
  forall c n,
    emits is_wait_event
      (FDCService.finalization_loop env pollingOptions protocolId roundId startTime
         fuel c n).
Proof.
  assert (forall message, is_wait_event (EvProgress message)) as Hprog
    by (intros message; right; left; by exists message).
  induction fuel as [|fuel IH]; intros c n; cbn [FDCService.finalization_loop];
    [apply emits_out_of_fuel |].
  apply emits_bind; [apply emits_next_call | intros i].
  apply emits_bind; [apply emits_emit; left; eauto | intros _].
  apply emits_bind; [apply emits_settle | intros finalized].
  destruct finalized; [by apply emits_progress |].
  apply emits_bind; [apply emits_now | intros t].
  cbn zeta. destruct (FDCService.deadlinePassed _ _); [apply emits_throw |].
  apply emits_bind; [by apply emits_progress | intros _].
  apply emits_bind; [apply emits_sleep; right; right; by eexists | intros _].
  apply IH.
Qed.

Lemma emits_waitForRoundFinalization (self : FDCService.t) (roundId : Z)
    (options : PollingOptions.t) (fuel : nat) :
  emits is_wait_event (FDCService.waitForRoundFinalization env self roundId options fuel).
Proof.
  unfold FDCService.waitForRoundFinalization.
  apply emits_bind; [apply emits_now | intros t]. apply emits_finalization_loop.
Qed.

Lemma emits_proof_loop (pollingOptions : PollingOptions.t) (url : string)
    (abiEncodedRequest : string) (roundId startTime : Z) (fuel : nat) :
  emits is_proof_event
    (FDCService.proof_loop env pollingOptions url abiEncodedRequest roundId startTime fuel).
Proof.
  assert (forall message, is_proof_event (EvProgress message)) as Hprog
    by (intros message; right; left; by exists message).
  induction fuel as [|fuel IH]; cbn [FDCService.proof_loop];
    [apply emits_out_of_fuel |].
  apply emits_bind; [apply emits_next_call | intros i].
  apply emits_bind; [apply emits_emit; left; eauto | intros _].
  destruct (daLayer env _) as [t|ok st txt json]; [apply emits_settle |].
  apply emits_bind.
  { destruct ok; [| apply emits_ret].
    apply emits_bind; [apply emits_settle | intros data; apply emits_ret]. }
  intros found. destruct found; [apply emits_ret |].
  apply emits_bind; [apply emits_now | intros t].
  cbn zeta. destruct (FDCService.deadlinePassed _ _); [apply emits_throw |].
  apply emits_bind; [by apply emits_progress | intros _].
  apply emits_bind; [apply emits_sleep; right; right; by eexists | intros _].
  apply IH.
Qed.

Variable self : FDCService.t.
Variable abiEncodedRequest : string.
Variable roundId : Z.
Variable options : PollingOptions.t.
Variable fuel : nat.

(** The cache lookup at the head of retrieveProof. *)
Lemma retrieveProof_lookup (w : World) :
  exists o w0,
    match FDCService.proofCache self with
    | Some c => ProofCache.get c (ProofCache.generateKey abiEncodedRequest roundId)
    | None => ret None
    end w = (Ok o, w0)
    /\ clock w0 = clock w /\ trace w0 = trace w /\ calls w0 = calls w
    /\ (forall k, cache w0 !! k = None \/ cache w0 !! k = cache w !! k)
    /\ (forall data, o = Some data ->
          w0 = w /\ exists k timestamp, cache w !! k = Some (data, timestamp)).
Proof.
  destruct (FDCService.proofCache self) as [c|].
  - destruct (ProofCache.get c (ProofCache.generateKey abiEncodedRequest roundId) w)
      as [o w0] eqn:Eget.
    apply get_inversion in Eget
      as (Hclock & Htrace & Hcalls & [(d & ts & -> & -> & Hhit & _) | (-> & _ & Hsub)]).
    + exists (Some d), w. do 4 (split; [done |]). split; [by right |].
      intros data [= <-]. eauto.
    + exists None, w0. do 4 (split; [done |]). split; [exact Hsub | done].
  - exists None, w. do 4 (split; [done |]). split; [by right | done].
Qed.

(** X12. retrieveProof asks the DA layer for the proof only after the relay
    has reported the round finalized and after the settle delay of 10 s: the
    events of a run are those of the finalization phase (relay polls,
    progress messages, sleeps), followed, if anything follows, by the sleep
    of 10000 ms and then the proof phase (DA requests, progress messages,
    sleeps), and something follows only if the relay has answered true
    during this run. *)
Theorem retrieveProof_phases (w : World) :
  let r := FDCService.retrieveProof env self abiEncodedRequest roundId options fuel w in
  exists pre post,
    trace r.2 = trace w ++ pre ++ post
    /\ Forall is_wait_event pre
    /\ (post = []
        \/ (exists i, (calls w ChRelay <= i)%nat /\ isFinalized env i = inr true)
           /\ exists rest, post = EvSleep 10000 :: rest /\ Forall is_proof_event rest).
Proof.
  cbn zeta. unfold FDCService.retrieveProof.
  destruct (retrieveProof_lookup w) as (o & w0 & Hget & _ & Htrace & Hcalls & _ & _).
  unfold bind at 1. rewrite Hget.
  destruct o as [hit|].
  { exists [], []. cbn. rewrite app_nil_r. split; [done |]. split; [constructor | by left]. }
  set (pollingOptions := PollingOptions.merge (FDCService.defaultPollingOptions self) options).
  destruct (emits_waitForRoundFinalization self roundId pollingOptions fuel w0)
    as (pre & Hpre & Hwait).
  pose proof (finalization_loop_outcome env
                (PollingOptions.merge (FDCService.defaultPollingOptions self) pollingOptions)
                (fdcProtocolId env) roundId (clock w0) fuel
                (JS.orDefaultQ
                   (PollingOptions.checkIntervalMs
                      (PollingOptions.merge (FDCService.defaultPollingOptions self)
                         pollingOptions)) 30000) 0 w0) as Hout.
  unfold wait_outcome in Hout.
  change (FDCService.finalization_loop env _ _ roundId (clock w0) fuel _ 0 w0)
    with (FDCService.waitForRoundFinalization env self roundId pollingOptions fuel w0)
    in Hout.
  unfold bind at 1.
  destruct (FDCService.waitForRoundFinalization env self roundId pollingOptions fuel w0)
    as [[[]|t|] w1]; cbn [fst snd] in *.
  - destruct Hout as (k & _ & Htrue & _).
    unfold bind at 1. unfold sleep at 1. cbn beta iota.
    unfold bind at 1. unfold now at 1. cbn beta iota.
    set (w2 := advance _ _).
    destruct (emits_proof_loop pollingOptions
                (daLayerUrl (networkConfig env) +:+ "api/v1/fdc/proof-by-request-round-raw")
                abiEncodedRequest roundId (clock w2) fuel w2) as (rest & Hrest & Hproof).
    assert (trace w2 = trace w ++ pre ++ [EvSleep 10000]) as Hw2
      by (subst w2; cbn [trace advance log]; by rewrite Hpre, Htrace, <- app_assoc).
    exists pre, (EvSleep 10000 :: rest).
    split; [| split; [exact Hwait |]].
    + unfold bind at 1.
      destruct (FDCService.proof_loop env pollingOptions _ abiEncodedRequest roundId
                  (clock w2) fuel w2) as [[[p|]|t|] w3]; cbn [snd] in *;
        try (destruct (FDCService.proofCache self); cbn);
        rewrite Hrest, Hw2, <- !app_assoc; done.
    + right. split; [| eauto].
      exists (calls w0 ChRelay + k)%nat. rewrite Hcalls in *. split; [lia | done].
  - exists pre, []. rewrite app_nil_r, Hpre, Htrace. split; [done |].
    split; [exact Hwait | by left].
  - exists pre, []. rewrite app_nil_r, Hpre, Htrace. split; [done |].
    split; [exact Hwait | by left].
Qed.

(** X13. retrieveProof keeps the cache clean: if every cached proof has a
    non-empty response_hex before, so it is after, whether the call succeeds
    or fails; and the proof it returns has a non-empty response_hex. *)
Theorem retrieveProof_proof_has_response (w : World) :
  cache_wf w ->
  let r := FDCService.retrieveProof env self abiEncodedRequest roundId options fuel w in
  cache_wf r.2 /\ forall data, r.1 = Ok data -> response_hex data <> "".
Proof.
  intros Hwf. cbn zeta.
  set (P := fun r : Res ProofData * World =>
              cache_wf r.2 /\ forall data, r.1 = Ok data -> response_hex data <> "").
  change (P (FDCService.retrieveProof env self abiEncodedRequest roundId options fuel w)).
  unfold FDCService.retrieveProof.
  destruct (retrieveProof_lookup w) as (o & w0 & Hget & _ & _ & _ & Hsub & Hhit).
  unfold bind at 1. rewrite Hget.
  assert (cache_wf w0) as Hwf0.
  { intros k d ts Hk. destruct (Hsub k) as [Hnone | Hsame]; [congruence |].
    rewrite Hsame in Hk. by apply (Hwf k d ts). }
  destruct o as [hit|].
  { destruct (Hhit hit eq_refl) as (-> & k & ts & Hk).
    subst P. cbn. split; [exact Hwf |].
    intros data [= <-]. by apply (Hwf k hit ts). }
  set (pollingOptions := PollingOptions.merge (FDCService.defaultPollingOptions self) options).
  pose proof (cache_waitForRoundFinalization env self roundId pollingOptions fuel w0)
    as Hwait.
  unfold bind at 1.
  destruct (FDCService.waitForRoundFinalization env self roundId pollingOptions fuel w0)
    as [[[]|t|] w1]; cbn [fst snd] in *;
    [| subst P; split; [intros k d ts; cbn; rewrite Hwait; apply Hwf0 | done]
     | subst P; split; [intros k d ts; cbn; rewrite Hwait; apply Hwf0 | done]].
  unfold bind at 1. unfold sleep at 1. cbn beta iota.
  unfold bind at 1. unfold now at 1. cbn beta iota.
  set (w2 := advance _ _).
  assert (cache w2 = cache w0) as Hw2 by (subst w2; cbn; exact Hwait).
  destruct (proof_loop_result env pollingOptions
              (daLayerUrl (networkConfig env) +:+ "api/v1/fdc/proof-by-request-round-raw")
              abiEncodedRequest roundId (clock w2) fuel w2) as [Hcache Hres].
  cbn zeta in Hcache, Hres.
  unfold bind at 1.
  destruct (FDCService.proof_loop env pollingOptions _ abiEncodedRequest roundId
              (clock w2) fuel w2) as [[[p|]|t|] w3]; cbn [fst snd] in *.
  - destruct (Hres (Some p) eq_refl) as (d & n & st & txt & [= <-] & Hhex & _).
    subst P.
    destruct (FDCService.proofCache self) as [c|];
      unfold bind, ProofCache.set, ret; cbn [fst snd cache].
    + split; [| by intros data [= <-]].
      intros k d ts. cbn [cache].
      destruct (decide (ProofCache.generateKey abiEncodedRequest roundId = k))
        as [<-|Hne].
      * rewrite lookup_insert_eq. by intros [= <- <-].
      * rewrite lookup_insert_ne by done. rewrite Hcache, Hw2. apply Hwf0.
    + split; [| by intros data [= <-]].
      intros k d ts. rewrite Hcache, Hw2. apply Hwf0.
  - destruct (Hres None eq_refl) as (d & n & st & txt & [=] & _).
  - subst P. split; [| done]. intros k d ts. cbn. rewrite Hcache, Hw2. apply Hwf0.
  - subst P. split; [| done]. intros k d ts. cbn. rewrite Hcache, Hw2. apply Hwf0.
Qed.

End RetrievePhases.

Lemma retrieveProof_proof_has_response_witness :
  let r := FDCService.retrieveProof scenarioEnv (WeatherInsuranceBase.fdcService scenarioEnv)
             "0xdead" 5 PollingOptions.empty 10 (initialWorld 0) in
  cache_wf r.2.
Proof.
  apply (retrieveProof_proof_has_response scenarioEnv
           (WeatherInsuranceBase.fdcService scenarioEnv) "0xdead" 5 PollingOptions.empty 10
           (initialWorld 0)).
  intros k d ts Hk. cbn in Hk. by rewrite lookup_empty in Hk.
Defined.

(** *** FDCService.executeAttestationWorkflow: what is submitted *)

Section WorkflowFacts.
Variable env : Env.
Variable self : FDCService.t.

Lemma retrieveProof_emits (abiEncodedRequest : string) (roundId : Z)
    (options : PollingOptions.t) (fuel : nat) :
  emits (fun e => is_wait_event e \/ is_proof_event e)
    (FDCService.retrieveProof env self abiEncodedRequest roundId options fuel).
Proof.
  unfold FDCService.retrieveProof.
  apply emits_bind;
    [destruct (FDCService.proofCache self); auto with emits | intros cached].
  destruct cached; [apply emits_ret |].
  apply emits_bind.
  { eapply emits_weaken; [| apply emits_waitForRoundFinalization]. by left. }
  intros _.
  apply emits_bind; [apply emits_sleep; left; right; right; by eexists | intros _].
  apply emits_bind; [apply emits_now | intros startTime].
  apply emits_bind.
  { eapply emits_weaken; [| apply emits_proof_loop]. by right. }
  intros found. destruct found; [| apply emits_throw].
  apply emits_bind; [destruct (FDCService.proofCache self); auto with emits | intros _].
  apply emits_ret.
Qed.

(** X14. The workflow submits nothing the verifier has not encoded: every
    attestation request that a run sends to the FDC hub carries the
    abiEncodedRequest of an answer the verifier gave with a 2xx response and
    the status VALID, and is paid with a fee the fee configuration quoted. *)
Theorem workflow_submits_verifier_encoding (params : AttestationRequestParams)
    (attestationType : AttestationType) (sourceId : SourceId)
    (pollingOptions : option PollingOptions.t) (fuel : nat) (w : World) :
  let r := FDCService.executeAttestationWorkflow env self params attestationType
             sourceId pollingOptions fuel w in
  exists evs,
    trace r.2 = trace w ++ evs
    /\ forall abiEncoded value,
         EvRequestAttestation abiEncoded value ∈ evs ->
         (exists n httpStatus statusText data,
             verifier env n = FetchResponse true httpStatus statusText (inr data)
             /\ status data = "VALID"
             /\ abiEncodedRequest data = abiEncoded)
         /\ exists i, getRequestFee env i = inr value.
Proof.
  cbn zeta. unfold FDCService.executeAttestationWorkflow.
  destruct (prepare_emits env self params attestationType sourceId w)
    as (evs1 & Htrace1 & Hevs1).
  assert (forall abiEncoded value, EvRequestAttestation abiEncoded value ∉ evs1) as Hno1.
  { intros a v Hin. rewrite Forall_forall in Hevs1.
    destruct (Hevs1 _ Hin) as [? | [? ?]]; discriminate. }
  unfold bind at 1.
  destruct (FDCService.prepareAttestationRequest env self params attestationType
              sourceId w) as [[prepared|t|] w1] eqn:Eprep; cbn [snd] in Htrace1;
    [| exists evs1; split; [done | intros a v Hin; by destruct (Hno1 a v)]
     | exists evs1; split; [done | intros a v Hin; by destruct (Hno1 a v)]].
  destruct (prepare_ok_valid env self params attestationType sourceId w w1 prepared Eprep)
    as (Hvalid & n & st & txt & Hverifier).
  pose proof (submitAttestationRequest_once env (abiEncodedRequest prepared) w1) as Hsub.
  cbn zeta in Hsub. unfold bind at 1.
  destruct (getRequestFee env (calls w1 ChRequestFee)) as [t0|fee] eqn:Efee.
  { rewrite Hsub. exists (evs1 ++ [EvGetRequestFee (abiEncodedRequest prepared)]).
    cbn [snd trace log called]. rewrite Htrace1, <- app_assoc. split; [done |].
    intros a v [Hin | Hin%list_elem_of_singleton]%elem_of_app; [| discriminate].
    by destruct (Hno1 a v). }
  destruct Hsub as [Hw2 _].
  set (submitted := [EvGetRequestFee (abiEncodedRequest prepared);
                     EvRequestAttestation (abiEncodedRequest prepared) fee]).
  assert (forall evs3 a v,
             Forall (fun e => is_wait_event e \/ is_proof_event e) evs3 ->
             EvRequestAttestation a v ∈ evs1 ++ submitted ++ evs3 ->
             (exists n httpStatus statusText data,
                 verifier env n = FetchResponse true httpStatus statusText (inr data)
                 /\ status data = "VALID" /\ abiEncodedRequest data = a)
             /\ exists i, getRequestFee env i = inr v) as Hfound.
  { intros evs3 a v Hevs3 [Hin | [Hin | Hin]%elem_of_app]%elem_of_app.
    - by destruct (Hno1 a v).
    - subst submitted. apply elem_of_cons in Hin as [Hin | Hin%list_elem_of_singleton];
        [discriminate |]. injection Hin as -> ->. split; [eauto 10 | eauto].
    - rewrite Forall_forall in Hevs3.
      destruct (Hevs3 _ Hin) as [[(? & ? & ?) | [(? & ?) | (? & ?)]]
                                | [(? & ? & ? & ?) | [(? & ?) | (? & ?)]]];
        discriminate. }
  destruct (FDCService.submitAttestationRequest env (abiEncodedRequest prepared) w1)
    as [[roundInfo|t|] w2]; cbn [snd] in Hw2.
  - unfold bind at 1.
    destruct (retrieveProof_emits (abiEncodedRequest prepared) (roundId roundInfo)
                (default PollingOptions.empty pollingOptions) fuel w2)
      as (evs3 & Htrace3 & Hevs3).
    exists (evs1 ++ submitted ++ evs3). split.
    + destruct (FDCService.retrieveProof env self (abiEncodedRequest prepared)
                  (roundId roundInfo) (default PollingOptions.empty pollingOptions)
                  fuel w2) as [[proof|t|] w3]; unfold ret; cbn [snd] in *;
        rewrite Htrace3, Hw2; cbn [trace log called];
        rewrite Htrace1, <- !app_assoc; done.
    + intros a v. by apply Hfound.
  - exists (evs1 ++ submitted ++ []). split.
    + cbn [snd]. rewrite Hw2. cbn [trace log called].
      rewrite Htrace1, <- !app_assoc. done.
    + intros a v. apply Hfound. constructor.
  - exists (evs1 ++ submitted ++ []). split.
    + cbn [snd]. rewrite Hw2. cbn [trace log called].
      rewrite Htrace1, <- !app_assoc. done.
    + intros a v. apply Hfound. constructor.
Qed.

End WorkflowFacts.

Lemma workflow_submits_verifier_encoding_witness :
  exists evs,
    trace (FDCService.executeAttestationWorkflow scenarioEnv
             (FDCService.new scenarioEnv retryThrice) scenarioParams Web2Json PublicWeb2
             None 10 (initialWorld 0)).2 = evs
    /\ forall abiEncoded value,
         EvRequestAttestation abiEncoded value ∈ evs ->
         exists i, getRequestFee scenarioEnv i = inr value.
Proof.
  destruct (workflow_submits_verifier_encoding scenarioEnv
              (FDCService.new scenarioEnv retryThrice) scenarioParams Web2Json PublicWeb2
              None 10 (initialWorld 0)) as (evs & Htrace & Hsent).
  exists evs. split; [exact Htrace |].
  intros abiEncoded value Hin. exact (proj2 (Hsent abiEncoded value Hin)).
Defined.

(** *** ProofCache: keys *)

Section CacheKeys.
Variable c : ProofCache.t.

(** X15. The entries of the cache do not interfere: storing a proof under
    one key, or evicting an expired entry of one key, changes nothing about
    what [get] returns for any other key; and after [clear] every [get], at
    whatever time, returns absent. *)
Theorem cache_keys_independent (key key' : string) (w : World) :
  key <> key' ->
  (forall data,
      (ProofCache.get c key' (ProofCache.set c key data w).2).1
      = (ProofCache.get c key' w).1)
  /\ (ProofCache.get c key' (ProofCache.get c key w).2).1 = (ProofCache.get c key' w).1
  /\ (forall t,
        ProofCache.get c key' (at_time t (ProofCache.clear c w).2)
        = (Ok None, at_time t (ProofCache.clear c w).2)).
Proof.
  intros Hne. split; [| split].
  - intros data. unfold ProofCache.get, ProofCache.set. cbn [snd cache clock].
    rewrite lookup_insert_ne by done.
    destruct (cache w !! key') as [[d ts]|]; [destruct (_ <? _) |]; done.
  - assert (cache (ProofCache.get c key w).2 !! key' = cache w !! key'
            /\ clock (ProofCache.get c key w).2 = clock w) as [Hcache Hclock].
    { unfold ProofCache.get.
      destruct (cache w !! key) as [[d ts]|]; [destruct (_ <? _) |]; cbn; try done.
      by rewrite lookup_delete_ne. }
    unfold ProofCache.get at 1 3. rewrite Hcache, Hclock.
    destruct (cache w !! key') as [[d ts]|]; [destruct (_ <? _) |]; done.
  - intros t. apply get_absent. cbn. apply lookup_empty.
Qed.

End CacheKeys.

Lemma cache_keys_independent_witness :
  let c := ProofCache.new 1000 in
  let data := {| response_hex := "0xbeef"; attestation_type := "X"; proof := [] |} in
  (ProofCache.get c "0xdead:6" (ProofCache.set c "0xdead:5" data (initialWorld 0)).2).1
  = Ok None.
Proof.
  intros c data.
  destruct (cache_keys_independent c "0xdead:5" "0xdead:6" (initialWorld 0))
    as (Hset & _ & _); [discriminate |].
  rewrite Hset. reflexivity.
Defined.

Lemma pretty_N_char_no_colon (x : N) : pretty_N_char x <> ":"%char.
Proof. unfold pretty_N_char. by repeat case_match. Qed.

Lemma pretty_N_go_colon_free (x : N) :
  forall s, colon_free s -> colon_free (pretty_N_go x s).
Proof.
  induction (N.lt_wf_0 x) as [x _ IH]; intros s Hs.
  assert (x = 0 \/ 0 < x)%N as [-> | Hpos] by lia.
  - by rewrite pretty_N_go_0.
  - rewrite pretty_N_go_step by done. apply IH; [by apply N.div_lt |].
    cbn. split; [apply pretty_N_char_no_colon | exact Hs].
Qed.

Lemma pretty_Z_colon_free (z : Z) : colon_free (pretty z).
Proof.
  assert (forall p : positive, colon_free (pretty p)) as Hpos.
  { intros p. unfold pretty, pretty_positive, pretty, pretty_N.
    case_decide; [done |]. by apply pretty_N_go_colon_free. }
  destruct z as [|p|p]; unfold pretty, pretty_Z; [done | apply Hpos |].
  cbn. split; [done | apply Hpos].
Qed.

Lemma append_colon_inj (a b d1 d2 : string) :
  colon_free d1 -> colon_free d2 ->
  a +:+ ":" +:+ d1 = b +:+ ":" +:+ d2 ->
  a = b /\ d1 = d2.
Proof.
  intros H1 H2. revert b.
  assert (forall s d, colon_free (s +:+ ":" +:+ d) -> False) as Hcolon.
  { induction s as [|ch s IH]; intros d; cbn; [by intros [? _] | intros [_ ?]; eauto]. }
  induction a as [|ch a IH]; intros [|ch' b]; cbn.
  - by intros [= Heq].
  - intros [= Hch Heq]. change ("" +:+ d1) with d1 in Heq. subst.
    destruct (Hcolon b d2 H1).
  - intros [= Hch Heq]. change ("" +:+ d2) with d2 in Heq. subst.
    destruct (Hcolon a d1 H2).
  - intros [= Hch Heq]. destruct (IH b Heq) as [Ha Hd]. by subst.
Qed.

(** X16. Distinct fingerprints have distinct cache keys: the key of a request
    and a round determines both, whatever the request bytes are, even if
    they contain the separator, because the decimal of the round id does
    not. *)
Theorem generateKey_injective (request1 request2 : string) (round1 round2 : Z) :
  ProofCache.generateKey request1 round1 = ProofCache.generateKey request2 round2 ->
  request1 = request2 /\ round1 = round2.
Proof.
  unfold ProofCache.generateKey. intros Hkey.
  apply append_colon_inj in Hkey as [-> Hround];
    [| apply pretty_Z_colon_free | apply pretty_Z_colon_free].
  split; [done |]. by apply (inj pretty).
Qed.

Lemma generateKey_injective_witness :
  "0xdead:1" = "0xdead:1" /\ (2 : Z) = 2.
Proof.
  apply (generateKey_injective "0xdead:1" "0xdead:1" 2 2). reflexivity.
Defined.

(** *** FDCService.executeAttestationWorkflow: what is polled *)

Section WorkflowPolls.
Variable env : Env.
Variable abiEncodedRequest : string.
Variable roundId : Z.

Lemma polls_finalization_loop (pollingOptions : PollingOptions.t) (startTime : Z)
    (fuel : nat) :
  forall c n,
    emits (polls_for env abiEncodedRequest roundId)
      (FDCService.finalization_loop env pollingOptions (fdcProtocolId env) roundId
         startTime fuel c n).
Proof.
  induction fuel as [|fuel IH]; intros c n; cbn [FDCService.finalization_loop];
    [apply emits_out_of_fuel |].
  apply emits_bind; [apply emits_next_call | intros i].
  apply emits_bind; [by apply emits_emit | intros _].
  apply emits_bind; [apply emits_settle | intros finalized].
  destruct finalized; [by apply emits_progress |].
  apply emits_bind; [apply emits_now | intros t].
  cbn zeta. destruct (FDCService.deadlinePassed _ _); [apply emits_throw |].
  apply emits_bind; [by apply emits_progress | intros _].
  apply emits_bind; [by apply emits_sleep | intros _].
  apply IH.
Qed.

Lemma polls_proof_loop (pollingOptions : PollingOptions.t) (startTime : Z) (fuel : nat) :
  emits (polls_for env abiEncodedRequest roundId)
    (FDCService.proof_loop env pollingOptions
       (daLayerUrl (networkConfig env) +:+ "api/v1/fdc/proof-by-request-round-raw")
       abiEncodedRequest roundId startTime fuel).
Proof.
  induction fuel as [|fuel IH]; cbn [FDCService.proof_loop];
    [apply emits_out_of_fuel |].
  apply emits_bind; [apply emits_next_call | intros i].
  apply emits_bind; [by apply emits_emit | intros _].
  destruct (daLayer env _) as [t|ok st txt json]; [apply emits_settle |].
  apply emits_bind.
  { destruct ok; [| apply emits_ret].
    apply emits_bind; [apply emits_settle | intros data; apply emits_ret]. }
  intros found. destruct found; [apply emits_ret |].
  apply emits_bind; [apply emits_now | intros t].
  cbn zeta. destruct (FDCService.deadlinePassed _ _); [apply emits_throw |].
  apply emits_bind; [by apply emits_progress | intros _].
  apply emits_bind; [by apply emits_sleep | intros _].
  apply IH.
Qed.

Lemma polls_retrieveProof (self : FDCService.t) (options : PollingOptions.t)
    (fuel : nat) :
  emits (polls_for env abiEncodedRequest roundId)
    (FDCService.retrieveProof env self abiEncodedRequest roundId options fuel).
Proof.
  unfold FDCService.retrieveProof.
  apply emits_bind;
    [destruct (FDCService.proofCache self); auto with emits | intros cached].
  destruct cached; [apply emits_ret |].
  apply emits_bind.
  { unfold FDCService.waitForRoundFinalization.
    apply emits_bind; [apply emits_now | intros t]. apply polls_finalization_loop. }
  intros _.
  apply emits_bind; [by apply emits_sleep | intros _].
  apply emits_bind; [apply emits_now | intros startTime].
  apply emits_bind; [apply polls_proof_loop | intros found].
  destruct found; [| apply emits_throw].
  apply emits_bind; [destruct (FDCService.proofCache self); auto with emits | intros _].
  apply emits_ret.
Qed.

End WorkflowPolls.

(** X17. The workflow polls only for what it has submitted.  The events of a
    run split in two: before and including the submission there is no
    question to the relay or to the DA layer; after it, every question to the
    relay is about the protocol id of the FDC and one round, every request
    to the DA layer is for that round and for the bytes that were submitted,
    and the rest are progress messages and sleeps.  A run that polls or that
    succeeds has submitted, and the round of the [roundInfo] a successful run
    returns is the round it polled for. *)
Theorem workflow_polls_for_submission (env : Env) (self : FDCService.t)
    (params : AttestationRequestParams) (attestationType : AttestationType)
    (sourceId : SourceId) (pollingOptions : option PollingOptions.t) (fuel : nat)
    (w : World) :
  let r := FDCService.executeAttestationWorkflow env self params attestationType
             sourceId pollingOptions fuel w in
  exists before after abiEncoded round,
    trace r.2 = trace w ++ before ++ after
    /\ Forall (fun e => ~ is_poll e) before
    /\ Forall (polls_for env abiEncoded round) after
    /\ (after <> [] \/ (exists res, r.1 = Ok res) ->
        exists fee, last before = Some (EvRequestAttestation abiEncoded fee))
    /\ (forall res, r.1 = Ok res -> roundId res.1 = round).
Proof.
  set (P := fun r : Res (RoundInfo * ProofData) * World =>
    exists before after abiEncoded round,
      trace r.2 = trace w ++ before ++ after
      /\ Forall (fun e => ~ is_poll e) before
      /\ Forall (polls_for env abiEncoded round) after
      /\ (after <> [] \/ (exists res, r.1 = Ok res) ->
          exists fee, last before = Some (EvRequestAttestation abiEncoded fee))
      /\ (forall res, r.1 = Ok res -> roundId res.1 = round)).
  change (P (FDCService.executeAttestationWorkflow env self params attestationType
               sourceId pollingOptions fuel w)).
  unfold FDCService.executeAttestationWorkflow.
  destruct (prepare_emits env self params attestationType sourceId w)
    as (evs1 & Htrace1 & Hevs1).
  assert (Forall (fun e => ~ is_poll e) evs1) as Hno1.
  { eapply Forall_impl; [exact Hevs1 |].
    intros e [-> | [ms ->]] [(? & ? & ?) | (? & ? & ? & ?)]; discriminate. }
  assert (forall (t : Res (RoundInfo * ProofData)) w1 evs,
             (forall res, t <> Ok res) ->
             trace w1 = trace w ++ evs ->
             Forall (fun e => ~ is_poll e) evs ->
             P (t, w1)) as Hfails.
  { intros t w1 evs Ht Htr Hevs. exists evs, [], "", 0. cbn [fst snd].
    rewrite app_nil_r. split; [done |]. split; [done |]. split; [constructor |].
    split; [| intros res Hres; by destruct (Ht res)].
    intros [Hne | [res Hres]]; [done | by destruct (Ht res)]. }
  unfold bind at 1.
  destruct (FDCService.prepareAttestationRequest env self params attestationType
              sourceId w) as [[prepared|t|] w1] eqn:Eprep; cbn [snd] in Htrace1;
    [| by apply (Hfails _ _ evs1) | by apply (Hfails _ _ evs1)].
  pose proof (submitAttestationRequest_once env (abiEncodedRequest prepared) w1) as Hsub.
  cbn zeta in Hsub. unfold bind at 1.
  destruct (getRequestFee env (calls w1 ChRequestFee)) as [t0|fee] eqn:Efee.
  { rewrite Hsub.
    apply (Hfails _ _ (evs1 ++ [EvGetRequestFee (abiEncodedRequest prepared)]));
      [done | cbn [trace log called]; by rewrite Htrace1, <- app_assoc |].
    apply Forall_app. split; [done |].
    constructor; [| constructor].
    intros [(? & ? & ?) | (? & ? & ? & ?)]; discriminate. }
  destruct Hsub as [Hw2 _].
  set (submitted := [EvGetRequestFee (abiEncodedRequest prepared);
                     EvRequestAttestation (abiEncodedRequest prepared) fee]).
  assert (Forall (fun e => ~ is_poll e) (evs1 ++ submitted)) as Hno2.
  { apply Forall_app. split; [done |].
    repeat constructor; intros [(? & ? & ?) | (? & ? & ? & ?)]; discriminate. }
  assert (last (evs1 ++ submitted)
          = Some (EvRequestAttestation (abiEncodedRequest prepared) fee)) as Hlast.
  { subst submitted.
    change [EvGetRequestFee (abiEncodedRequest prepared);
            EvRequestAttestation (abiEncodedRequest prepared) fee]
      with ([EvGetRequestFee (abiEncodedRequest prepared)]
              ++ [EvRequestAttestation (abiEncodedRequest prepared) fee]).
    by rewrite app_assoc, last_snoc. }
  destruct (FDCService.submitAttestationRequest env (abiEncodedRequest prepared) w1)
    as [[roundInfo|t|] w2]; cbn [snd] in Hw2.
  - unfold bind at 1.
    destruct (polls_retrieveProof env (abiEncodedRequest prepared) (roundId roundInfo)
                self (default PollingOptions.empty pollingOptions) fuel w2)
      as (evs3 & Htrace3 & Hevs3).
    assert (trace w2 = trace w ++ evs1 ++ submitted) as Htrace2.
    { rewrite Hw2. cbn [trace log called]. by rewrite Htrace1, <- !app_assoc. }
    exists (evs1 ++ submitted), evs3, (abiEncodedRequest prepared), (roundId roundInfo).
    split; [| split; [done | split; [done | split; [eauto |]]]].
    + destruct (FDCService.retrieveProof env self (abiEncodedRequest prepared)
                  (roundId roundInfo) (default PollingOptions.empty pollingOptions)
                  fuel w2) as [[proof|t|] w3]; unfold ret; cbn [snd] in *;
        by rewrite Htrace3, Htrace2, <- !app_assoc.
    + destruct (FDCService.retrieveProof env self (abiEncodedRequest prepared)
                  (roundId roundInfo) (default PollingOptions.empty pollingOptions)
                  fuel w2) as [[proof|t|] w3]; unfold ret; cbn [fst];
        intros res [=]. by subst res.
  - apply (Hfails _ _ (evs1 ++ submitted)); [done | | done].
    rewrite Hw2. cbn [trace log called]. by rewrite Htrace1, <- !app_assoc.
  - apply (Hfails _ _ (evs1 ++ submitted)); [done | | done].
    rewrite Hw2. cbn [trace log called]. by rewrite Htrace1, <- !app_assoc.
Qed.

Lemma workflow_polls_for_submission_witness :
  exists before after abiEncoded round,
    trace (FDCService.executeAttestationWorkflow scenarioEnv
             (FDCService.new scenarioEnv retryThrice) scenarioParams Web2Json PublicWeb2
             None 10 (initialWorld 0)).2 = before ++ after
    /\ Forall (polls_for scenarioEnv abiEncoded round) after.
Proof.
  destruct (workflow_polls_for_submission scenarioEnv
              (FDCService.new scenarioEnv retryThrice) scenarioParams Web2Json PublicWeb2
              None 10 (initialWorld 0))
    as (before & after & abiEncoded & round & Htrace & _ & Hafter & _).
  exists before, after, abiEncoded, round. split; [exact Htrace | exact Hafter].
Defined.

(** *** AttestationRequestBuilder: order of the calls *)

Section BuilderOrder.
Import AttestationRequestBuilder.
Variable JsObject : Type.
Variable JSON_stringify : JsObject -> string.

#[local] Abbreviation Call := (AttestationRequestBuilder.Call JsObject).
#[local] Abbreviation perform := (AttestationRequestBuilder.perform JsObject JSON_stringify).
#[local] Abbreviation chain := (AttestationRequestBuilder.chain JsObject JSON_stringify).

Lemma chain_app (cs cs' : list Call) :
  chain (cs ++ cs') = foldl (fun b c => perform c b) (chain cs) cs'.
Proof. unfold AttestationRequestBuilder.chain. apply foldl_app. Qed.

(** X18. The order of the fluent calls matters only between calls of the
    same method: two neighbouring calls that assign different fields, neither
    of them [reset], can be exchanged anywhere in a chain without changing
    the builder, hence without changing what [build] returns. *)
Theorem builder_calls_commute (c1 c2 : Call) (cs cs' : list Call) :
  assigned c1 <> None -> assigned c2 <> None -> assigned c1 <> assigned c2 ->
  chain (cs ++ c1 :: c2 :: cs') = chain (cs ++ c2 :: c1 :: cs')
  /\ build (chain (cs ++ c1 :: c2 :: cs')) = build (chain (cs ++ c2 :: c1 :: cs')).
Proof.
  intros H1 H2 Hne.
  assert (chain (cs ++ c1 :: c2 :: cs') = chain (cs ++ c2 :: c1 :: cs')) as Heq.
  { rewrite !chain_app. cbn [foldl]. f_equal.
    destruct c1, c2; cbn in H1, H2, Hne; try done; reflexivity. }
  by rewrite Heq.
Qed.

(** X19. A later call overrides: of two neighbouring calls of the same
    method only the second counts, and [reset] makes the builder forget every
    call before it, so that a chain with a [reset] builds what the calls
    after the last [reset] build alone. *)
Theorem builder_last_call_wins (c1 c2 : Call) (cs cs' : list Call) :
  assigned c1 = assigned c2 ->
  chain (cs ++ c1 :: c2 :: cs') = chain (cs ++ c2 :: cs')
  /\ chain (cs ++ CallReset :: cs') = chain cs'.
Proof.
  intros Hsame. rewrite !chain_app. cbn [foldl]. split.
  - f_equal. destruct c1, c2; cbn in Hsame; try done; reflexivity.
  - reflexivity.
Qed.

End BuilderOrder.

Lemma builder_calls_commute_witness :
  AttestationRequestBuilder.chain unit (fun _ => "{}")
    [AttestationRequestBuilder.CallUrl "https://api"; AttestationRequestBuilder.CallMethod "POST";
     AttestationRequestBuilder.CallJqFilter "."]
  = AttestationRequestBuilder.chain unit (fun _ => "{}")
      [AttestationRequestBuilder.CallMethod "POST"; AttestationRequestBuilder.CallUrl "https://api";
       AttestationRequestBuilder.CallJqFilter "."].
Proof.
  apply (builder_calls_commute unit (fun _ => "{}")
           (AttestationRequestBuilder.CallUrl "https://api")
           (AttestationRequestBuilder.CallMethod "POST") []
           [AttestationRequestBuilder.CallJqFilter "."]); discriminate.
Defined.

Lemma builder_last_call_wins_witness :
  AttestationRequestBuilder.chain unit (fun _ => "{}")
    [AttestationRequestBuilder.CallUrl "https://old"; AttestationRequestBuilder.CallUrl "https://new"]
  = AttestationRequestBuilder.chain unit (fun _ => "{}")
      [AttestationRequestBuilder.CallUrl "https://new"].
Proof.
  apply (builder_last_call_wins unit (fun _ => "{}")
           (AttestationRequestBuilder.CallUrl "https://old")
           (AttestationRequestBuilder.CallUrl "https://new") [] []).
  reflexivity.
Defined.

(** *** Logger *)

Lemma string_app_assoc (s1 s2 s3 : string) : (s1 +:+ s2) +:+ s3 = s1 +:+ s2 +:+ s3.
Proof.
  induction s1 as [|ch s1 IH]; [done |].
  change (String ch ((s1 +:+ s2) +:+ s3) = String ch (s1 +:+ s2 +:+ s3)).
  by rewrite IH.
Qed.

Section LoggerFacts.
Import Logger.
Variable Any : Type.
Variable toISOString : Z -> string.

#[local] Abbreviation debug := (Logger.debug Any toISOString).
#[local] Abbreviation info := (Logger.info Any toISOString).
#[local] Abbreviation warn := (Logger.warn Any toISOString).
#[local] Abbreviation error := (Logger.error Any toISOString).

(** X20. What a logger writes depends on its level as follows: a debug
    message is written at level DEBUG only, an info message at DEBUG and
    INFO, a warning at every level but ERROR, and an error is written by
    every logger, whatever its options: its first console call carries the
    formatted line and the arguments, at most two more follow (the error
    object, then its stack), and all of them go to console.error. *)
Theorem logger_levels (self : Logger.t) (clock : Z) (message : string)
    (err : option ErrorObject) (args : list Any) :
  (debug self clock message args <> [] <-> level self = DEBUG)
  /\ (info self clock message args <> [] <-> level self = DEBUG \/ level self = INFO)
  /\ (warn self clock message args <> [] <-> level self <> ERROR)
  /\ exists rest,
       error self clock message err args
       = {| method := ConsoleError;
            arguments :=
              PString Any (formatMessage toISOString self clock "ERROR" message)
                :: map (PAny Any) args |} :: rest
       /\ Forall (fun c => method Any c = ConsoleError) rest
       /\ (length rest <= 2)%nat
       /\ (rest = [] <-> err = None).
Proof.
  unfold Logger.debug, Logger.info, Logger.warn, Logger.error, shouldLog.
  destruct self as [[] p ts]; cbn [level value Z.geb Z.compare Pos.compare
                                     Pos.compare_cont];
    (split; [| split; [| split]]);
    try (split; [intros H; try done; auto | intros H; try done;
                 try (destruct H; done)]);
    try (destruct err as [[e [s|]]|]; cbn [stack JS.falsyStr];
         [destruct (JS.truthyStr s) | |]; cbn [negb app];
         eexists; (split; [reflexivity |]);
         (split; [repeat constructor |]); (split; [cbn; lia |]); by split).
Qed.

(** X21. Child loggers nest: the child of a child is the child under the
    two prefixes joined by a colon, provided the parent has a prefix or the
    first additional prefix is not empty; and a child writes with the level
    and the timestamp setting of its parent, so it writes the messages its
    parent would write, to the same console methods. *)
Theorem child_nests (self : Logger.t) (a b : string) :
  prefix self <> "" \/ a <> "" ->
  child (child self a) b = child self (a +:+ ":" +:+ b)
  /\ forall clock message args err,
       map (method Any) (debug (child self a) clock message args)
       = map (method Any) (debug self clock message args)
       /\ map (method Any) (info (child self a) clock message args)
          = map (method Any) (info self clock message args)
       /\ map (method Any) (warn (child self a) clock message args)
          = map (method Any) (warn self clock message args)
       /\ map (method Any) (error (child self a) clock message err args)
          = map (method Any) (error self clock message err args).
Proof.
  intros Hne. split.
  - unfold child, new. cbn [opt_level opt_prefix opt_enableTimestamp default level
                              prefix enableTimestamp].
    unfold id. f_equal.
    destruct (prefix self) as [|ch p] eqn:Ep.
    + destruct Hne as [? | Ha]; [done |].
      destruct a as [|ch a]; [done |]. reflexivity.
    + change (JS.truthyStr (String ch p)) with true. cbn iota.
      change (JS.truthyStr (String ch p +:+ ":" +:+ a)) with true. cbn iota.
      by rewrite !string_app_assoc.
  - intros clock message args err.
    unfold Logger.debug, Logger.info, Logger.warn, Logger.error, shouldLog.
    cbn [child new opt_level opt_prefix opt_enableTimestamp default level].
    repeat split; destruct (_ >=? _); try reflexivity.
Qed.

End LoggerFacts.

Lemma child_nests_witness :
  let root := Logger.new {| Logger.opt_level := None; Logger.opt_prefix := None;
                            Logger.opt_enableTimestamp := None |} in
  Logger.prefix (Logger.child (Logger.child root "fdc") "retry") = "fdc:retry".
Proof.
  intros root.
  destruct (child_nests unit (fun _ => "T") root "fdc" "retry") as [Hnest _]; [by right |].
  rewrite Hnest. reflexivity.
Defined.
